(** * RAFit backend (backend/server.py): a shallow embedding and its properties

    The development follows the layout of [backend/server.py]:

    - the Python runtime pieces the handlers rely on (exceptions, [float]
      arithmetic, [round], [str] methods, [json.loads], the one regular
      expression, the cursor operations of the document store);
    - the helper functions [calculate_bmr], [calculate_tdee] and
      [calculate_daily_calorie_goal];
    - the response normalizer inside [analyze_food_with_ai];
    - the handlers [create_or_update_profile], [get_profile],
      [analyze_food], [save_meal], [adjust_portion], [get_meals_by_date],
      [get_meal_history] and [delete_meal] over an explicit store.

    Python's [float] is IEEE 754 binary64, which is what Rocq's primitive
    [float] is, so the arithmetic of the handlers is modelled bit for bit.
    Python's [str] is modelled by [string] holding the UTF-8 encoding of the
    text. *)

From Stdlib Require Import ZArith QArith Floats String Ascii List Lia.
From stdpp Require Import base option list sorting gmap strings.
Import ListNotations.

Set Warnings "-inexact-float,-register-all".
Set Default Proof Using "Type".

(* ================================================================== *)
(** * Part I: definitions                                              *)
(* ================================================================== *)

(** ** Exceptions and results *)

(** The exceptions the modelled code can raise.  [HTTPException] is FastAPI's;
    its [detail] is either a literal text or the f-string
    [f"{prefix}{str(e)}"] built from a caught exception [e], which is kept
    structured instead of being rendered to the runtime's message text. *)
Inductive exn : Type :=
| ValueError (msg : string)
| ZeroDivisionError
| OverflowError
| TypeError
| AttributeError
| KeyError (key : string)
| JSONDecodeError
| RecursionError
| HTTPException (status_code : Z) (detail : detail)
with detail : Type :=
| Text (s : string)
| StrOf (prefix : string) (e : exn).

(** A computation either returns a value or raises. *)
Inductive result (A : Type) : Type :=
| Ok (a : A)
| Raise (e : exn).
Arguments Ok {A} a.
Arguments Raise {A} e.

#[global] Instance result_ret : MRet result := @Ok.
#[global] Instance result_bind : MBind result :=
  λ A B f m, match m with Ok a => f a | Raise e => Raise e end.

(** [try: m except Exception as e: raise h e] *)
Definition try_except {A} (m : result A) (h : exn → exn) : result A :=
  match m with Ok a => Ok a | Raise e => Raise (h e) end.

(** [try: m except HTTPException: raise; except Exception as e: raise h e] *)
Definition try_except_reraise_http {A} (m : result A) (h : exn → exn) : result A :=
  match m with
  | Ok a => Ok a
  | Raise (HTTPException c d) => Raise (HTTPException c d)
  | Raise e => Raise (h e)
  end.

(** ** Python's [float] and [int] *)

(** The binary64 value nearest to the rational [q] (ties to even): what
    CPython's parser yields for a decimal literal such as [88.362]. *)
Definition float_of_Q (q : Q) : float :=
  match Qnum q with
  | Z0 => 0%float
  | Zpos n => SF2Prim (SFdiv prec emax (S754_finite false n 0) (S754_finite false (Qden q) 0))
  | Zneg n => SF2Prim (SFdiv prec emax (S754_finite true n 0) (S754_finite false (Qden q) 0))
  end.

(** [int] to [float], as done when an [int] meets a [float] in arithmetic:
    correctly rounded, [OverflowError] beyond the largest finite float. *)
Definition float_of_int (z : Z) : result float :=
  match binary_normalize prec emax z 0 false with
  | S754_infinity _ => Raise OverflowError
  | sf => Ok (SF2Prim sf)
  end.

(** [a / b] on floats: [ZeroDivisionError] for a zero divisor of either sign. *)
Definition float_truediv (a b : float) : result float :=
  if (b =? 0)%float then Raise ZeroDivisionError else Ok (a / b)%float.

Definition round_half_even (a b : Z) : Z :=
  let q := (a / b)%Z in
  let r := (a mod b)%Z in
  match (2 * r ?= b)%Z with
  | Lt => q
  | Gt => (q + 1)%Z
  | Eq => if Z.even q then q else (q + 1)%Z
  end.

(** [round(x, ndigits)] for a float [x] and [ndigits >= 0] (CPython's
    [float.__round__]): non-finite values and zeros round to themselves; a
    finite [x] is rounded, on its exact binary value and ties to even, to
    [ndigits] decimal places, and the decimal obtained is converted back to
    the nearest float.  The sign of [x] is kept. *)
Definition py_round (x : float) (ndigits : nat) : float :=
  match Prim2SF x with
  | S754_finite s m e =>
      if (0 <=? e)%Z then x
      else
        let p := (10 ^ Z.of_nat ndigits)%Z in
        match round_half_even (Zpos m * p) (2 ^ (- e)) with
        | Zpos n => SF2Prim (SFdiv prec emax (S754_finite s n 0) (S754_finite false (Z.to_pos p) 0))
        | _ => SF2Prim (S754_zero s)
        end
  | _ => x
  end.

(** The arithmetic the helper functions use, gathered as an interface; its
    instance [binary64] is what CPython executes. *)
Class FloatArith (F : Type) : Type := {
  lit : Q → F;
  of_int : Z → result F;
  fadd : F → F → F;
  fsub : F → F → F;
  fmul : F → F → F;
  flt : F → F → bool
}.

Declare Scope arith_scope.
Delimit Scope arith_scope with arith.
Infix "+" := fadd : arith_scope.
Infix "-" := fsub : arith_scope.
Infix "*" := fmul : arith_scope.
Infix "<?" := flt : arith_scope.

#[global] Instance binary64 : FloatArith float := {|
  lit := float_of_Q;
  of_int := float_of_int;
  fadd := PrimFloat.add;
  fsub := PrimFloat.sub;
  fmul := PrimFloat.mul;
  flt := PrimFloat.ltb
|}.

(** ** Python's [str] *)

Definition lower_ascii (c : ascii) : ascii :=
  let n := nat_of_ascii c in
  if (65 <=? n)%nat && (n <=? 90)%nat then ascii_of_nat (n + 32) else c.

(** [s.lower()] on the ASCII letters.  On other letters [str.lower] yields
    non-ASCII text, except for U+212A (to [k]), so against the ASCII keys
    used below, none of which has a [k], the comparison is the same. *)
Fixpoint lower (s : string) : string :=
  match s with
  | EmptyString => EmptyString
  | String c s' => String (lower_ascii c) (lower s')
  end.

Definition byte_in (lo hi : nat) (c : ascii) : bool :=
  (lo <=? nat_of_ascii c)%nat && (nat_of_ascii c <=? hi)%nat.

Definition byte_is (n : nat) (c : ascii) : bool := (nat_of_ascii c =? n)%nat.

(** The characters of [str.isspace], which [str.strip] removes and the
    [\s] of [re] matches, by the length of their UTF-8 encoding:
    U+0009-000D, U+001C-0020; U+0085, U+00A0; U+1680, U+2000-200A, U+2028,
    U+2029, U+202F, U+205F, U+3000. *)
Definition is_space1 (c : ascii) : bool :=
  byte_in 9 13 c || byte_in 28 32 c.

Definition is_space2 (c1 c2 : ascii) : bool :=
  byte_is 194 c1 && (byte_is 133 c2 || byte_is 160 c2).

Definition is_space3 (c1 c2 c3 : ascii) : bool :=
  (byte_is 225 c1 && byte_is 154 c2 && byte_is 128 c3)
  || (byte_is 226 c1 && byte_is 128 c2
      && (byte_in 128 138 c3 || byte_is 168 c3 || byte_is 169 c3 || byte_is 175 c3))
  || (byte_is 226 c1 && byte_is 129 c2 && byte_is 159 c3)
  || (byte_is 227 c1 && byte_is 128 c2 && byte_is 128 c3).

(** The text after its leading whitespace: [s.lstrip()], and what is left
    once [\s*] has matched at the start of [s]. *)
Fixpoint skip_spaces (s : string) : string :=
  match s with
  | String c1 s1 =>
      if is_space1 c1 then skip_spaces s1
      else
        match s1 with
        | String c2 s2 =>
            if is_space2 c1 c2 then skip_spaces s2
            else
              match s2 with
              | String c3 s3 => if is_space3 c1 c2 c3 then skip_spaces s3 else s
              | EmptyString => s
              end
        | EmptyString => s
        end
  | EmptyString => s
  end.

Definition all_spaces (s : string) : bool := String.eqb (skip_spaces s) "".

(** [s.rstrip()]: the shortest prefix whose remainder is all whitespace. *)
Fixpoint rstrip (s : string) : string :=
  match s with
  | EmptyString => EmptyString
  | String c s' => if all_spaces s then EmptyString else String c (rstrip s')
  end.

(** [s.strip()] *)
Definition strip (s : string) : string := rstrip (skip_spaces s).

(** [s.startswith(p)] *)
Definition startswith (s p : string) : bool := String.prefix p s.

(** [s] without its first [n] bytes. *)
Fixpoint drop_bytes (n : nat) (s : string) : string :=
  match n, s with
  | S n', String _ s' => drop_bytes n' s'
  | _, _ => s
  end.

(** [re.sub(r'```json\s*|```\s*', '', s)]: scanning from the left, at each
    position the first alternative that matches is taken, its [\s*] takes
    all the whitespace that follows, the match is dropped and the scan goes
    on after it; where neither matches, the character is kept.  [fuel]
    bounds the number of steps; every step consumes a byte. *)
Fixpoint sub_fences (fuel : nat) (s : string) : string :=
  match fuel with
  | O => s
  | S fuel' =>
      if startswith s "```json" then sub_fences fuel' (skip_spaces (drop_bytes 7 s))
      else if startswith s "```" then sub_fences fuel' (skip_spaces (drop_bytes 3 s))
      else
        match s with
        | EmptyString => EmptyString
        | String c s' => String c (sub_fences fuel' s')
        end
  end.

Definition re_sub_fences (s : string) : string := sub_fences (String.length s) s.

(** [s] has a triple backtick somewhere. *)
Fixpoint has_fence (s : string) : bool :=
  match s with
  | EmptyString => false
  | String _ s' => startswith s "```" || has_fence s'
  end.

(** ** Python values and [json.loads] *)

(** The values [json.loads] produces. *)
Inductive value : Type :=
| VNone
| VBool (b : bool)
| VInt (z : Z)
| VFloat (f : float)
| VStr (s : string)
| VList (l : list value)
| VDict (d : gmap string value).

(** A number as [+] sees it; [bool] is a subclass of [int]. *)
Definition as_number (v : value) : option (Z + float) :=
  match v with
  | VBool b => Some (inl (Z.b2z b))
  | VInt z => Some (inl z)
  | VFloat f => Some (inr f)
  | _ => None
  end.

(** [a + b] where [a] is a number, as in every step of [sum]. *)
Definition py_add (a b : value) : result value :=
  match as_number a, as_number b with
  | Some (inl x), Some (inl y) => Ok (VInt (x + y))
  | Some (inl x), Some (inr g) => f ← float_of_int x; Ok (VFloat (f + g))
  | Some (inr f), Some (inl y) => g ← float_of_int y; Ok (VFloat (f + g))
  | Some (inr f), Some (inr g) => Ok (VFloat (f + g))
  | _, _ => Raise TypeError
  end.

(** [item.get(key, dflt)]; only a dict has [get]. *)
Definition dict_get (item : value) (key : string) (dflt : value) : result value :=
  match item with
  | VDict d => Ok (default dflt (d !! key))
  | _ => Raise AttributeError
  end.

(** [sep.join(items)]; every item must be a [str]. *)
Fixpoint str_join (sep : string) (items : list value) : result string :=
  match items with
  | [] => Ok ""
  | VStr s :: rest =>
      match rest with
      | [] => Ok s
      | _ => r ← str_join sep rest; Ok (s +:+ sep +:+ r)
      end
  | _ :: _ => Raise TypeError
  end.

Definition dquote : ascii := ascii_of_nat 34.
Definition backslash : ascii := ascii_of_nat 92.

(** The whitespace of JSON: space, tab, line feed, carriage return. *)
Definition is_json_ws (c : ascii) : bool :=
  byte_is 32 c || byte_is 9 c || byte_is 10 c || byte_is 13 c.

Fixpoint skip_ws (s : string) : string :=
  match s with
  | String c s' => if is_json_ws c then skip_ws s' else s
  | EmptyString => s
  end.

Definition is_digit (c : ascii) : bool := byte_in 48 57 c.

(** The digits at the start of [s], as their count and value, and the rest. *)
Fixpoint span_digits (s : string) (count : nat) (acc : Z) : nat * Z * string :=
  match s with
  | String c s' =>
      if is_digit c then span_digits s' (S count) (10 * acc + Z.of_nat (nat_of_ascii c - 48))
      else (count, acc, s)
  | EmptyString => (count, acc, s)
  end.

(** [float(text)] for the decimal [(-1)^neg * m * 10^e]: the nearest float,
    infinite on overflow. *)
Definition float_of_decimal (neg : bool) (m : Z) (e : Z) : float :=
  match m with
  | Zpos p =>
      if (0 <=? e)%Z
      then SF2Prim (binary_normalize prec emax
                      (if neg then - (Zpos p * 10 ^ e) else Zpos p * 10 ^ e) 0 false)
      else SF2Prim (SFdiv prec emax (S754_finite neg p 0)
                      (S754_finite false (Z.to_pos (10 ^ (- e))) 0))
  | _ => if neg then (-0)%float else 0%float
  end.

(** A number as [json.scanner] matches it: an optional minus sign, then
    either a single 0 or a nonzero digit and more digits; optionally a dot
    and one or more digits; optionally [e] or [E], an optional sign and one
    or more digits.  It is an [int] when there is neither fraction nor
    exponent, else a [float]. *)
Definition parse_number (s : string) : option (value * string) :=
  let '(neg, s1) :=
    match s with
    | String c r => if byte_is 45 c then (true, r) else (false, s)
    | EmptyString => (false, s)
    end in
  match s1 with
  | String c r =>
      if is_digit c then
        let '(_, int_part, s2) :=
          if byte_is 48 c then (1%nat, 0%Z, r) else span_digits s1 0 0 in
        let '(frac_len, mantissa, s3) :=
          match s2 with
          | String d r2 =>
              if byte_is 46 d then
                match span_digits r2 0 int_part with
                | (O, _, _) => (0%nat, int_part, s2)
                | found => found
                end
              else (0%nat, int_part, s2)
          | EmptyString => (0%nat, int_part, s2)
          end in
        let '(has_exp, exponent, s4) :=
          match s3 with
          | String d r3 =>
              if byte_is 101 d || byte_is 69 d then
                let '(eneg, r4) :=
                  match r3 with
                  | String g r4 =>
                      if byte_is 45 g then (true, r4)
                      else if byte_is 43 g then (false, r4)
                      else (false, r3)
                  | EmptyString => (false, r3)
                  end in
                match span_digits r4 0 0 with
                | (O, _, _) => (false, 0%Z, s3)
                | (_, v, r5) => (true, if eneg then (- v)%Z else v, r5)
                end
              else (false, 0%Z, s3)
          | EmptyString => (false, 0%Z, s3)
          end in
        if (frac_len =? 0)%nat && negb has_exp
        then Some (VInt (if neg then - int_part else int_part), s4)
        else Some (VFloat (float_of_decimal neg mantissa (exponent - Z.of_nat frac_len)), s4)
      else None
  | EmptyString => None
  end.

Definition hex_value (c : ascii) : option N :=
  let n := nat_of_ascii c in
  if byte_in 48 57 c then Some (N.of_nat (n - 48))
  else if byte_in 65 70 c then Some (N.of_nat (n - 55))
  else if byte_in 97 102 c then Some (N.of_nat (n - 87))
  else None.

(** Four hex digits at the start of [s]. *)
Definition hex4 (s : string) : option (N * string) :=
  match s with
  | String c1 (String c2 (String c3 (String c4 r))) =>
      match hex_value c1, hex_value c2, hex_value c3, hex_value c4 with
      | Some a, Some b, Some c, Some d => Some ((((a * 16 + b) * 16 + c) * 16 + d)%N, r)
      | _, _, _, _ => None
      end
  | _ => None
  end.

Definition byte_of_N (n : N) : ascii := ascii_of_N n.

(** The UTF-8 encoding of a code point. *)
Definition utf8_encode (cp : N) : string :=
  if (cp <? 128)%N then String (byte_of_N cp) ""
  else if (cp <? 2048)%N then
    String (byte_of_N (192 + cp / 64)) (String (byte_of_N (128 + cp mod 64)) "")
  else if (cp <? 65536)%N then
    String (byte_of_N (224 + cp / 4096))
      (String (byte_of_N (128 + (cp / 64) mod 64)) (String (byte_of_N (128 + cp mod 64)) ""))
  else
    String (byte_of_N (240 + cp / 262144))
      (String (byte_of_N (128 + (cp / 4096) mod 64))
         (String (byte_of_N (128 + (cp / 64) mod 64)) (String (byte_of_N (128 + cp mod 64)) ""))).

Definition simple_escape (c : ascii) : option ascii :=
  if byte_is 34 c then Some dquote
  else if byte_is 92 c then Some backslash
  else if byte_is 47 c then Some (ascii_of_nat 47)
  else if byte_is 98 c then Some (ascii_of_nat 8)
  else if byte_is 102 c then Some (ascii_of_nat 12)
  else if byte_is 110 c then Some (ascii_of_nat 10)
  else if byte_is 114 c then Some (ascii_of_nat 13)
  else if byte_is 116 c then Some (ascii_of_nat 9)
  else None.

(** [json.decoder.scanstring] in strict mode, after the opening quote: the
    decoded text and what follows the closing quote. *)
Fixpoint scan_string (fuel : nat) (s : string) : result (string * string) :=
  match fuel with
  | O => Raise RecursionError
  | S fuel' =>
      match s with
      | EmptyString => Raise JSONDecodeError
      | String c r =>
          if byte_is 34 c then Ok (EmptyString, r)
          else if byte_is 92 c then
            match r with
            | EmptyString => Raise JSONDecodeError
            | String e r1 =>
                if byte_is 117 e then
                  match hex4 r1 with
                  | None => Raise JSONDecodeError
                  | Some (u, r2) =>
                      let single :=
                        p ← scan_string fuel' r2; Ok (utf8_encode u +:+ p.1, p.2) in
                      if (55296 <=? u)%N && (u <=? 56319)%N then
                        match r2 with
                        | String b (String v r3) =>
                            if byte_is 92 b && byte_is 117 v then
                              match hex4 r3 with
                              | None => Raise JSONDecodeError
                              | Some (u2, r4) =>
                                  if (56320 <=? u2)%N && (u2 <=? 57343)%N then
                                    p ← scan_string fuel' r4;
                                    Ok (utf8_encode
                                          (65536 + (u - 55296) * 1024 + (u2 - 56320))%N +:+ p.1,
                                        p.2)
                                  else single
                              end
                            else single
                        | _ => single
                        end
                      else single
                  end
                else
                  match simple_escape e with
                  | Some ch => p ← scan_string fuel' r1; Ok (String ch p.1, p.2)
                  | None => Raise JSONDecodeError
                  end
            end
          else if byte_in 0 31 c then Raise JSONDecodeError
          else p ← scan_string fuel' r; Ok (String c p.1, p.2)
      end
  end.

(** [json.scanner]'s [scan_once] with [JSONArray] and [JSONObject].  [fuel]
    bounds the depth of the calls (CPython bounds it too, and raises
    [RecursionError]); [json_loads] gives enough for any text. *)
Fixpoint parse_value (fuel : nat) (s : string) : result (value * string) :=
  match fuel with
  | O => Raise RecursionError
  | S fuel' =>
      match s with
      | EmptyString => Raise JSONDecodeError
      | String c r =>
          if byte_is 34 c then
            p ← scan_string (S (String.length r)) r; Ok (VStr p.1, p.2)
          else if byte_is 123 c then
            match skip_ws r with
            | String c' r' =>
                if byte_is 125 c' then Ok (VDict ∅, r')
                else p ← parse_members fuel' ∅ (skip_ws r); Ok (VDict p.1, p.2)
            | EmptyString => Raise JSONDecodeError
            end
          else if byte_is 91 c then
            match skip_ws r with
            | String c' r' =>
                if byte_is 93 c' then Ok (VList [], r')
                else p ← parse_items fuel' (skip_ws r); Ok (VList p.1, p.2)
            | EmptyString => Raise JSONDecodeError
            end
          else if startswith s "null" then Ok (VNone, drop_bytes 4 s)
          else if startswith s "true" then Ok (VBool true, drop_bytes 4 s)
          else if startswith s "false" then Ok (VBool false, drop_bytes 5 s)
          else
            match parse_number s with
            | Some found => Ok found
            | None =>
                if startswith s "NaN" then Ok (VFloat nan, drop_bytes 3 s)
                else if startswith s "Infinity" then Ok (VFloat infinity, drop_bytes 8 s)
                else if startswith s "-Infinity" then Ok (VFloat neg_infinity, drop_bytes 9 s)
                else Raise JSONDecodeError
            end
      end
  end
with parse_items (fuel : nat) (s : string) : result (list value * string) :=
  match fuel with
  | O => Raise RecursionError
  | S fuel' =>
      p ← parse_value fuel' s;
      match skip_ws p.2 with
      | String c r =>
          if byte_is 93 c then Ok ([p.1], r)
          else if byte_is 44 c then
            q ← parse_items fuel' (skip_ws r); Ok (p.1 :: q.1, q.2)
          else Raise JSONDecodeError
      | EmptyString => Raise JSONDecodeError
      end
  end
with parse_members (fuel : nat) (pairs : gmap string value) (s : string)
  : result (gmap string value * string) :=
  match fuel with
  | O => Raise RecursionError
  | S fuel' =>
      match s with
      | String c r =>
          if byte_is 34 c then
            k ← scan_string (S (String.length r)) r;
            match skip_ws k.2 with
            | String c1 r1 =>
                if byte_is 58 c1 then
                  p ← parse_value fuel' (skip_ws r1);
                  let pairs' := <[k.1 := p.1]> pairs in
                  match skip_ws p.2 with
                  | String c2 r2 =>
                      if byte_is 125 c2 then Ok (pairs', r2)
                      else if byte_is 44 c2 then parse_members fuel' pairs' (skip_ws r2)
                      else Raise JSONDecodeError
                  | EmptyString => Raise JSONDecodeError
                  end
                else Raise JSONDecodeError
            | EmptyString => Raise JSONDecodeError
            end
          else Raise JSONDecodeError
      | EmptyString => Raise JSONDecodeError
      end
  end.

(** [json.loads(s)] *)
Definition json_loads (s : string) : result value :=
  p ← parse_value (2 * String.length s + 2) (skip_ws s);
  match skip_ws p.2 with
  | EmptyString => Ok p.1
  | String _ _ => Raise JSONDecodeError
  end.

(** ** Helper functions (server.py, lines 72-98) *)

Section Helpers.
Context {F : Type} `{FloatArith F}.
Local Open Scope arith_scope.

Definition calculate_bmr (weight height : F) (age : Z) (gender : string) : result F :=
  if String.eqb (lower gender) "masculino" then
    a ← of_int age;
    Ok (lit 88.362%Q + (lit 13.397%Q * weight) + (lit 4.799%Q * height) - (lit 5.677%Q * a))
  else
    a ← of_int age;
    Ok (lit 447.593%Q + (lit 9.247%Q * weight) + (lit 3.098%Q * height) - (lit 4.330%Q * a)).

Definition activity_multipliers : gmap string Q :=
  list_to_map [
    ("sedentario", 1.2%Q);
    ("leve", 1.375%Q);
    ("moderado", 1.55%Q);
    ("intenso", 1.725%Q);
    ("muito_intenso", 1.9%Q)
  ].

Definition calculate_tdee (bmr : F) (activity_level : string) : F :=
  bmr * lit (default 1.2%Q (activity_multipliers !! lower activity_level)).

(** The int literals 500 and 300 meet a float and are converted exactly. *)
Definition calculate_daily_calorie_goal (tdee current_weight goal_weight : F) : F :=
  if goal_weight <? current_weight then tdee - lit 500%Q
  else if current_weight <? goal_weight then tdee + lit 300%Q
  else tdee.

End Helpers.

(** ** The response normalizer of [analyze_food_with_ai] (lines 100-184) *)

(** What [chat.send_message] returned: a text, or a list. *)
Inductive response : Type :=
| AsText (s : string)
| AsList (l : list value).

(** Lines 144-147; the [strip] of line 149 needs a [str]. *)
Definition response_text (r : response) : result string :=
  match r with
  | AsText s => Ok s
  | AsList [] => Ok ""
  | AsList (VStr s :: _) => Ok s
  | AsList (_ :: _) => Raise AttributeError
  end.

(** Lines 149-153. *)
Definition strip_markdown (response_text : string) : string :=
  let response_text := strip response_text in
  if startswith response_text "```" then re_sub_fences response_text
  else response_text.

(** [[item.get(key, dflt) for item in items]] *)
Fixpoint get_all (key : string) (dflt : value) (items : list value) : result (list value) :=
  match items with
  | [] => Ok []
  | item :: rest =>
      v ← dict_get item key dflt;
      vs ← get_all key dflt rest;
      Ok (v :: vs)
  end.

(** [sum(item.get(key, 0) for item in items)], from the running total [acc]
    ([sum] starts at the int 0). *)
Fixpoint sum_field (key : string) (items : list value) (acc : value) : result value :=
  match items with
  | [] => Ok acc
  | item :: rest =>
      v ← dict_get item key (VInt 0);
      acc' ← py_add acc v;
      sum_field key rest acc'
  end.

(** [food_data[key] = v], where [food_data] is the object [parsed_data[0]]:
    the assignment is seen through the list too. *)
Definition set_first (parsed_data : list value) (key : string) (v : value)
  : result (list value) :=
  match parsed_data with
  | VDict d :: rest => Ok (VDict (<[key := v]> d) :: rest)
  | _ => Raise TypeError
  end.

(** Lines 160-180.  Line 176, the one statement of the empty-array branch,
    is shipped with a backslash before each of the two quote marks of its
    message, which Python does not parse; the branch is embedded as the
    [raise ValueError] that the line spells out. *)
Definition combine_foods (parsed_data : value) : result value :=
  match parsed_data with
  | VList items =>
      match items with
      | food_data :: _ =>
          if (1 <? length items)%nat then
            all_names ← get_all "food_name" (VStr "") items;
            joined ← str_join " + " all_names;
            items ← set_first items "food_name" (VStr joined);
            total ← sum_field "portion_size" items (VInt 0);
            items ← set_first items "portion_size" total;
            total ← sum_field "calories" items (VInt 0);
            items ← set_first items "calories" total;
            total ← sum_field "protein" items (VInt 0);
            items ← set_first items "protein" total;
            total ← sum_field "carbs" items (VInt 0);
            items ← set_first items "carbs" total;
            total ← sum_field "fats" items (VInt 0);
            items ← set_first items "fats" total;
            match items with
            | food_data :: _ => Ok food_data
            | [] => Raise TypeError
            end
          else Ok food_data
      | [] => Raise (ValueError "Nenhum alimento identificado na resposta")
      end
  | _ => Ok parsed_data
  end.

(** Lines 143-180: from the model's answer to the nutrition record. *)
Definition normalize_response (r : response) : result value :=
  text ← response_text r;
  parsed_data ← json_loads (strip_markdown text);
  combine_foods parsed_data.

(** [analyze_food_with_ai]: [api_key] is the environment's
    [EMERGENT_LLM_KEY], [sent] the outcome of [await chat.send_message]. *)
Definition analyze_food_with_ai (api_key : option string) (sent : result response)
  : result value :=
  try_except
    (match api_key with
     | None | Some EmptyString => Raise (ValueError "EMERGENT_LLM_KEY não configurada")
     | Some _ => r ← sent; normalize_response r
     end)
    (λ e, HTTPException 500 (StrOf "Erro ao analisar alimento: " e)).

(** ** Models (server.py, lines 38-69) and the document store *)

(** A timestamp of [datetime.now()], read from the clock by the caller. *)
Definition datetime : Type := Z.

Module UserProfile.
Record t : Type := mk {
  user_id : string;
  name : string;
  age : Z;
  gender : string;
  height : float;
  weight : float;
  activity_level : string;
  goal_weight : float;
  daily_calorie_goal : option float;
  created_at : option datetime
}.
End UserProfile.

(** A document of the [meals] collection: the fields of [MealEntry] and the
    [created_at] that [save_meal] adds. *)
Module Meal.
Record t : Type := mk {
  meal_id : string;
  user_id : string;
  date : string;
  time : string;
  food_name : string;
  portion_size : float;
  calories : float;
  protein : float;
  carbs : float;
  fats : float;
  image_base64 : option string;
  created_at : datetime
}.
End Meal.

Module PortionAdjustment.
Record t : Type := mk {
  meal_id : string;
  new_portion_size : float
}.
End PortionAdjustment.

(** The dict [updated_values] of [adjust_portion]. *)
Module UpdatedValues.
Record t : Type := mk {
  portion_size : float;
  calories : float;
  protein : float;
  carbs : float;
  fats : float
}.
End UpdatedValues.

(** The dict [create_or_update_profile] returns. *)
Module ProfileSaved.
Record t : Type := mk {
  message : string;
  daily_calorie_goal : float;
  bmr : float;
  tdee : float
}.
End ProfileSaved.

(** One value of the dict [history_by_date] of [get_meal_history]. *)
Module DayHistory.
Record t : Type := mk {
  date : string;
  meals : list Meal.t;
  total_calories : float;
  total_protein : float;
  total_carbs : float;
  total_fats : float
}.
End DayHistory.

(** The two collections, each in its natural (insertion) order. *)
Record db : Type := mk_db {
  users_collection : list UserProfile.t;
  meals_collection : list Meal.t
}.

(** A handler runs against the store and returns or raises. *)
Definition handler (A : Type) : Type := db → result A * db.

Definition lift {A} (m : result A) : handler A := λ s, (m, s).

Definition hbind {A B} (m : handler A) (f : A → handler B) : handler B :=
  λ s, match m s with
       | (Ok a, s') => f a s'
       | (Raise e, s') => (Raise e, s')
       end.

Declare Scope handler_scope.
Delimit Scope handler_scope with handler.
Notation "x <- m ;; k" := (hbind m (λ x, k))
  (at level 100, m at next level, right associativity) : handler_scope.

Definition handler_try {A} (m : handler A) (h : exn → exn) : handler A :=
  λ s, let '(r, s') := m s in (try_except r h, s').

Definition handler_try_reraise_http {A} (m : handler A) (h : exn → exn) : handler A :=
  λ s, let '(r, s') := m s in (try_except_reraise_http r h, s').

(** *** Collection operations *)

(** [collection.find_one(filter)]: the first match in natural order. *)
Definition find_one {D} (p : D → bool) (c : list D) : option D := List.find p c.

(** [collection.update_one(filter, {"$set": ...})]: the first match is
    changed by [set]; without a match nothing happens. *)
Fixpoint update_one {D} (p : D → bool) (set : D → D) (c : list D) : list D :=
  match c with
  | [] => []
  | d :: c' => if p d then set d :: c' else d :: update_one p set c'
  end.

(** [update_one(..., upsert=True)] with a [$set] of every field: the first
    match becomes [doc]; without a match [doc] is inserted. *)
Fixpoint upsert_one {D} (p : D → bool) (doc : D) (c : list D) : list D :=
  match c with
  | [] => [doc]
  | d :: c' => if p d then doc :: c' else d :: upsert_one p doc c'
  end.

(** What the driver can encode of a document: an [int] must fit 8 bytes
    (BSON's widest integer), and the encoder raises [OverflowError] for any
    other. *)
Definition bson_int (z : Z) : result () :=
  if ((- 2 ^ 63 <=? z) && (z <? 2 ^ 63))%Z then Ok () else Raise OverflowError.

(** [cursor.limit(n)] as the driver defines it: 0 is no limit, a negative
    [n] stands for [abs n] (served as one batch), and a limit that does not
    fit 8 bytes cannot be encoded. *)
Definition cursor_limit {D} (n : Z) (c : list D) : result (list D) :=
  if (n =? 0)%Z then Ok c
  else if (2 ^ 63 <=? Z.abs n)%Z then Raise OverflowError
  else Ok (firstn (Z.abs_nat n) c).

(** [m1] may come before [m2] under [sort("date", -1)]: its date is not
    below that of [m2].  Strings compare by their bytes, as in the store. *)
Definition date_ge (m1 m2 : Meal.t) : Prop :=
  String.leb (Meal.date m2) (Meal.date m1) = true.

(** The date of [m1] is strictly above that of [m2]. *)
Definition date_gt (m1 m2 : Meal.t) : Prop :=
  String.ltb (Meal.date m2) (Meal.date m1) = true.

#[global] Instance date_gt_dec : RelDecision date_gt.
Proof. intros m1 m2. unfold date_gt. apply _. Defined.

#[global] Instance date_ge_dec : RelDecision date_ge.
Proof. intros m1 m2. unfold date_ge. apply _. Defined.

(** One admissible [sort("date", -1)]: a merge sort.  The store fixes no
    order among equal dates, so the handlers take the sort as a parameter. *)
Definition merge_sort_date_desc (c : list Meal.t) : list Meal.t :=
  merge_sort date_ge c.

(** ** Handlers *)

Section Handlers.
(** [sort("date", -1)] of the store. *)
Variable sort_date_desc : list Meal.t → list Meal.t.
Local Open Scope handler_scope.

(** [POST /api/user/profile] (lines 191-218); [now] is [datetime.now()].
    [update_one] encodes the document before anything is written; [age] is
    its one [int]. *)
Definition create_or_update_profile (profile : UserProfile.t) (now : datetime)
  : handler ProfileSaved.t :=
  handler_try
    (bmr <- lift (calculate_bmr (UserProfile.weight profile) (UserProfile.height profile)
                    (UserProfile.age profile) (UserProfile.gender profile)) ;;
     let tdee := calculate_tdee bmr (UserProfile.activity_level profile) in
     let daily_goal :=
       calculate_daily_calorie_goal tdee (UserProfile.weight profile)
         (UserProfile.goal_weight profile) in
     let profile_dict :=
       UserProfile.mk (UserProfile.user_id profile) (UserProfile.name profile)
         (UserProfile.age profile) (UserProfile.gender profile)
         (UserProfile.height profile) (UserProfile.weight profile)
         (UserProfile.activity_level profile) (UserProfile.goal_weight profile)
         (Some (py_round daily_goal 0)) (Some now) in
     encoded <- lift (bson_int (UserProfile.age profile)) ;;
     λ s,
       (Ok (ProfileSaved.mk "Perfil salvo com sucesso" (py_round daily_goal 0)
              (py_round bmr 0) (py_round tdee 0)),
        mk_db
          (upsert_one (λ d, String.eqb (UserProfile.user_id d) (UserProfile.user_id profile))
             profile_dict (users_collection s))
          (meals_collection s)))
    (λ e, HTTPException 500 (StrOf "" e)).

Definition set_values (v : UpdatedValues.t) (m : Meal.t) : Meal.t :=
  Meal.mk (Meal.meal_id m) (Meal.user_id m) (Meal.date m) (Meal.time m) (Meal.food_name m)
    (UpdatedValues.portion_size v) (UpdatedValues.calories v) (UpdatedValues.protein v)
    (UpdatedValues.carbs v) (UpdatedValues.fats v)
    (Meal.image_base64 m) (Meal.created_at m).

(** [POST /api/meal/adjust] (lines 279-309). *)
Definition adjust_portion (adjustment : PortionAdjustment.t) : handler UpdatedValues.t :=
  let has_id := λ m, String.eqb (Meal.meal_id m) (PortionAdjustment.meal_id adjustment) in
  handler_try_reraise_http
    (λ s,
       match find_one has_id (meals_collection s) with
       | None => (Raise (HTTPException 404 (Text "Refeição não encontrada")), s)
       | Some meal =>
           (let original_portion := Meal.portion_size meal in
            adjustment_factor <-
              lift (float_truediv (PortionAdjustment.new_portion_size adjustment) original_portion) ;;
            let updated_values :=
              UpdatedValues.mk
                (PortionAdjustment.new_portion_size adjustment)
                (py_round (Meal.calories meal * adjustment_factor) 1)
                (py_round (Meal.protein meal * adjustment_factor) 1)
                (py_round (Meal.carbs meal * adjustment_factor) 1)
                (py_round (Meal.fats meal * adjustment_factor) 1) in
            λ s',
              (Ok updated_values,
               mk_db (users_collection s')
                 (update_one has_id (set_values updated_values) (meals_collection s')))) s
       end)
    (λ e, HTTPException 500 (StrOf "" e)).

(** The loop body of lines 353-371 on the insertion-ordered dict
    [history_by_date], kept as an association list.  The totals start at the
    int [0], which the first [+=] turns into a float. *)
Definition add_meal (day : DayHistory.t) (meal : Meal.t) : DayHistory.t :=
  DayHistory.mk (DayHistory.date day)
    (DayHistory.meals day ++ [meal])
    (DayHistory.total_calories day + Meal.calories meal)
    (DayHistory.total_protein day + Meal.protein meal)
    (DayHistory.total_carbs day + Meal.carbs meal)
    (DayHistory.total_fats day + Meal.fats meal).

Definition new_day (meal_date : string) : DayHistory.t :=
  DayHistory.mk meal_date [] 0 0 0 0.

Fixpoint group_meal (meal : Meal.t) (history_by_date : list (string * DayHistory.t))
  : list (string * DayHistory.t) :=
  match history_by_date with
  | [] => [(Meal.date meal, add_meal (new_day (Meal.date meal)) meal)]
  | (d, day) :: rest =>
      if String.eqb (Meal.date meal) d then (d, add_meal day meal) :: rest
      else (d, day) :: group_meal meal rest
  end.

Definition group_by_date (meals : list Meal.t) : list (string * DayHistory.t) :=
  fold_left (λ h meal, group_meal meal h) meals [].

(** The query of lines 347-349. *)
Definition recent_meals (user_id : string) (days : Z) (s : db) : result (list Meal.t) :=
  cursor_limit (days * 10)
    (sort_date_desc (filter (λ m, Meal.user_id m = user_id) (meals_collection s))).

(** [GET /api/meals/history/{user_id}] (lines 340-375). *)
Definition get_meal_history (user_id : string) (days : Z) : handler (list DayHistory.t) :=
  handler_try
    (λ s,
       (meals ← recent_meals user_id days s;
        Ok (map snd (group_by_date meals)), s))
    (λ e, HTTPException 500 (StrOf "" e)).

End Handlers.

(** ** The other models and handlers *)

Module FoodAnalysisRequest.
Record t : Type := mk {
  image_base64 : string;
  user_id : string
}.
End FoodAnalysisRequest.

Module MealEntry.
Record t : Type := mk {
  meal_id : string;
  user_id : string;
  date : string;
  time : string;
  food_name : string;
  portion_size : float;
  calories : float;
  protein : float;
  carbs : float;
  fats : float;
  image_base64 : option string
}.
End MealEntry.

(** The dict [analyze_food] returns; a field holds whatever the analysis
    gave for it. *)
Module FoodAnalysis.
Record t : Type := mk {
  meal_id : string;
  food_name : value;
  portion_size : value;
  calories : value;
  protein : value;
  carbs : value;
  fats : value;
  confidence : value
}.
End FoodAnalysis.

(** The dict [save_meal] returns. *)
Module MealSaved.
Record t : Type := mk {
  message : string;
  meal_id : string
}.
End MealSaved.

(** The dicts [totals] and the answer of [get_meals_by_date]. *)
Module DayTotals.
Record t : Type := mk {
  total_calories : value;
  total_protein : value;
  total_carbs : value;
  total_fats : value;
  meals_count : nat
}.
End DayTotals.

Module DayMeals.
Record t : Type := mk {
  meals : list Meal.t;
  totals : DayTotals.t
}.
End DayMeals.

(** [collection.insert_one(doc)]: the document comes last in natural order. *)
Definition insert_one {D} (doc : D) (c : list D) : list D := c ++ [doc].

(** [collection.delete_one(filter)]: the first match is removed; the
    collection left and [deleted_count]. *)
Fixpoint delete_one {D} (p : D → bool) (c : list D) : list D * nat :=
  match c with
  | [] => ([], 0)
  | d :: c' => if p d then (c', 1) else let '(rest, n) := delete_one p c' in (d :: rest, n)
  end.

(** [sum(vs)], from the running total [acc] ([sum] starts at the int 0). *)
Fixpoint sum_values (vs : list value) (acc : value) : result value :=
  match vs with
  | [] => Ok acc
  | v :: rest => acc' ← py_add acc v; sum_values rest acc'
  end.

(** [GET /api/user/profile/{user_id}] (lines 220-229). *)
Definition get_profile (user_id : string) : handler UserProfile.t :=
  λ s,
    match find_one (λ d, String.eqb (UserProfile.user_id d) user_id) (users_collection s) with
    | None => (Raise (HTTPException 404 (Text "Perfil não encontrado")), s)
    | Some profile => (Ok profile, s)
    end.

(** [POST /api/food/analyze] (lines 231-264); [api_key] and [sent] are those
    of [analyze_food_with_ai], [new_id] is [str(uuid.uuid4())]. *)
Definition analyze_food (api_key : option string) (sent : result response) (new_id : string)
  (request : FoodAnalysisRequest.t) : handler FoodAnalysis.t :=
  handler_try_reraise_http
    (λ s,
       match find_one
               (λ d, String.eqb (UserProfile.user_id d) (FoodAnalysisRequest.user_id request))
               (users_collection s) with
       | None => (Raise (HTTPException 404 (Text "Usuário não encontrado")), s)
       | Some _ =>
           (food_data ← analyze_food_with_ai api_key sent;
            food_name ← dict_get food_data "food_name" (VStr "Alimento não identificado");
            portion_size ← dict_get food_data "portion_size" (VInt 100);
            calories ← dict_get food_data "calories" (VInt 0);
            protein ← dict_get food_data "protein" (VInt 0);
            carbs ← dict_get food_data "carbs" (VInt 0);
            fats ← dict_get food_data "fats" (VInt 0);
            confidence ← dict_get food_data "confidence" (VStr "média");
            Ok (FoodAnalysis.mk new_id food_name portion_size calories protein carbs fats
                  confidence),
            s)
       end)
    (λ e, HTTPException 500 (StrOf "Erro ao processar imagem: " e)).

(** The document [save_meal] inserts: [meal.model_dump()] and [created_at]. *)
Definition meal_document (meal : MealEntry.t) (now : datetime) : Meal.t :=
  Meal.mk (MealEntry.meal_id meal) (MealEntry.user_id meal) (MealEntry.date meal)
    (MealEntry.time meal) (MealEntry.food_name meal) (MealEntry.portion_size meal)
    (MealEntry.calories meal) (MealEntry.protein meal) (MealEntry.carbs meal)
    (MealEntry.fats meal) (MealEntry.image_base64 meal) now.

(** [POST /api/meal/save] (lines 266-277); [now] is [datetime.now()].  The
    document holds texts and floats and no [int]; the driver encodes every
    UTF-8 text, so for the texts of this development [insert_one] does not
    raise and the [except] clause has nothing to catch. *)
Definition save_meal (meal : MealEntry.t) (now : datetime) : handler MealSaved.t :=
  handler_try
    (λ s,
       (Ok (MealSaved.mk "Refeição salva com sucesso" (MealEntry.meal_id meal)),
        mk_db (users_collection s) (insert_one (meal_document meal now) (meals_collection s))))
    (λ e, HTTPException 500 (StrOf "" e)).

(** [GET /api/meals/{user_id}/{date}] (lines 311-338). *)
Definition get_meals_by_date (user_id date : string) : handler DayMeals.t :=
  handler_try
    (λ s,
       let meals :=
         filter (λ m, Meal.user_id m = user_id ∧ Meal.date m = date) (meals_collection s) in
       (total_calories ← sum_values ((λ m, VFloat (Meal.calories m)) <$> meals) (VInt 0);
        total_protein ← sum_values ((λ m, VFloat (Meal.protein m)) <$> meals) (VInt 0);
        total_carbs ← sum_values ((λ m, VFloat (Meal.carbs m)) <$> meals) (VInt 0);
        total_fats ← sum_values ((λ m, VFloat (Meal.fats m)) <$> meals) (VInt 0);
        Ok (DayMeals.mk meals
              (DayTotals.mk total_calories total_protein total_carbs total_fats
                 (length meals))),
        s))
    (λ e, HTTPException 500 (StrOf "" e)).

(** [DELETE /api/meal/{meal_id}] (lines 377-388). *)
Definition delete_meal (meal_id : string) : handler string :=
  handler_try_reraise_http
    (λ s,
       let '(rest, deleted_count) :=
         delete_one (λ m, String.eqb (Meal.meal_id m) meal_id) (meals_collection s) in
       let s' := mk_db (users_collection s) rest in
       if (deleted_count =? 0)%nat
       then (Raise (HTTPException 404 (Text "Refeição não encontrada")), s')
       else (Ok "Refeição deletada com sucesso", s'))
    (λ e, HTTPException 500 (StrOf "" e)).

(** ** The value of a binary64 float, in units of the smallest one *)

(** Every finite binary64 float is a whole number of units of [2 ^ -1074];
    the infinities stand at [2 ^ 1024], that is at [top_units] units, above
    every finite float.  (A NaN has no value; it is given 0.) *)
Definition top_units : Z := 2 ^ 2098.

Definition float_units (x : spec_float) : Z :=
  match x with
  | S754_zero _ | S754_nan => 0
  | S754_infinity s => cond_Zopp s top_units
  | S754_finite s m e => cond_Zopp s (Zpos m * 2 ^ (e + 1074))
  end.

Definition SFnotnan (x : spec_float) : Prop :=
  match x with S754_nan => False | _ => True end.

(** Rounding to nearest, ties to even, of [X >= 0] units of
    [2 ^ (-1074 - k)]: the result in units of [2 ^ -1074].  The quantum is
    [2 ^ q] input units, 53 binary digits below the leading digit of [X]
    and never below one unit of the result. *)
Definition round_units (k X : Z) : Z :=
  let q := Z.max (Z.log2 X + 1 - 53) k in
  (round_half_even X (2 ^ q) * 2 ^ (q - k))%Z.

(** The same for either sign, with what exceeds the finite floats taken to
    the infinities. *)
Definition round_signed (k X : Z) : Z :=
  if (X <? 0)%Z then (- Z.min (round_units k (- X)) top_units)%Z
  else Z.min (round_units k X) top_units.

(** A zero or a finite float: neither an infinity nor a NaN. *)
Definition SFfinite (x : spec_float) : Prop :=
  match x with S754_zero _ | S754_finite _ _ _ => True | _ => False end.

(** ** The wording of the specification *)

(** Two texts are equal up to the case of their ASCII letters. *)
Fixpoint caseless_eqb (s k : string) : bool :=
  match s, k with
  | EmptyString, EmptyString => true
  | String a s', String b k' => Ascii.eqb (lower_ascii a) (lower_ascii b) && caseless_eqb s' k'
  | _, _ => false
  end.

(** The multiplier of an activity level as the specification words it: a
    case-insensitive lookup in the table of five levels, 1.2 for any other
    text. *)
Definition activity_multiplier_spec (activity_level : string) : float :=
  if caseless_eqb activity_level "sedentario" then 1.2
  else if caseless_eqb activity_level "leve" then 1.375
  else if caseless_eqb activity_level "moderado" then 1.55
  else if caseless_eqb activity_level "intenso" then 1.725
  else if caseless_eqb activity_level "muito_intenso" then 1.9
  else 1.2.

(** The error kinds of the specification (section 7), read off what a
    handler raises: status 404 is NotFound, 500 is UpstreamFailure, and a
    rejected input (400, or the 422 FastAPI answers when a request fails
    validation) is ValidationFailure.  Anything that is not an
    [HTTPException] would leave the handler as a crash. *)
Inductive error_kind : Type :=
| NotFound
| ValidationFailure
| UpstreamFailure
| Crash.

Definition error_kind_of (e : exn) : error_kind :=
  match e with
  | HTTPException 404 _ => NotFound
  | HTTPException 400 _ | HTTPException 422 _ => ValidationFailure
  | HTTPException _ _ => UpstreamFailure
  | _ => Crash
  end.

(** The request body [profile] with another [daily_calorie_goal] and
    [created_at] supplied by the caller. *)
Definition with_supplied (profile : UserProfile.t) (goal : option float)
  (created : option datetime) : UserProfile.t :=
  UserProfile.mk (UserProfile.user_id profile) (UserProfile.name profile)
    (UserProfile.age profile) (UserProfile.gender profile)
    (UserProfile.height profile) (UserProfile.weight profile)
    (UserProfile.activity_level profile) (UserProfile.goal_weight profile)
    goal created.

(** [sum] of floats from 0, left to right. *)
Definition float_sum (l : list float) : float := fold_left PrimFloat.add l 0%float.

(** The total [sum] gives for floats: the int 0 of an empty [sum], else the
    floats added from 0.0, left to right. *)
Definition sum_of_floats (l : list float) : value :=
  match l with
  | [] => VInt 0
  | _ :: _ => VFloat (float_sum l)
  end.

(** The history group of the date string [d] as the specification words it:
    its members are exactly the retrieved meals whose date string is [d],
    in their order, and its totals are the sums over these members. *)
Definition day_group (d : string) (retrieved : list Meal.t) : DayHistory.t :=
  let members := filter (λ m, Meal.date m = d) retrieved in
  DayHistory.mk d members
    (float_sum (Meal.calories <$> members)) (float_sum (Meal.protein <$> members))
    (float_sum (Meal.carbs <$> members)) (float_sum (Meal.fats <$> members)).

(** [history_by_date.get(d)] *)
Fixpoint lookup_day (d : string) (history_by_date : list (string * DayHistory.t))
  : option DayHistory.t :=
  match history_by_date with
  | [] => None
  | (d', day) :: rest => if String.eqb d d' then Some day else lookup_day d rest
  end.

(** The integer an element contributes to the sum of the field [key]: the
    field when it is there and an [int], 0 when it is missing. *)
Definition int_field (key : string) (item : value) : Z :=
  match item with
  | VDict d => match d !! key with Some (VInt z) => z | _ => 0%Z end
  | _ => 0%Z
  end.

(** An element is an object whose field [key] is an [int] or is missing. *)
Definition int_or_missing (key : string) (item : value) : Prop :=
  ∃ d, item = VDict d ∧ (d !! key = None ∨ ∃ z, d !! key = Some (VInt z)).

(** Worked inputs. *)
Definition example_meal : Meal.t :=
  Meal.mk "m1" "u1" "2024-01-01" "12:30" "arroz" 100 200 10 40 5 None 1700000000%Z.

Definition example_profile : UserProfile.t :=
  UserProfile.mk "u1" "Ana" 30 "masculino" 175 70 "sedentario" 65 (Some 9999%float) None.

Definition meal_today : Meal.t :=
  Meal.mk "today" "u1" "2024-06-11" "12:00" "arroz" 100 130 2.5 28 0.5 None 0%Z.

Definition meal_yesterday : Meal.t :=
  Meal.mk "yesterday" "u1" "2024-06-10" "20:00" "feijao" 100 76 5 14 0.5 None 0%Z.

Definition meal_long_ago : Meal.t :=
  Meal.mk "old" "u1" "1999-12-31" "23:00" "bolo" 50 180 2 30 6 None 0%Z.

Definition nl : string := String (ascii_of_nat 10) "".

Definition quoted (s : string) : string := String dquote (s +:+ String dquote "").

(** The JSON text of the specification's example: an object with
    [food_name] "rice" and [calories] 200. *)
Definition rice_json : string :=
  "{" +:+ quoted "food_name" +:+ ":" +:+ quoted "rice" +:+ ","
  +:+ quoted "calories" +:+ ":200}".

(** The same between a fence tagged [json], and between a fence tagged
    [python]. *)
Definition rice_fenced : string := "```json" +:+ nl +:+ rice_json +:+ nl +:+ "```".

Definition rice_fenced_python : string := "```python" +:+ nl +:+ rice_json +:+ nl +:+ "```".

(** Two detected items, "A" with 100 calories and "B" with 150. *)
Definition food_a : gmap string value :=
  <["calories" := VInt 100]> (<["food_name" := VStr "A"]> ∅).

Definition food_b : gmap string value :=
  <["calories" := VInt 150]> (<["food_name" := VStr "B"]> ∅).

(** Twenty meals of one day and one of the day before, for the same user. *)
Definition crowded_meals : list Meal.t := replicate 20 meal_today ++ [meal_yesterday].

(** Two meals of one user whose date strings spell the same day differently. *)
Definition meal_padded : Meal.t :=
  Meal.mk "a" "u1" "2024-01-01" "08:00" "pao" 50 140 4.5 26 1.5 None 0%Z.

Definition meal_unpadded : Meal.t :=
  Meal.mk "b" "u1" "2024-01-1" "13:00" "arroz" 100 130 2.5 28 0.5 None 0%Z.

(* ================================================================== *)
(** * Part II: properties                                              *)
(* ================================================================== *)

(** ** The order of binary64 *)

Lemma SFcompare_swap (x y : spec_float) :
  SFcompare y x = option_map CompOpp (SFcompare x y).
Proof.
  destruct x as [sx|sx| |sx mx ex], y as [sy|sy| |sy my ey]; simpl;
    try reflexivity; try (destruct sx; reflexivity); try (destruct sy; reflexivity);
    try (destruct sx, sy; reflexivity).
  destruct sx, sy; simpl; try reflexivity;
    rewrite (Z.compare_antisym ex ey); destruct (ex ?= ey)%Z; simpl; try reflexivity;
    rewrite <- (Pos.compare_cont_antisym _ _ Eq); simpl;
    destruct (Pos.compare_cont Eq mx my); reflexivity.
Qed.

Lemma float_ltb_asym (x y : float) :
  (x <? y)%float = true → (y <? x)%float = false.
Proof.
  rewrite !FloatAxioms.ltb_spec. unfold SFltb.
  rewrite (SFcompare_swap (Prim2SF x) (Prim2SF y)).
  destruct (SFcompare (Prim2SF x) (Prim2SF y)) as [[]|]; simpl; congruence.
Qed.

Lemma float_eqb_not_ltb (x y : float) :
  (x =? y)%float = true → (x <? y)%float = false ∧ (y <? x)%float = false.
Proof.
  rewrite !FloatAxioms.ltb_spec, FloatAxioms.eqb_spec. unfold SFltb, SFeqb.
  rewrite (SFcompare_swap (Prim2SF x) (Prim2SF y)).
  destruct (SFcompare (Prim2SF x) (Prim2SF y)) as [[]|]; simpl; auto; congruence.
Qed.

(** The decimal literals of the helpers, as CPython reads them. *)
Lemma literals_binary64 :
  lit (F:=float) 500 = 500%float ∧ lit (F:=float) 300 = 300%float ∧
  lit (F:=float) 1.2 = 1.2%float ∧ lit (F:=float) 1.375 = 1.375%float ∧
  lit (F:=float) 1.55 = 1.55%float ∧ lit (F:=float) 1.725 = 1.725%float ∧
  lit (F:=float) 1.9 = 1.9%float ∧
  lit (F:=float) 88.362 = 88.362%float ∧ lit (F:=float) 13.397 = 13.397%float ∧
  lit (F:=float) 4.799 = 4.799%float ∧ lit (F:=float) 5.677 = 5.677%float ∧
  lit (F:=float) 447.593 = 447.593%float ∧ lit (F:=float) 9.247 = 9.247%float ∧
  lit (F:=float) 3.098 = 3.098%float ∧ lit (F:=float) 4.330 = 4.330%float.
Proof. vm_compute. repeat split. Qed.

(** ** The daily calorie goal *)

(** C1: the daily calorie goal is [tdee - 500] when the goal weight is below
    the current weight, [tdee + 300] when it is above, and [tdee] itself
    when the two are equal; whatever is none of the first two (equal
    weights, or a NaN among them) takes the last branch, so the result is
    always one of the three and is never clamped. *)
Theorem daily_calorie_goal_cases (tdee current_weight goal_weight : float) :
  ((goal_weight <? current_weight)%float = true →
     calculate_daily_calorie_goal tdee current_weight goal_weight = (tdee - 500)%float) ∧
  ((current_weight <? goal_weight)%float = true →
     calculate_daily_calorie_goal tdee current_weight goal_weight = (tdee + 300)%float) ∧
  ((goal_weight =? current_weight)%float = true →
     calculate_daily_calorie_goal tdee current_weight goal_weight = tdee) ∧
  ((goal_weight <? current_weight)%float = false →
   (current_weight <? goal_weight)%float = false →
     calculate_daily_calorie_goal tdee current_weight goal_weight = tdee).
Proof.
  unfold calculate_daily_calorie_goal; simpl.
  change (float_of_Q 500) with 500%float. change (float_of_Q 300) with 300%float.
  repeat split.
  - intros ->. reflexivity.
  - intros Hgt. rewrite (float_ltb_asym _ _ Hgt), Hgt. reflexivity.
  - intros Heq. destruct (float_eqb_not_ltb _ _ Heq) as [-> ->]. reflexivity.
  - intros -> ->. reflexivity.
Qed.

Lemma daily_calorie_goal_cases_witness :
  calculate_daily_calorie_goal 2000%float 70%float 65%float = (2000 - 500)%float ∧
  calculate_daily_calorie_goal 2000%float 65%float 70%float = (2000 + 300)%float ∧
  calculate_daily_calorie_goal 2000%float 70%float 70%float = 2000%float.
Proof.
  split; [|split].
  - exact (proj1 (daily_calorie_goal_cases 2000 70 65) eq_refl).
  - exact (proj1 (proj2 (daily_calorie_goal_cases 2000 65 70)) eq_refl).
  - exact (proj1 (proj2 (proj2 (daily_calorie_goal_cases 2000 70 70))) eq_refl).
Defined.

Example daily_calorie_goal_examples :
  calculate_daily_calorie_goal 2000%float 70%float 65%float = 1500%float ∧
  calculate_daily_calorie_goal 2000%float 70%float 75%float = 2300%float ∧
  calculate_daily_calorie_goal 2000%float 70%float 70%float = 2000%float ∧
  calculate_daily_calorie_goal 300%float 70%float 65%float = (-200)%float.
Proof. vm_compute. repeat split. Qed.

(** ** Total daily energy expenditure *)

Lemma caseless_eqb_lower (s k : string) :
  caseless_eqb s k = String.eqb (lower s) (lower k).
Proof.
  revert k. induction s as [|a s IH]; intros [|b k]; simpl; try reflexivity.
  rewrite IH. reflexivity.
Qed.

Lemma activity_multipliers_other (k : string) :
  k ≠ "sedentario" → k ≠ "leve" → k ≠ "moderado" → k ≠ "intenso" → k ≠ "muito_intenso" →
  activity_multipliers !! k = None.
Proof.
  intros H1 H2 H3 H4 H5. unfold activity_multipliers. simpl.
  rewrite !lookup_insert_ne by congruence. apply lookup_empty.
Qed.

Lemma activity_multiplier_refines (activity_level : string) :
  lit (F:=float) (default 1.2%Q (activity_multipliers !! lower activity_level))
  = activity_multiplier_spec activity_level.
Proof.
  unfold activity_multiplier_spec. rewrite !caseless_eqb_lower.
  change (lower "sedentario") with "sedentario".
  change (lower "leve") with "leve".
  change (lower "moderado") with "moderado".
  change (lower "intenso") with "intenso".
  change (lower "muito_intenso") with "muito_intenso".
  destruct (String.eqb_spec (lower activity_level) "sedentario") as [->|H1];
    [vm_compute; reflexivity|].
  destruct (String.eqb_spec (lower activity_level) "leve") as [->|H2];
    [vm_compute; reflexivity|].
  destruct (String.eqb_spec (lower activity_level) "moderado") as [->|H3];
    [vm_compute; reflexivity|].
  destruct (String.eqb_spec (lower activity_level) "intenso") as [->|H4];
    [vm_compute; reflexivity|].
  destruct (String.eqb_spec (lower activity_level) "muito_intenso") as [->|H5];
    [vm_compute; reflexivity|].
  rewrite activity_multipliers_other by assumption. vm_compute. reflexivity.
Qed.

(** C7: the total daily energy expenditure is [bmr] times the multiplier of
    the case-insensitive lookup in
    {sedentario 1.2, leve 1.375, moderado 1.55, intenso 1.725,
    muito_intenso 1.9}, and [bmr * 1.2] for every text outside the table;
    in particular it is [bmr * 1.2] for "sedentario". *)
Theorem tdee_case_insensitive_lookup (bmr : float) (activity_level : string) :
  calculate_tdee bmr activity_level = (bmr * activity_multiplier_spec activity_level)%float ∧
  (caseless_eqb activity_level "sedentario" = false →
   caseless_eqb activity_level "leve" = false →
   caseless_eqb activity_level "moderado" = false →
   caseless_eqb activity_level "intenso" = false →
   caseless_eqb activity_level "muito_intenso" = false →
   calculate_tdee bmr activity_level = (bmr * 1.2)%float) ∧
  calculate_tdee bmr "sedentario" = (bmr * 1.2)%float.
Proof.
  assert (Hgen : ∀ s, calculate_tdee bmr s = (bmr * activity_multiplier_spec s)%float).
  { intros s. unfold calculate_tdee. simpl. f_equal. apply activity_multiplier_refines. }
  split; [apply Hgen|]. split.
  - intros H1 H2 H3 H4 H5. rewrite Hgen. unfold activity_multiplier_spec.
    rewrite H1, H2, H3, H4, H5. reflexivity.
  - rewrite Hgen. reflexivity.
Qed.

Lemma tdee_case_insensitive_lookup_witness :
  calculate_tdee 1500%float "Atleta" = (1500 * 1.2)%float.
Proof.
  exact (proj1 (proj2 (tdee_case_insensitive_lookup 1500 "Atleta"))
           eq_refl eq_refl eq_refl eq_refl eq_refl).
Defined.

Example tdee_examples :
  calculate_tdee 1500%float "sedentario" = 1800%float ∧
  calculate_tdee 1500%float "SEDENTARIO" = 1800%float ∧
  calculate_tdee 1500%float "Muito_Intenso" = 2850%float ∧
  calculate_tdee 1500%float "atleta" = 1800%float ∧
  calculate_tdee 1600%float "leve" = 2200%float.
Proof. vm_compute. repeat split. Qed.

(** ** Basal metabolic rate *)

(** *** Rounding to binary64 is monotone *)

Section RoundingMonotone.
Local Open Scope Z_scope.

(** *** Half-even rounding of a quotient *)

Lemma round_half_even_bounds (a b : Z) :
  (0 < b)%Z → (a / b ≤ round_half_even a b ≤ a / b + 1)%Z.
Proof.
  intros Hb. unfold round_half_even.
  destruct (2 * (a mod b) ?= b)%Z; [destruct (Z.even (a / b))| |]; lia.
Qed.

Lemma round_half_even_exact (c b : Z) : (0 < b)%Z → round_half_even (c * b) b = c.
Proof.
  intros Hb. unfold round_half_even.
  rewrite Z.div_mul, Z.mod_mul by lia. rewrite Z.mul_0_r.
  destruct (Z.compare_spec 0 b); [lia|reflexivity|lia].
Qed.

Lemma round_half_even_mono (a a' b : Z) :
  (0 < b)%Z → (a ≤ a')%Z → (round_half_even a b ≤ round_half_even a' b)%Z.
Proof.
  intros Hb Hle.
  pose proof (Z.div_le_mono a a' b Hb Hle) as Hq.
  destruct (Z.eq_dec (a / b) (a' / b)) as [Heq|Hne].
  - assert (Hr : (a mod b ≤ a' mod b)%Z).
    { rewrite !Z.mod_eq by lia. rewrite Heq. lia. }
    unfold round_half_even. rewrite <- Heq.
    destruct (Z.compare_spec (2 * (a mod b)) b); destruct (Z.compare_spec (2 * (a' mod b)) b);
      destruct (Z.even (a / b)); lia.
  - pose proof (round_half_even_bounds a b Hb). pose proof (round_half_even_bounds a' b Hb).
    lia.
Qed.

Lemma round_half_even_scale (a b c : Z) :
  (0 < b)%Z → (0 < c)%Z → round_half_even (a * c) (b * c) = round_half_even a b.
Proof.
  intros Hb Hc. unfold round_half_even.
  rewrite Z.div_mul_cancel_r by lia. rewrite Z.mul_mod_distr_r by lia.
  replace (2 * (a mod b * c))%Z with (2 * (a mod b) * c)%Z by lia.
  destruct (Z.compare_spec (2 * (a mod b)) b);
    destruct (Z.compare_spec (2 * (a mod b) * c) (b * c)); try reflexivity; nia.
Qed.

Lemma round_half_even_ge (a b l : Z) :
  (0 < b)%Z → (l * b ≤ a)%Z → (l ≤ round_half_even a b)%Z.
Proof.
  intros Hb Hl. pose proof (round_half_even_bounds a b Hb).
  assert (l ≤ a / b)%Z by (apply Z.div_le_lower_bound; lia). lia.
Qed.

Lemma round_half_even_le (a b u : Z) :
  (0 < b)%Z → (a ≤ u * b)%Z → (round_half_even a b ≤ u)%Z.
Proof.
  intros Hb Hu.
  rewrite <- (round_half_even_exact u b Hb). apply round_half_even_mono; assumption.
Qed.

(** *** The shifts of [SpecFloat] *)

Lemma iter_pos_nat {A} (f : A → A) (p : positive) (x : A) :
  SpecFloat.iter_pos f p x = Nat.iter (Pos.to_nat p) f x.
Proof.
  revert x. induction p as [p IH|p IH|]; intros x; cbn [SpecFloat.iter_pos].
  - rewrite !IH, Pos2Nat.inj_xI.
    replace (2 * Pos.to_nat p)%nat with (Pos.to_nat p + Pos.to_nat p)%nat by lia.
    rewrite Nat.iter_succ_r, Nat.iter_add. reflexivity.
  - rewrite !IH, Pos2Nat.inj_xO.
    replace (2 * Pos.to_nat p)%nat with (Pos.to_nat p + Pos.to_nat p)%nat by lia.
    rewrite Nat.iter_add. reflexivity.
  - reflexivity.
Qed.

Lemma shr_1_nonneg (m : Z) (r s : bool) :
  (0 ≤ m)%Z →
  shr_1 (Build_shr_record m r s) = Build_shr_record (m / 2) (Z.odd m) (r || s).
Proof.
  intros Hm. rewrite <- Z.div2_div.
  destruct m as [|p|p]; [reflexivity| |lia]. destruct p; reflexivity.
Qed.

Lemma shr_iter (m : Z) (j : nat) :
  (0 ≤ m)%Z →
  Nat.iter (S j) shr_1 (Build_shr_record m false false)
  = Build_shr_record (m / 2 ^ Z.of_nat (S j)) (Z.odd (m / 2 ^ Z.of_nat j))
      (negb (m mod 2 ^ Z.of_nat j =? 0)%Z).
Proof.
  intros Hm. induction j as [|j IH].
  - cbn [Nat.iter]. rewrite shr_1_nonneg by exact Hm.
    change (2 ^ Z.of_nat 1)%Z with 2%Z. change (2 ^ Z.of_nat 0)%Z with 1%Z.
    rewrite Z.div_1_r, Z.mod_1_r. reflexivity.
  - rewrite Nat.iter_succ, IH.
    assert (Hpow : (0 < 2 ^ Z.of_nat j)%Z) by (apply Z.pow_pos_nonneg; lia).
    assert (Hpow1 : (2 ^ Z.of_nat (S j) = 2 ^ Z.of_nat j * 2)%Z).
    { rewrite Nat2Z.inj_succ, Z.pow_succ_r by lia. lia. }
    rewrite shr_1_nonneg by (apply Z.div_pos; lia).
    f_equal.
    + rewrite Z.div_div by lia.
      rewrite (Nat2Z.inj_succ (S j)), Z.pow_succ_r by lia. f_equal. lia.
    + rewrite Hpow1, Z.rem_mul_r by lia.
      rewrite (Zmod_odd (m / 2 ^ Z.of_nat j)).
      pose proof (Z.mod_pos_bound m (2 ^ Z.of_nat j) Hpow) as Hlow.
      destruct (Z.odd (m / 2 ^ Z.of_nat j)); destruct (Z.eqb_spec (m mod 2 ^ Z.of_nat j) 0);
        cbn [orb negb];
        match goal with |- _ = negb (?x =? 0)%Z => destruct (Z.eqb_spec x 0) end;
        cbn [negb]; try reflexivity; lia.
Qed.

(** Shifting right by [p] places and rounding by the two bits kept is the
    half-even rounding of the quotient by [2 ^ p]. *)
Lemma shr_round (m : Z) (p : positive) :
  (0 ≤ m)%Z →
  let mrs := SpecFloat.iter_pos shr_1 p (Build_shr_record m false false) in
  round_nearest_even (shr_m mrs) (loc_of_shr_record mrs)
  = round_half_even m (2 ^ Zpos p).
Proof.
  intros Hm mrs. subst mrs. rewrite iter_pos_nat.
  destruct (Pos2Nat.is_succ p) as [j Hj]. rewrite Hj, shr_iter by exact Hm.
  assert (Hp : Zpos p = Z.of_nat (S j)) by lia. rewrite Hp.
  assert (Hpow : (0 < 2 ^ Z.of_nat j)%Z) by (apply Z.pow_pos_nonneg; lia).
  assert (Hpow1 : (2 ^ Z.of_nat (S j) = 2 ^ Z.of_nat j * 2)%Z).
  { rewrite Nat2Z.inj_succ, Z.pow_succ_r by lia. lia. }
  unfold round_half_even. cbn [shr_m].
  rewrite Hpow1 at 2 3. rewrite Z.rem_mul_r by lia.
  rewrite (Zmod_odd (m / 2 ^ Z.of_nat j)).
  pose proof (Z.mod_pos_bound m (2 ^ Z.of_nat j) Hpow) as Hlow.
  destruct (Z.odd (m / 2 ^ Z.of_nat j)); destruct (Z.eqb_spec (m mod 2 ^ Z.of_nat j) 0);
    cbn [negb loc_of_shr_record round_nearest_even];
    match goal with |- _ = match (?x ?= ?y)%Z with _ => _ end =>
      destruct (Z.compare_spec x y) end; try reflexivity; lia.
Qed.

(** *** The rounding of a value *)

Lemma round_units_nonneg (k X : Z) : 0 ≤ k → 0 ≤ X → 0 ≤ round_units k X.
Proof.
  intros Hk HX. unfold round_units.
  set (q := Z.max (Z.log2 X + 1 - 53) k).
  assert (Hb : 0 < 2 ^ q) by (apply Z.pow_pos_nonneg; lia).
  apply Z.mul_nonneg_nonneg; [|apply Z.pow_nonneg; lia].
  apply round_half_even_ge; [exact Hb|lia].
Qed.

Lemma round_units_mono (k X Y : Z) :
  0 ≤ k → 0 ≤ X ≤ Y → round_units k X ≤ round_units k Y.
Proof.
  intros Hk [HX HXY].
  destruct (Z.eq_dec X 0) as [->|HX0].
  { unfold round_units at 1. rewrite <- (Z.mul_0_l (2 ^ Z.max (Z.log2 0 + 1 - 53) k)) at 1.
    rewrite round_half_even_exact by (apply Z.pow_pos_nonneg; lia).
    rewrite Z.mul_0_l. apply round_units_nonneg; lia. }
  assert (HXpos : 0 < X) by lia. assert (HYpos : 0 < Y) by lia.
  pose proof (Z.log2_le_mono X Y HXY) as Hlog.
  pose proof (Z.log2_nonneg X) as HlX.
  pose proof (Z.log2_spec X HXpos) as [_ HXup].
  pose proof (Z.log2_spec Y HYpos) as [HYlow _].
  unfold round_units.
  set (lx := Z.log2 X) in *. set (ly := Z.log2 Y) in *.
  set (qX := Z.max (lx + 1 - 53) k). set (qY := Z.max (ly + 1 - 53) k).
  assert (HqX : 0 < 2 ^ qX) by (apply Z.pow_pos_nonneg; lia).
  assert (HqY : 0 < 2 ^ qY) by (apply Z.pow_pos_nonneg; lia).
  destruct (Z.eq_dec qX qY) as [Heq|Hne].
  - rewrite <- Heq. apply Z.mul_le_mono_nonneg_r; [apply Z.pow_nonneg; lia|].
    apply round_half_even_mono; lia.
  - assert (HqY' : qY = ly - 52) by lia. assert (Hlt : qX < qY) by lia.
    set (M := Z.max (lx + 1) qX).
    transitivity (2 ^ (M - qX) * 2 ^ (qX - k)).
    { apply Z.mul_le_mono_nonneg_r; [apply Z.pow_nonneg; lia|].
      apply round_half_even_le; [exact HqX|].
      rewrite <- Z.pow_add_r by lia. replace (M - qX + qX) with M by lia.
      transitivity (2 ^ Z.succ lx); [lia|]. apply Z.pow_le_mono_r; lia. }
    transitivity (2 ^ (ly - qY) * 2 ^ (qY - k)).
    { rewrite <- !Z.pow_add_r by lia. apply Z.pow_le_mono_r; lia. }
    apply Z.mul_le_mono_nonneg_r; [apply Z.pow_nonneg; lia|].
    apply round_half_even_ge; [exact HqY|].
    rewrite <- Z.pow_add_r by lia. replace (ly - qY + qY) with ly by lia. exact HYlow.
Qed.

Lemma round_signed_mono (k X Y : Z) : 0 ≤ k → X ≤ Y → round_signed k X ≤ round_signed k Y.
Proof.
  intros Hk HXY. unfold round_signed.
  assert (Htop : 0 < top_units) by (unfold top_units; apply Z.pow_pos_nonneg; lia).
  destruct (Z.ltb_spec X 0); destruct (Z.ltb_spec Y 0).
  - pose proof (round_units_mono k (- Y) (- X) Hk). lia.
  - pose proof (round_units_nonneg k (- X) Hk). pose proof (round_units_nonneg k Y Hk). lia.
  - lia.
  - pose proof (round_units_mono k X Y Hk). lia.
Qed.

(** A whole number of quanta is its own rounding. *)
Lemma round_units_exact (k m t : Z) :
  0 ≤ k → 0 < m → k ≤ t → Z.log2 m + 1 + t - 53 ≤ t →
  round_units k (m * 2 ^ t) = m * 2 ^ (t - k).
Proof.
  intros Hk Hm Ht Hd. unfold round_units.
  rewrite Z.log2_mul_pow2 by lia.
  set (q := Z.max (t + Z.log2 m + 1 - 53) k).
  replace (m * 2 ^ t) with (m * 2 ^ (t - q) * 2 ^ q)
    by (rewrite <- Z.mul_assoc, <- Z.pow_add_r by lia; f_equal; f_equal; lia).
  rewrite round_half_even_exact by (apply Z.pow_pos_nonneg; lia).
  rewrite <- Z.mul_assoc, <- Z.pow_add_r by lia. f_equal. f_equal. lia.
Qed.

Lemma digits2_pos_bounds (m : positive) :
  2 ^ (Zpos (digits2_pos m) - 1) ≤ Zpos m < 2 ^ Zpos (digits2_pos m).
Proof.
  induction m as [m IH|m IH|]; cbn [digits2_pos]; [| |cbn; lia];
    rewrite Pos2Z.inj_succ;
    replace (Z.succ (Zpos (digits2_pos m)) - 1) with (Z.succ (Zpos (digits2_pos m) - 1))
      by lia;
    rewrite !Z.pow_succ_r by lia; lia.
Qed.

Lemma digits2_pos_log2 (m : positive) : Zpos (digits2_pos m) = Z.log2 (Zpos m) + 1.
Proof.
  pose proof (digits2_pos_bounds m) as [Hlow Hup].
  rewrite (Z.log2_unique (Zpos m) (Zpos (digits2_pos m) - 1)); [lia|lia|].
  replace (Z.succ (Zpos (digits2_pos m) - 1)) with (Zpos (digits2_pos m)) by lia. lia.
Qed.

(** *** What [binary_round_aux] computes *)

Lemma fexp_binary64 (x : Z) : fexp prec emax x = Z.max (x - 53) (-1074).
Proof. reflexivity. Qed.

Lemma pow2_le_inv (a b : Z) : 0 ≤ b → 2 ^ a ≤ 2 ^ b → a ≤ b.
Proof. intros Hb Hle. apply (Z.pow_le_mono_r_iff 2); [lia|exact Hb|exact Hle]. Qed.

Lemma pow2_pos (a : Z) : 0 ≤ a → 0 < 2 ^ a.
Proof. intros Ha. apply Z.pow_pos_nonneg; lia. Qed.

Lemma top_units_split (a : Z) : 0 ≤ a ≤ 2098 → top_units = 2 ^ a * 2 ^ (2098 - a).
Proof.
  intros Ha. unfold top_units. rewrite <- Z.pow_add_r by lia. f_equal. lia.
Qed.

Lemma cond_Zopp_0 (s : bool) : cond_Zopp s 0 = 0.
Proof. destruct s; reflexivity. Qed.

(** A canonical mantissa and exponent give a valid float, or the infinity
    when the exponent is beyond the format; its value is the value of the
    pair, held at [top_units]. *)
Lemma finite_or_overflow (s : bool) (m : positive) (e : Z) :
  canonical_mantissa prec emax m e = true →
  let r := if e <=? emax - prec then S754_finite s m e else S754_infinity s in
  valid_binary r = true ∧ SFnotnan r ∧
  float_units r = cond_Zopp s (Z.min (Zpos m * 2 ^ (e + 1074)) top_units).
Proof.
  unfold canonical_mantissa. rewrite fexp_binary64. intros Hcan%Z.eqb_eq.
  pose proof (digits2_pos_bounds m) as [Hlow Hup].
  set (d := Zpos (digits2_pos m)) in *.
  change (emax - prec) with 971.
  destruct (Z.leb_spec e 971) as [Hle|Hgt]; cbn zeta.
  - split; [|split; [exact I|]].
    + cbn [valid_binary]. unfold bounded, canonical_mantissa. rewrite fexp_binary64.
      fold d. rewrite Hcan, Z.eqb_refl. change (emax - prec) with 971.
      apply Z.leb_le in Hle. rewrite Hle. reflexivity.
    + cbn [float_units]. f_equal. symmetry. apply Z.min_l.
      rewrite (top_units_split 53) by lia. change (2098 - 53) with 2045.
      assert (H53 : 2 ^ d ≤ 2 ^ 53) by (apply Z.pow_le_mono_r; lia).
      assert (He : 2 ^ (e + 1074) ≤ 2 ^ 2045) by (apply Z.pow_le_mono_r; lia).
      pose proof (pow2_pos (e + 1074) ltac:(lia)).
      transitivity (2 ^ 53 * 2 ^ (e + 1074));
        [apply Z.mul_le_mono_nonneg_r; lia|apply Z.mul_le_mono_nonneg_l; lia].
  - split; [reflexivity|]. split; [exact I|].
    cbn [float_units]. f_equal. symmetry. apply Z.min_r.
    rewrite (top_units_split 52) by lia. change (2098 - 52) with 2046.
    assert (Hd : d = 53) by lia. rewrite Hd in Hlow. change (53 - 1) with 52 in Hlow.
    assert (He : 2 ^ 2046 ≤ 2 ^ (e + 1074)) by (apply Z.pow_le_mono_r; lia).
    pose proof (pow2_pos 2046 ltac:(lia)). pose proof (pow2_pos 52 ltac:(lia)).
    apply Z.mul_le_mono_nonneg; lia.
Qed.

(** The second shift of [binary_round_aux]: a rounded mantissa of 54
    digits, which can only be [2 ^ 53], loses its last digit. *)
Lemma shr_fexp_renormalize (m1 : positive) (ef : Z) :
  -1074 ≤ ef → Zpos m1 ≤ 2 ^ 53 → (-1074 < ef → 2 ^ 52 ≤ Zpos m1) →
  ∃ mrs m2 e2,
    shr_fexp prec emax (Zpos m1) ef loc_Exact = (mrs, e2) ∧ shr_m mrs = Zpos m2 ∧
    canonical_mantissa prec emax m2 e2 = true ∧
    Zpos m2 * 2 ^ (e2 + 1074) = Zpos m1 * 2 ^ (ef + 1074).
Proof.
  intros Hef Hup Hnormal.
  pose proof (digits2_pos_bounds m1) as [Hlow Hhigh].
  unfold shr_fexp. cbn [Zdigits2 shr_record_of_loc]. rewrite fexp_binary64.
  set (d := Zpos (digits2_pos m1)) in *.
  assert (Hd54 : d ≤ 54).
  { assert (d - 1 ≤ 53); [|lia]. apply pow2_le_inv; lia. }
  destruct (Z.le_gt_cases d 53) as [Hd|Hd].
  - assert (Hd' : -1074 < ef → d = 53).
    { intros Hn. specialize (Hnormal Hn).
      assert (52 < d); [|lia]. apply (Z.pow_lt_mono_r_iff 2); lia. }
    assert (Hshift : Z.max (d + ef - 53) (-1074) - ef = 0) by lia.
    rewrite Hshift. cbn [shr]. eexists. exists m1, ef.
    split; [reflexivity|]. split; [reflexivity|]. split; [|reflexivity].
    unfold canonical_mantissa. rewrite fexp_binary64. fold d. apply Z.eqb_eq. lia.
  - assert (Hd' : d = 54) by lia.
    assert (Hm1 : Zpos m1 = 2 ^ 53).
    { rewrite Hd' in Hlow. change (54 - 1) with 53 in Hlow. lia. }
    assert (Hshift : Z.max (d + ef - 53) (-1074) - ef = 1) by lia.
    rewrite Hshift. cbn [shr SpecFloat.iter_pos].
    rewrite shr_1_nonneg by lia. rewrite Hm1.
    eexists. exists (2 ^ 52)%positive, (ef + 1).
    split; [reflexivity|]. split; [reflexivity|]. split.
    + unfold canonical_mantissa. rewrite fexp_binary64. apply Z.eqb_eq.
      change (Zpos (digits2_pos (2 ^ 52))) with 53. lia.
    + replace (ef + 1 + 1074) with (Z.succ (ef + 1074)) by lia.
      rewrite Z.pow_succ_r by lia.
      change (Zpos (2 ^ 52)) with (2 ^ 52). change (2 ^ 53) with (2 * 2 ^ 52). lia.
Qed.

(** The first shift and the rounding. *)
Lemma shr_fexp_round (m : positive) (e : Z) :
  let ef := fexp prec emax (Zpos (digits2_pos m) + e) in
  e ≤ ef →
  ∃ mrs,
    shr_fexp prec emax (Zpos m) e loc_Exact = (mrs, ef) ∧
    round_nearest_even (shr_m mrs) (loc_of_shr_record mrs)
    = round_half_even (Zpos m) (2 ^ (ef - e)).
Proof.
  intros ef Hle. unfold shr_fexp. cbn [Zdigits2 shr_record_of_loc]. fold ef.
  destruct (ef - e) as [|p|p] eqn:Hn; [| |lia].
  - cbn [shr]. eexists. split; [f_equal; lia|].
    cbn [shr_m loc_of_shr_record round_nearest_even].
    change (2 ^ 0) with 1. rewrite <- (Z.mul_1_r (Zpos m)) at 2.
    rewrite round_half_even_exact by lia. reflexivity.
  - cbn [shr]. eexists. split; [f_equal; lia|]. apply shr_round. lia.
Qed.

Lemma binary_round_aux_units (s : bool) (m : positive) (e k : Z) :
  0 ≤ k → 0 ≤ e + 1074 + k → e ≤ fexp prec emax (Zpos (digits2_pos m) + e) →
  let r := binary_round_aux prec emax s (Zpos m) e loc_Exact in
  valid_binary r = true ∧ SFnotnan r ∧
  float_units r
  = cond_Zopp s (Z.min (round_units k (Zpos m * 2 ^ (e + 1074 + k))) top_units).
Proof.
  intros Hk Ht Hwide r. subst r.
  destruct (shr_fexp_round m e Hwide) as (mrs & Hstage1 & Hround).
  unfold binary_round_aux. rewrite Hstage1, Hround. clear mrs Hstage1 Hround.
  rewrite fexp_binary64 in *.
  pose proof (digits2_pos_bounds m) as [Hlow Hhigh].
  pose proof (digits2_pos_log2 m) as Hlog.
  set (d := Zpos (digits2_pos m)) in *.
  set (ef := Z.max (d + e - 53) (-1074)) in *.
  set (n := ef - e). set (t := e + 1074 + k) in *.
  assert (Hn : 0 ≤ n) by lia.
  set (m1 := round_half_even (Zpos m) (2 ^ n)).
  (* the value *)
  assert (Hvalue : round_units k (Zpos m * 2 ^ t) = m1 * 2 ^ (ef + 1074)).
  { unfold round_units. rewrite Z.log2_mul_pow2 by lia.
    replace (Z.max (t + Z.log2 (Zpos m) + 1 - 53) k) with (n + t) by lia.
    rewrite Z.pow_add_r by lia.
    rewrite round_half_even_scale by (apply pow2_pos; lia).
    fold m1. f_equal. f_equal. lia. }
  rewrite Hvalue.
  assert (Hm1up : m1 ≤ 2 ^ 53).
  { apply round_half_even_le; [apply pow2_pos; lia|].
    rewrite <- Z.pow_add_r by lia.
    transitivity (2 ^ d); [lia|]. apply Z.pow_le_mono_r; lia. }
  assert (Hm1low : -1074 < ef → 2 ^ 52 ≤ m1).
  { intros Hnormal. apply round_half_even_ge; [apply pow2_pos; lia|].
    rewrite <- Z.pow_add_r by lia. replace (52 + n) with (d - 1) by lia. exact Hlow. }
  assert (Hm1nn : 0 ≤ m1).
  { apply round_half_even_ge; [apply pow2_pos; lia|]. lia. }
  clearbody m1. destruct m1 as [|p1|p1]; [| |lia].
  - unfold shr_fexp. cbn [Zdigits2 shr_record_of_loc]. rewrite fexp_binary64.
    assert (Hshift : Z.max (0 + ef - 53) (-1074) - ef ≤ 0) by lia.
    destruct (Z.max (0 + ef - 53) (-1074) - ef) as [|p|p]; [| lia |]; cbn [shr shr_m];
      (split; [reflexivity|]; split; [exact I|]);
      cbn [float_units]; rewrite Z.mul_0_l, Z.min_l, cond_Zopp_0; try reflexivity;
      unfold top_units; apply Z.pow_nonneg; lia.
  - destruct (shr_fexp_renormalize p1 ef ltac:(lia) Hm1up Hm1low)
      as (mrs & m2 & e2 & Hstage2 & Hm2 & Hcan & Hsame).
    rewrite Hstage2, Hm2, <- Hsame. exact (finite_or_overflow s m2 e2 Hcan).
Qed.

(** *** [binary_round] and [binary_normalize] *)

Lemma round_units_0 (k : Z) : 0 ≤ k → round_units k 0 = 0.
Proof.
  intros Hk. unfold round_units.
  rewrite <- (Z.mul_0_l (2 ^ Z.max (Z.log2 0 + 1 - 53) k)) at 1.
  rewrite round_half_even_exact by (apply pow2_pos; lia). reflexivity.
Qed.

Lemma top_units_pos : 0 < top_units.
Proof. unfold top_units. apply pow2_pos. lia. Qed.

Lemma round_signed_0 (k : Z) : 0 ≤ k → round_signed k 0 = 0.
Proof.
  intros Hk. unfold round_signed. cbn [Z.ltb Z.compare].
  rewrite round_units_0 by exact Hk. pose proof top_units_pos. lia.
Qed.

Lemma round_signed_cond_Zopp (k : Z) (s : bool) (X : Z) :
  0 ≤ k → 0 < X →
  round_signed k (cond_Zopp s X) = cond_Zopp s (Z.min (round_units k X) top_units).
Proof.
  intros Hk HX. unfold round_signed. destruct s; cbn [cond_Zopp].
  - destruct (Z.ltb_spec (- X) 0); [|lia]. rewrite Z.opp_involutive. reflexivity.
  - destruct (Z.ltb_spec X 0); [lia|]. reflexivity.
Qed.

Lemma cond_Zopp_mul (s : bool) (a b : Z) : cond_Zopp s a * b = cond_Zopp s (a * b).
Proof. destruct s; cbn [cond_Zopp]; lia. Qed.

Lemma shl_align_units (m : positive) (e e' : Z) :
  snd (shl_align m e e') = Z.min e e' ∧
  Zpos (fst (shl_align m e e')) = Zpos m * 2 ^ (e - Z.min e e').
Proof.
  unfold shl_align. destruct (e' - e) as [|p|p] eqn:Hd; cbn [fst snd].
  - split; [lia|]. replace (e - Z.min e e') with 0 by lia. lia.
  - split; [lia|]. replace (e - Z.min e e') with 0 by lia. lia.
  - split; [lia|]. replace (e - Z.min e e') with (Zpos p) by lia.
    change (Pos.iter xO m p) with (shift_pos p m).
    rewrite shift_pos_correct. change (Zpower_pos 2 p) with (2 ^ Zpos p). lia.
Qed.

Lemma binary_round_units (s : bool) (m : positive) (e k : Z) :
  0 ≤ k → 0 ≤ e + 1074 + k →
  let r := binary_round prec emax s m e in
  valid_binary r = true ∧ SFnotnan r ∧
  float_units r
  = cond_Zopp s (Z.min (round_units k (Zpos m * 2 ^ (e + 1074 + k))) top_units).
Proof.
  intros Hk Ht r. subst r. unfold binary_round.
  pose proof (shl_align_units m e (fexp prec emax (Zpos (digits2_pos m) + e))) as [He Hm].
  destruct (shl_align m e (fexp prec emax (Zpos (digits2_pos m) + e))) as [mz ez].
  cbn [fst snd] in He, Hm. rewrite fexp_binary64 in He, Hm.
  pose proof (digits2_pos_log2 m) as Hd. pose proof (digits2_pos_log2 mz) as Hdz.
  rewrite Hm, Z.log2_mul_pow2 in Hdz by lia.
  assert (Hsame : Zpos m * 2 ^ (e + 1074 + k) = Zpos mz * 2 ^ (ez + 1074 + k)).
  { rewrite Hm, <- Z.mul_assoc, <- Z.pow_add_r by lia. f_equal. f_equal. lia. }
  rewrite Hsame. apply binary_round_aux_units; [exact Hk|lia|].
  rewrite fexp_binary64. lia.
Qed.

Lemma binary_normalize_units (z e k : Z) :
  0 ≤ k → 0 ≤ e + 1074 + k →
  let r := binary_normalize prec emax z e false in
  valid_binary r = true ∧ SFnotnan r ∧
  float_units r = round_signed k (z * 2 ^ (e + 1074 + k)).
Proof.
  intros Hk Ht r. subst r. pose proof (pow2_pos (e + 1074 + k) Ht) as Hpow.
  destruct z as [|m|m]; cbn [binary_normalize].
  - split; [reflexivity|]. split; [exact I|]. rewrite Z.mul_0_l, round_signed_0 by exact Hk.
    reflexivity.
  - change (Zpos m * 2 ^ (e + 1074 + k))
      with (cond_Zopp false (Zpos m * 2 ^ (e + 1074 + k))).
    rewrite round_signed_cond_Zopp by lia.
    exact (binary_round_units false m e k Hk Ht).
  - replace (Zneg m * 2 ^ (e + 1074 + k)) with (cond_Zopp true (Zpos m * 2 ^ (e + 1074 + k)))
      by (cbn [cond_Zopp]; lia).
    rewrite round_signed_cond_Zopp by lia.
    exact (binary_round_units true m e k Hk Ht).
Qed.

(** *** Valid floats, their order and their arithmetic *)

Lemma valid_finite (s : bool) (m : positive) (e : Z) :
  valid_binary (S754_finite s m e) = true →
  -1074 ≤ e ≤ 971 ∧ 1 ≤ Zpos (digits2_pos m) ≤ 53 ∧
  (-1074 < e → Zpos (digits2_pos m) = 53).
Proof.
  cbn [SpecFloat.valid_binary]. unfold bounded, canonical_mantissa.
  rewrite fexp_binary64. change (emax - prec) with 971.
  intros [Hcan%Z.eqb_eq Hle%Z.leb_le]%andb_true_iff. lia.
Qed.

Lemma valid_finite_units (s : bool) (m : positive) (e : Z) :
  valid_binary (S754_finite s m e) = true →
  0 < Zpos m * 2 ^ (e + 1074) < top_units.
Proof.
  intros (He & Hd & _)%valid_finite.
  pose proof (digits2_pos_bounds m) as [_ Hup].
  pose proof (pow2_pos (e + 1074) ltac:(lia)) as Hpow.
  split; [lia|].
  rewrite (top_units_split 53) by lia. change (2098 - 53) with 2045.
  assert (H53 : 2 ^ Zpos (digits2_pos m) ≤ 2 ^ 53) by (apply Z.pow_le_mono_r; lia).
  assert (Hee : 2 ^ (e + 1074) ≤ 2 ^ 2045) by (apply Z.pow_le_mono_r; lia).
  apply Z.lt_le_trans with (2 ^ 53 * 2 ^ (e + 1074));
    [apply Z.mul_lt_mono_pos_r; lia|apply Z.mul_le_mono_nonneg_l; lia].
Qed.

Lemma units_lt_of_exponent_lt (s1 s2 : bool) (m1 m2 : positive) (e1 e2 : Z) :
  valid_binary (S754_finite s1 m1 e1) = true →
  valid_binary (S754_finite s2 m2 e2) = true →
  e1 < e2 → Zpos m1 * 2 ^ (e1 + 1074) < Zpos m2 * 2 ^ (e2 + 1074).
Proof.
  intros (He1 & Hd1 & _)%valid_finite (He2 & _ & Hn2)%valid_finite Hlt.
  pose proof (digits2_pos_bounds m1) as [_ Hup1].
  pose proof (digits2_pos_bounds m2) as [Hlow2 _].
  rewrite Hn2 in Hlow2 by lia. change (53 - 1) with 52 in Hlow2.
  assert (H53 : 2 ^ Zpos (digits2_pos m1) ≤ 2 ^ 53) by (apply Z.pow_le_mono_r; lia).
  pose proof (pow2_pos (e1 + 1074) ltac:(lia)) as Hp1.
  pose proof (pow2_pos (e2 + 1074) ltac:(lia)) as Hp2.
  apply Z.lt_le_trans with (2 ^ 53 * 2 ^ (e1 + 1074));
    [apply Z.mul_lt_mono_pos_r; lia|].
  apply Z.le_trans with (2 ^ 52 * 2 ^ (e2 + 1074));
    [|apply Z.mul_le_mono_nonneg_r; lia].
  rewrite <- !Z.pow_add_r by lia. apply Z.pow_le_mono_r; lia.
Qed.

Lemma units_compare (s1 s2 : bool) (m1 m2 : positive) (e1 e2 : Z) :
  valid_binary (S754_finite s1 m1 e1) = true →
  valid_binary (S754_finite s2 m2 e2) = true →
  (Zpos m1 * 2 ^ (e1 + 1074) ?= Zpos m2 * 2 ^ (e2 + 1074))
  = match e1 ?= e2 with
    | Lt => Lt
    | Gt => Gt
    | Eq => Pos.compare_cont Eq m1 m2
    end.
Proof.
  intros H1 H2. destruct (Z.compare_spec e1 e2) as [->|Hlt|Hgt].
  - pose proof (valid_finite _ _ _ H2) as (He & _).
    pose proof (pow2_pos (e2 + 1074) ltac:(lia)) as Hpow.
    change (Pos.compare_cont Eq m1 m2) with (Zpos m1 ?= Zpos m2).
    destruct (Z.compare_spec (Zpos m1) (Zpos m2));
      [apply Z.compare_eq_iff|apply Z.compare_lt_iff|apply Z.compare_gt_iff]; nia.
  - apply Z.compare_lt_iff. exact (units_lt_of_exponent_lt _ _ _ _ _ _ H1 H2 Hlt).
  - apply Z.compare_gt_iff. exact (units_lt_of_exponent_lt _ _ _ _ _ _ H2 H1 Hgt).
Qed.

Local Ltac by_units :=
  cbn [cond_Zopp]; f_equal; symmetry;
  first [apply Z.compare_eq_iff; lia|apply Z.compare_lt_iff; lia|apply Z.compare_gt_iff; lia].

(** The order of the floats is the order of their values. *)
Lemma SFcompare_units (x y : spec_float) :
  valid_binary x = true → valid_binary y = true → SFnotnan x → SFnotnan y →
  SFcompare x y = Some (float_units x ?= float_units y).
Proof.
  intros Hx Hy Hnx Hny. pose proof top_units_pos as Htop.
  destruct x as [sx|sx| |sx mx ex]; [| |contradiction|];
    destruct y as [sy|sy| |sy my ey]; try contradiction;
    try pose proof (valid_finite_units _ _ _ Hx) as Hux;
    try pose proof (valid_finite_units _ _ _ Hy) as Huy;
    cbn [SFcompare float_units].
  - reflexivity.
  - destruct sy; by_units.
  - destruct sy; by_units.
  - destruct sx; by_units.
  - destruct sx, sy; by_units.
  - destruct sx, sy; by_units.
  - destruct sx; by_units.
  - destruct sx, sy; by_units.
  - destruct sx, sy; cbn [cond_Zopp]; f_equal.
    + rewrite Z.compare_opp, (Z.compare_antisym (Zpos mx * _)), (units_compare _ _ _ _ _ _ Hx Hy).
      destruct (ex ?= ey); reflexivity.
    + symmetry. apply Z.compare_lt_iff. lia.
    + symmetry. apply Z.compare_gt_iff. lia.
    + rewrite (units_compare _ _ _ _ _ _ Hx Hy). reflexivity.
Qed.

Lemma SFleb_units (x y : spec_float) :
  valid_binary x = true → valid_binary y = true → SFnotnan x → SFnotnan y →
  SFleb x y = true ↔ float_units x ≤ float_units y.
Proof.
  intros Hx Hy Hnx Hny. unfold SFleb. rewrite (SFcompare_units x y Hx Hy Hnx Hny).
  destruct (Z.compare_spec (float_units x) (float_units y)); split; intros; try lia;
    try reflexivity; discriminate.
Qed.

Lemma SFleb_notnan (x y : spec_float) : SFleb x y = true → SFnotnan x ∧ SFnotnan y.
Proof. destruct x, y; cbn; try discriminate; auto. Qed.

(** A valid float is its own rounding. *)
Lemma round_signed_valid (x : spec_float) :
  valid_binary x = true → SFfinite x → round_signed 0 (float_units x) = float_units x.
Proof.
  intros Hx Hfin. destruct x as [s|s| |s m e]; try contradiction; cbn [float_units].
  - apply round_signed_0. lia.
  - pose proof (valid_finite_units _ _ _ Hx) as Hu.
    pose proof (valid_finite _ _ _ Hx) as (He & Hd & Hn).
    rewrite round_signed_cond_Zopp by lia. f_equal.
    rewrite round_units_exact; [|lia|lia|lia|].
    + rewrite Z.sub_0_r. lia.
    + pose proof (digits2_pos_log2 m). lia.
Qed.

Lemma SFsub_add_opp (x y : spec_float) :
  SFsub prec emax x y = SFadd prec emax x (SFopp y).
Proof.
  destruct x as [sx|sx| |sx mx ex], y as [sy|sy| |sy my ey]; cbn [SFsub SFadd SFopp];
    try reflexivity; destruct sx, sy; reflexivity.
Qed.

Lemma SFopp_units (x : spec_float) : float_units (SFopp x) = - float_units x.
Proof.
  destruct x as [s|s| |s m e]; cbn [SFopp float_units]; try reflexivity;
    destruct s; cbn [negb cond_Zopp]; lia.
Qed.

Lemma SFopp_valid (x : spec_float) : valid_binary (SFopp x) = valid_binary x.
Proof. destruct x; reflexivity. Qed.

Lemma aligned_units (s : bool) (m : positive) (e ez : Z) :
  0 ≤ ez + 1074 → ez ≤ e →
  cond_Zopp s (Zpos (fst (shl_align m e ez))) * 2 ^ (ez + 1074)
  = cond_Zopp s (Zpos m * 2 ^ (e + 1074)).
Proof.
  intros Hez Hle. pose proof (shl_align_units m e ez) as [_ Hm].
  rewrite Hm, cond_Zopp_mul. f_equal. rewrite Z.min_r by lia.
  rewrite <- Z.mul_assoc, <- Z.pow_add_r by lia. f_equal. f_equal. lia.
Qed.

(** The sum of two finite floats is the rounding of the sum of their
    values. *)
Lemma SFadd_units (x y : spec_float) :
  valid_binary x = true → valid_binary y = true → SFfinite x → SFfinite y →
  valid_binary (SFadd prec emax x y) = true ∧ SFnotnan (SFadd prec emax x y) ∧
  float_units (SFadd prec emax x y) = round_signed 0 (float_units x + float_units y).
Proof.
  intros Hx Hy Hfx Hfy.
  destruct x as [sx|sx| |sx mx ex]; try contradiction;
    destruct y as [sy|sy| |sy my ey]; try contradiction.
  - destruct sx, sy; cbn [SFadd float_units]; rewrite round_signed_0 by lia; auto.
  - cbn [SFadd]. split; [exact Hy|]. split; [exact I|].
    change (float_units (S754_zero sx)) with 0. rewrite Z.add_0_l.
    symmetry. apply round_signed_valid; [exact Hy|exact I].
  - cbn [SFadd]. split; [exact Hx|]. split; [exact I|].
    change (float_units (S754_zero sy)) with 0. rewrite Z.add_0_r.
    symmetry. apply round_signed_valid; [exact Hx|exact I].
  - pose proof (valid_finite _ _ _ Hx) as (Hex & _). pose proof (valid_finite _ _ _ Hy) as (Hey & _).
    cbn [SFadd float_units].
    pose proof (binary_normalize_units
                  (cond_Zopp sx (Zpos (fst (shl_align mx ex (Z.min ex ey))))
                   + cond_Zopp sy (Zpos (fst (shl_align my ey (Z.min ex ey)))))
                  (Z.min ex ey) 0 ltac:(lia) ltac:(lia)) as (Hv & Hn & Hu).
    split; [exact Hv|]. split; [exact Hn|]. rewrite Hu. f_equal.
    rewrite Z.add_0_r, Z.mul_add_distr_r, !aligned_units by lia. reflexivity.
Qed.

Lemma SFsub_units (x y : spec_float) :
  valid_binary x = true → valid_binary y = true → SFfinite x → SFfinite y →
  valid_binary (SFsub prec emax x y) = true ∧ SFnotnan (SFsub prec emax x y) ∧
  float_units (SFsub prec emax x y) = round_signed 0 (float_units x - float_units y).
Proof.
  intros Hx Hy Hfx Hfy. rewrite SFsub_add_opp.
  replace (float_units x - float_units y) with (float_units x + float_units (SFopp y))
    by (rewrite SFopp_units; lia).
  apply SFadd_units; [exact Hx|rewrite SFopp_valid; exact Hy|exact Hfx|].
  destruct y; try contradiction; exact I.
Qed.

(** The product of two finite floats is the rounding of the product of
    their values, which counts units of [2 ^ -2148]. *)
Lemma SFmul_units (x y : spec_float) :
  valid_binary x = true → valid_binary y = true → SFfinite x → SFfinite y →
  valid_binary (SFmul prec emax x y) = true ∧ SFnotnan (SFmul prec emax x y) ∧
  float_units (SFmul prec emax x y) = round_signed 1074 (float_units x * float_units y).
Proof.
  intros Hx Hy Hfx Hfy.
  destruct x as [sx|sx| |sx mx ex]; try contradiction;
    destruct y as [sy|sy| |sy my ey]; try contradiction;
    cbn [SFmul float_units];
    rewrite ?Z.mul_0_l, ?Z.mul_0_r, ?round_signed_0 by lia; auto.
  pose proof (valid_finite _ _ _ Hx) as (Hex & Hdx & Hnx).
  pose proof (valid_finite _ _ _ Hy) as (Hey & Hdy & Hny).
  pose proof (pow2_pos (ex + 1074) ltac:(lia)) as Hpx.
  pose proof (pow2_pos (ey + 1074) ltac:(lia)) as Hpy.
  assert (Hprod : cond_Zopp sx (Zpos mx * 2 ^ (ex + 1074))
                  * cond_Zopp sy (Zpos my * 2 ^ (ey + 1074))
                  = cond_Zopp (xorb sx sy) (Zpos (mx * my) * 2 ^ (ex + ey + 1074 + 1074))).
  { replace (ex + ey + 1074 + 1074) with ((ex + 1074) + (ey + 1074)) by lia.
    rewrite (Z.pow_add_r 2 (ex + 1074) (ey + 1074)), Pos2Z.inj_mul by lia.
    destruct sx, sy; cbn [xorb cond_Zopp]; lia. }
  rewrite Hprod, round_signed_cond_Zopp;
    [|lia|apply Z.mul_pos_pos; [lia|apply pow2_pos; lia]].
  apply binary_round_aux_units; [lia|lia|].
  rewrite fexp_binary64.
  pose proof (digits2_pos_log2 mx). pose proof (digits2_pos_log2 my).
  pose proof (digits2_pos_log2 (mx * my)) as Hdm. rewrite Pos2Z.inj_mul in Hdm.
  pose proof (Z.log2_mul_below (Zpos mx) (Zpos my) (Pos2Z.is_pos mx) (Pos2Z.is_pos my)).
  lia.
Qed.

(** *** Monotonicity of the operations *)

Lemma float_units_bounds (x : spec_float) :
  valid_binary x = true → - top_units ≤ float_units x ≤ top_units.
Proof.
  intros Hx. pose proof top_units_pos.
  destruct x as [s|s| |s m e]; cbn [float_units]; try lia.
  - destruct s; cbn [cond_Zopp]; lia.
  - pose proof (valid_finite_units _ _ _ Hx). destruct s; cbn [cond_Zopp]; lia.
Qed.

Lemma SFnotnan_cases (x : spec_float) :
  SFnotnan x → SFfinite x ∨ x = S754_infinity false ∨ x = S754_infinity true.
Proof. destruct x as [s|[|]| |s m e]; cbn; auto; contradiction. Qed.

Lemma SFfinite_units (x : spec_float) :
  valid_binary x = true → SFfinite x → - top_units < float_units x < top_units.
Proof.
  intros Hx Hf. pose proof top_units_pos.
  destruct x as [s|s| |s m e]; try contradiction; cbn [float_units]; [lia|].
  pose proof (valid_finite_units _ _ _ Hx). destruct s; cbn [cond_Zopp]; lia.
Qed.

Lemma SFadd_notnan (x y : spec_float) :
  SFnotnan (SFadd prec emax x y) → SFnotnan x ∧ SFnotnan y.
Proof. destruct x, y; cbn; auto. Qed.

Lemma SFadd_infinity (x y : spec_float) (s : bool) :
  SFnotnan (SFadd prec emax x y) → x = S754_infinity s ∨ y = S754_infinity s →
  SFadd prec emax x y = S754_infinity s.
Proof.
  intros Hn [-> | ->].
  - destruct y as [sy|sy| |sy my ey]; try reflexivity; [|contradiction].
    destruct s, sy; try reflexivity; contradiction.
  - destruct x as [sx|sx| |sx mx ex]; try reflexivity; [|contradiction].
    destruct sx, s; try reflexivity; contradiction.
Qed.

(** Addition is monotone in both operands, wherever the sums are numbers. *)
Lemma SFadd_mono (x x' y y' : spec_float) :
  valid_binary x = true → valid_binary x' = true →
  valid_binary y = true → valid_binary y' = true →
  valid_binary (SFadd prec emax x y) = true → valid_binary (SFadd prec emax x' y') = true →
  SFleb x x' = true → SFleb y y' = true →
  SFnotnan (SFadd prec emax x y) → SFnotnan (SFadd prec emax x' y') →
  SFleb (SFadd prec emax x y) (SFadd prec emax x' y') = true.
Proof.
  intros Hx Hx' Hy Hy' Hv Hv' Hlex Hley Hn Hn'.
  pose proof (SFleb_notnan _ _ Hlex) as [Hnx Hnx'].
  pose proof (SFleb_notnan _ _ Hley) as [Hny Hny'].
  apply (SFleb_units _ _ Hx Hx' Hnx Hnx') in Hlex.
  apply (SFleb_units _ _ Hy Hy' Hny Hny') in Hley.
  apply (SFleb_units _ _ Hv Hv' Hn Hn').
  pose proof top_units_pos as Htop.
  pose proof (float_units_bounds _ Hv) as Hb. pose proof (float_units_bounds _ Hv') as Hb'.
  destruct (SFnotnan_cases x' Hnx') as [Hfx'|[->| ->]];
    [|rewrite (SFadd_infinity _ y' false Hn') by auto; exact (proj2 Hb)|].
  2: { assert (x = S754_infinity true) as ->.
       { destruct (SFnotnan_cases x Hnx) as [Hfx|[->| ->]]; [| |reflexivity];
           [pose proof (SFfinite_units x Hx Hfx)|]; cbn [float_units cond_Zopp] in Hlex; lia. }
       rewrite (SFadd_infinity _ y true Hn) by auto. exact (proj1 Hb'). }
  destruct (SFnotnan_cases y' Hny') as [Hfy'|[->| ->]];
    [|rewrite (SFadd_infinity x' _ false Hn') by auto; exact (proj2 Hb)|].
  2: { assert (y = S754_infinity true) as ->.
       { destruct (SFnotnan_cases y Hny) as [Hfy|[->| ->]]; [| |reflexivity];
           [pose proof (SFfinite_units y Hy Hfy)|]; cbn [float_units cond_Zopp] in Hley; lia. }
       rewrite (SFadd_infinity x _ true Hn) by auto. exact (proj1 Hb'). }
  pose proof (SFfinite_units x' Hx' Hfx') as Hux'.
  pose proof (SFfinite_units y' Hy' Hfy') as Huy'.
  destruct (SFnotnan_cases x Hnx) as [Hfx|[->| ->]];
    [|cbn [float_units cond_Zopp] in Hlex; lia
     |rewrite (SFadd_infinity _ y true Hn) by auto; exact (proj1 Hb')].
  destruct (SFnotnan_cases y Hny) as [Hfy|[->| ->]];
    [|cbn [float_units cond_Zopp] in Hley; lia
     |rewrite (SFadd_infinity x _ true Hn) by auto; exact (proj1 Hb')].
  destruct (SFadd_units x y Hx Hy Hfx Hfy) as (_ & _ & ->).
  destruct (SFadd_units x' y' Hx' Hy' Hfx' Hfy') as (_ & _ & ->).
  apply round_signed_mono; lia.
Qed.

Lemma SFopp_antitone (x y : spec_float) :
  valid_binary x = true → valid_binary y = true →
  SFleb x y = true → SFleb (SFopp y) (SFopp x) = true.
Proof.
  intros Hx Hy Hle. pose proof (SFleb_notnan _ _ Hle) as [Hnx Hny].
  apply (SFleb_units _ _ Hx Hy Hnx Hny) in Hle.
  apply SFleb_units; rewrite ?SFopp_valid, ?SFopp_units; try assumption;
    [destruct y|destruct x|lia]; auto.
Qed.

(** Multiplication by a positive finite float is monotone. *)
Lemma SFmul_mono (mc : positive) (ec : Z) (x y : spec_float) :
  let c := S754_finite false mc ec in
  valid_binary c = true → valid_binary x = true → valid_binary y = true →
  valid_binary (SFmul prec emax c x) = true → valid_binary (SFmul prec emax c y) = true →
  SFleb x y = true →
  SFleb (SFmul prec emax c x) (SFmul prec emax c y) = true.
Proof.
  intros c Hc Hx Hy Hv Hv' Hle. pose proof (SFleb_notnan _ _ Hle) as [Hnx Hny].
  apply (SFleb_units _ _ Hx Hy Hnx Hny) in Hle.
  pose proof top_units_pos as Htop.
  assert (Hnotnan : ∀ z, valid_binary z = true → SFnotnan z →
                         SFnotnan (SFmul prec emax c z)).
  { intros z Hz Hnz. destruct (SFnotnan_cases z Hnz) as [Hfz|[->| ->]]; [|exact I|exact I].
    exact (proj1 (proj2 (SFmul_units c z Hc Hz I Hfz))). }
  apply (SFleb_units _ _ Hv Hv' (Hnotnan x Hx Hnx) (Hnotnan y Hy Hny)).
  pose proof (float_units_bounds _ Hv) as Hb. pose proof (float_units_bounds _ Hv') as Hb'.
  pose proof (valid_finite_units _ _ _ Hc) as Huc.
  destruct (SFnotnan_cases y Hny) as [Hfy|[->| ->]]; [|exact (proj2 Hb)|].
  2: { assert (x = S754_infinity true) as ->.
       { destruct (SFnotnan_cases x Hnx) as [Hfx|[->| ->]]; [| |reflexivity];
           [pose proof (SFfinite_units x Hx Hfx)|]; cbn [float_units cond_Zopp] in Hle; lia. }
       apply Z.le_refl. }
  pose proof (SFfinite_units y Hy Hfy) as Huy.
  destruct (SFnotnan_cases x Hnx) as [Hfx|[->| ->]];
    [|cbn [float_units cond_Zopp] in Hle; lia|exact (proj1 Hb')].
  destruct (SFmul_units c x Hc Hx I Hfx) as (_ & _ & ->).
  destruct (SFmul_units c y Hc Hy I Hfy) as (_ & _ & ->).
  apply round_signed_mono; [lia|]. cbn [float_units cond_Zopp c].
  apply Z.mul_le_mono_nonneg_l; lia.
Qed.

(** *** Python floats *)

Lemma is_nan_SFnotnan (x : float) : is_nan x = false ↔ SFnotnan (Prim2SF x).
Proof.
  unfold is_nan. rewrite FloatAxioms.eqb_spec. pose proof (Prim2SF_valid x) as Hv.
  destruct (Prim2SF x) as [s|s| |s m e] eqn:Hx; cbn [SFnotnan];
    try (unfold SFeqb; rewrite SFcompare_units, Z.compare_refl by (exact Hv || exact I);
         cbn; tauto).
  cbn. split; [discriminate|contradiction].
Qed.

Lemma float_leb_notnan (a b : float) :
  (a <=? b)%float = true → is_nan a = false ∧ is_nan b = false.
Proof.
  rewrite leb_spec, !is_nan_SFnotnan. apply SFleb_notnan.
Qed.

Lemma float_leb_refl (a : float) : is_nan a = false → (a <=? a)%float = true.
Proof.
  rewrite is_nan_SFnotnan, leb_spec. intros Hn.
  apply SFleb_units; try apply Prim2SF_valid; try exact Hn. lia.
Qed.

Lemma is_nan_add (a b : float) :
  is_nan (a + b) = false → is_nan a = false ∧ is_nan b = false.
Proof.
  rewrite !is_nan_SFnotnan, add_spec. apply SFadd_notnan.
Qed.

Lemma is_nan_sub (a b : float) :
  is_nan (a - b) = false → is_nan a = false ∧ is_nan b = false.
Proof.
  rewrite !is_nan_SFnotnan, sub_spec. unfold SF64sub. rewrite SFsub_add_opp.
  intros [Ha Hb]%SFadd_notnan. split; [exact Ha|]. destruct (Prim2SF b); auto.
Qed.

Lemma is_nan_mul (a b : float) :
  is_nan (a * b) = false → is_nan a = false ∧ is_nan b = false.
Proof.
  rewrite !is_nan_SFnotnan, mul_spec. unfold SF64mul.
  destruct (Prim2SF a), (Prim2SF b); cbn; auto.
Qed.

(** [+] is monotone in both operands, wherever the sums are numbers. *)
Lemma float_add_mono (a a' b b' : float) :
  (a <=? a')%float = true → (b <=? b')%float = true →
  is_nan (a + b) = false → is_nan (a' + b') = false →
  (a + b <=? a' + b')%float = true.
Proof.
  rewrite !leb_spec, !is_nan_SFnotnan. intros Ha Hb Hn Hn'.
  pose proof (Prim2SF_valid (a + b)) as Hv. pose proof (Prim2SF_valid (a' + b')) as Hv'.
  rewrite !add_spec in *. unfold SF64add in *.
  apply SFadd_mono; try apply Prim2SF_valid; assumption.
Qed.

(** [-] is monotone in its first operand and antitone in its second. *)
Lemma float_sub_mono (a a' b b' : float) :
  (a <=? a')%float = true → (b' <=? b)%float = true →
  is_nan (a - b) = false → is_nan (a' - b') = false →
  (a - b <=? a' - b')%float = true.
Proof.
  rewrite !leb_spec, !is_nan_SFnotnan. intros Ha Hb Hn Hn'.
  pose proof (Prim2SF_valid (a - b)) as Hv. pose proof (Prim2SF_valid (a' - b')) as Hv'.
  rewrite !sub_spec in *. unfold SF64sub in *. rewrite !SFsub_add_opp in *.
  apply SFadd_mono; rewrite ?SFopp_valid; try apply Prim2SF_valid; try assumption.
  apply SFopp_antitone; try apply Prim2SF_valid. exact Hb.
Qed.

(** [c * _] is monotone for a positive finite [c]. *)
Lemma float_mul_mono (c a b : float) (mc : positive) (ec : Z) :
  Prim2SF c = S754_finite false mc ec →
  (a <=? b)%float = true → (c * a <=? c * b)%float = true.
Proof.
  rewrite !leb_spec. intros Hc Hle.
  pose proof (Prim2SF_valid (c * a)) as Hv. pose proof (Prim2SF_valid (c * b)) as Hv'.
  pose proof (Prim2SF_valid c) as Hvc.
  rewrite !mul_spec in *. unfold SF64mul in *. rewrite !Hc in *.
  apply SFmul_mono; try apply Prim2SF_valid; assumption.
Qed.

(** The conversion of an [int] is monotone. *)
Lemma float_of_int_mono (z z' : Z) (f f' : float) :
  z ≤ z' → float_of_int z = Ok f → float_of_int z' = Ok f' → (f <=? f')%float = true.
Proof.
  intros Hle Hf Hf'. unfold float_of_int in Hf, Hf'.
  pose proof (binary_normalize_units z 0 0 ltac:(lia) ltac:(lia)) as (Hv & Hn & Hu).
  pose proof (binary_normalize_units z' 0 0 ltac:(lia) ltac:(lia)) as (Hv' & Hn' & Hu').
  assert (Hp : Prim2SF f = binary_normalize prec emax z 0 false).
  { assert (f = SF2Prim (binary_normalize prec emax z 0 false)) as ->
      by (destruct (binary_normalize prec emax z 0 false); congruence).
    apply Prim2SF_SF2Prim. exact Hv. }
  assert (Hp' : Prim2SF f' = binary_normalize prec emax z' 0 false).
  { assert (f' = SF2Prim (binary_normalize prec emax z' 0 false)) as ->
      by (destruct (binary_normalize prec emax z' 0 false); congruence).
    apply Prim2SF_SF2Prim. exact Hv'. }
  rewrite leb_spec, Hp, Hp'. apply SFleb_units; try assumption.
  rewrite Hu, Hu'. apply round_signed_mono; [lia|].
  apply Z.mul_le_mono_nonneg_r; [apply Z.pow_nonneg|]; lia.
Qed.

(** *** The rate *)

(** The formula of both branches: a constant, plus a positive multiple of
    the weight, plus one of the height, minus one of the age. *)
Lemma harris_benedict_mono (c0 c1 c2 c3 : float) (m1 m2 m3 : positive) (e1 e2 e3 : Z)
  (w w' h h' f f' : float) :
  Prim2SF c1 = S754_finite false m1 e1 → Prim2SF c2 = S754_finite false m2 e2 →
  Prim2SF c3 = S754_finite false m3 e3 →
  (w <=? w')%float = true → (h <=? h')%float = true → (f' <=? f)%float = true →
  is_nan (c0 + c1 * w + c2 * h - c3 * f) = false →
  is_nan (c0 + c1 * w' + c2 * h' - c3 * f') = false →
  (c0 + c1 * w + c2 * h - c3 * f <=? c0 + c1 * w' + c2 * h' - c3 * f')%float = true.
Proof.
  intros H1 H2 H3 Hw Hh Hf Hn Hn'.
  pose proof (is_nan_sub _ _ Hn) as [Hs _]. pose proof (is_nan_sub _ _ Hn') as [Hs' _].
  pose proof (is_nan_add _ _ Hs) as [Ht _]. pose proof (is_nan_add _ _ Hs') as [Ht' _].
  pose proof (is_nan_add _ _ Ht) as [H0 _].
  apply float_sub_mono; [|exact (float_mul_mono _ _ _ _ _ H3 Hf)|exact Hn|exact Hn'].
  apply float_add_mono; [|exact (float_mul_mono _ _ _ _ _ H2 Hh)|exact Hs|exact Hs'].
  apply float_add_mono; [|exact (float_mul_mono _ _ _ _ _ H1 Hw)|exact Ht|exact Ht'].
  apply float_leb_refl. exact H0.
Qed.

Lemma calculate_bmr_mono (gender : string) (w w' h h' : float) (a a' : Z) (b b' : float) :
  (w <=? w')%float = true → (h <=? h')%float = true → a' ≤ a →
  calculate_bmr w h a gender = Ok b → calculate_bmr w' h' a' gender = Ok b' →
  is_nan b = false → is_nan b' = false →
  (b <=? b')%float = true.
Proof.
  intros Hw Hh Ha Hb Hb' Hn Hn'. unfold calculate_bmr in Hb, Hb'.
  cbn [of_int fadd fsub fmul lit binary64] in Hb, Hb'.
  destruct (float_of_int a) as [f|] eqn:Hf;
    [|destruct (String.eqb _ _); discriminate].
  destruct (float_of_int a') as [f'|] eqn:Hf';
    [|destruct (String.eqb _ _); discriminate].
  pose proof (float_of_int_mono a' a f' f Ha Hf' Hf) as Hff.
  destruct (String.eqb (lower gender) "masculino"); cbn [mbind result_bind] in Hb, Hb';
    injection Hb as <-; injection Hb' as <-.
  - apply (harris_benedict_mono (float_of_Q 88.362) (float_of_Q 13.397) (float_of_Q 4.799)
             (float_of_Q 5.677) 7541840525985317 5403193652937753 6391733771145576
             (-49) (-50) (-50));
      first [assumption|vm_compute; reflexivity].
  - apply (harris_benedict_mono (float_of_Q 447.593) (float_of_Q 9.247) (float_of_Q 3.098)
             (float_of_Q 4.330) 5205598219286872 6976075822796898 4875146596628562
             (-49) (-51) (-50));
      first [assumption|vm_compute; reflexivity].
Qed.

(** A rate that is a number was computed from numbers. *)
Lemma calculate_bmr_notnan (gender : string) (w h : float) (a : Z) (b : float) :
  calculate_bmr w h a gender = Ok b → is_nan b = false →
  is_nan w = false ∧ is_nan h = false.
Proof.
  intros Hb Hn. unfold calculate_bmr in Hb. cbn [of_int fadd fsub fmul lit binary64] in Hb.
  destruct (float_of_int a) as [f|]; [|destruct (String.eqb _ _); discriminate].
  destruct (String.eqb (lower gender) "masculino"); cbn [mbind result_bind] in Hb;
    injection Hb as <-;
    pose proof (is_nan_sub _ _ Hn) as [Hs _];
    pose proof (is_nan_add _ _ Hs) as [Ht [_ Hh]%is_nan_mul];
    pose proof (is_nan_add _ _ Ht) as [_ [_ Hw]%is_nan_mul]; auto.
Qed.

End RoundingMonotone.

(** C8, as amended: on Python floats the basal metabolic rate is weakly
    increasing in weight, weakly increasing in height and weakly decreasing
    in age, in the "masculino" branch and in the default branch alike,
    wherever the two rates compared are numbers.  (It is not strictly so:
    rounding can give two weights the same rate; and a rate is no number
    when a weight and an age both overflow.) *)
Theorem bmr_weakly_monotone (gender : string) (w h : float) (a : Z) (b : float) :
  calculate_bmr w h a gender = Ok b → is_nan b = false →
  (∀ w' b', (w <=? w')%float = true → calculate_bmr w' h a gender = Ok b' →
            is_nan b' = false → (b <=? b')%float = true) ∧
  (∀ h' b', (h <=? h')%float = true → calculate_bmr w h' a gender = Ok b' →
            is_nan b' = false → (b <=? b')%float = true) ∧
  (∀ a' b', (a ≤ a')%Z → calculate_bmr w h a' gender = Ok b' →
            is_nan b' = false → (b' <=? b)%float = true).
Proof.
  intros Hb Hn. destruct (calculate_bmr_notnan _ _ _ _ _ Hb Hn) as [Hw Hh].
  pose proof (float_leb_refl w Hw) as Hww. pose proof (float_leb_refl h Hh) as Hhh.
  split; [|split].
  - intros w' b' Hle Hb' Hn'.
    exact (calculate_bmr_mono gender w w' h h a a b b' Hle Hhh (Z.le_refl a) Hb Hb' Hn Hn').
  - intros h' b' Hle Hb' Hn'.
    exact (calculate_bmr_mono gender w w h h' a a b b' Hww Hle (Z.le_refl a) Hb Hb' Hn Hn').
  - intros a' b' Hle Hb' Hn'.
    exact (calculate_bmr_mono gender w w h h a' a b' b Hww Hhh Hle Hb' Hb Hn' Hn).
Qed.

Lemma bmr_weakly_monotone_witness :
  (∀ w' b', (60 <=? w')%float = true → calculate_bmr w' 170%float 30 "masculino" = Ok b' →
            is_nan b' = false → (1537.7020000000002 <=? b')%float = true) ∧
  (∀ h' b', (170 <=? h')%float = true → calculate_bmr 60%float h' 30 "masculino" = Ok b' →
            is_nan b' = false → (1537.7020000000002 <=? b')%float = true) ∧
  (∀ a' b', (30 ≤ a')%Z → calculate_bmr 60%float 170%float a' "masculino" = Ok b' →
            is_nan b' = false → (b' <=? 1537.7020000000002)%float = true).
Proof.
  exact (bmr_weakly_monotone "masculino" 60%float 170%float 30 1537.7020000000002%float
           eq_refl eq_refl).
Defined.

(** The rates at 70 kg and at 180 cm are above the rate at 60 kg and
    170 cm, the rate at 31 years is below the rate at 30 years. *)
Example bmr_examples :
  calculate_bmr 60%float 170%float 30 "masculino" = Ok 1537.7020000000002%float ∧
  calculate_bmr 70%float 170%float 30 "masculino" = Ok 1671.672%float ∧
  calculate_bmr 60%float 180%float 30 "masculino" = Ok 1585.692%float ∧
  calculate_bmr 60%float 170%float 31 "masculino" = Ok 1532.0250000000001%float.
Proof. vm_compute. repeat split. Qed.

(** C8 as stated fails on binary64: 60 kg and the next float above it
    (60.00000000000001, its successor), at 170 cm and 30 years, give the same rate, in
    either branch; so do 170 cm and the next float above it at 60 kg.  And
    where a weight and an age both overflow the rate is no number at all:
    at 1e308 kg and at 1.5e308 kg, for an age of 10^308, it is NaN, which
    compares with nothing. *)
Lemma bmr_binary64_not_strict :
  ((0 <? 60)%float = true ∧ (60 <? 60.00000000000001)%float = true ∧
   calculate_bmr 60%float 170%float 30 "masculino" = Ok 1537.7020000000002%float ∧
   calculate_bmr 60.00000000000001%float 170%float 30 "masculino" = Ok 1537.7020000000002%float ∧
   calculate_bmr 60%float 170%float 30 "feminino" = Ok 1399.1729999999998%float ∧
   calculate_bmr 60.00000000000001%float 170%float 30 "feminino" = Ok 1399.1729999999998%float ∧
   (0 <? 170)%float = true ∧ (170 <? 170.00000000000003)%float = true ∧
   calculate_bmr 60%float 170.00000000000003%float 30 "masculino" = Ok 1537.7020000000002%float ∧
   (1537.7020000000002 <? 1537.7020000000002)%float = false ∧
   (1399.1729999999998 <? 1399.1729999999998)%float = false) ∧
  ((0 <? 1e308)%float = true ∧ (1e308 <? 1.5e308)%float = true ∧ (0 < 10 ^ 308)%Z ∧
   calculate_bmr 1e308%float 170%float (10 ^ 308) "masculino" = Ok nan ∧
   calculate_bmr 1.5e308%float 170%float (10 ^ 308) "masculino" = Ok nan ∧
   (nan <? nan)%float = false ∧ (nan <=? nan)%float = false).
Proof. vm_compute. repeat split. Qed.

(** ** The store *)

Lemma find_one_update_one {D} (p : D → bool) (set : D → D) (c : list D) (d : D) :
  find_one p c = Some d → p (set d) = true →
  find_one p (update_one p set c) = Some (set d).
Proof.
  unfold find_one. induction c as [|x c IH]; simpl; [discriminate|].
  destruct (p x) eqn:Hx; intros Hfind Hset.
  - injection Hfind as ->. simpl. rewrite Hset. reflexivity.
  - simpl. rewrite Hx. apply IH; assumption.
Qed.

Lemma find_one_upsert_one {D} (p : D → bool) (doc : D) (c : list D) :
  p doc = true → find_one p (upsert_one p doc c) = Some doc.
Proof.
  unfold find_one. intros Hdoc. induction c as [|x c IH]; simpl.
  - rewrite Hdoc. reflexivity.
  - destruct (p x) eqn:Hx; simpl; [rewrite Hdoc; reflexivity|].
    rewrite Hx. exact IH.
Qed.

Lemma update_one_others {D} (p : D → bool) (set : D → D) (c : list D) (d : D) :
  d ∈ c → p d = false → d ∈ update_one p set c.
Proof.
  induction c as [|x c IH]; simpl; [intros H; inversion H|].
  intros Hin Hd. destruct (p x) eqn:Hx.
  - apply elem_of_cons in Hin as [->|Hin]; [congruence|]. apply elem_of_cons; auto.
  - apply elem_of_cons in Hin as [->|Hin]; apply elem_of_cons; auto.
Qed.

(** ** Portion adjustment *)

(** C2: for a stored meal with a nonzero [portion_size], the adjustment
    returns and persists the new [portion_size] and the four nutrients, each
    multiplied by the one ratio [new_portion_size / portion_size] and
    rounded to one decimal place; the other fields of the meal, the other
    meals and the profiles stay as they were. *)
Theorem adjust_portion_scales (s : db) (adjustment : PortionAdjustment.t) (meal : Meal.t) :
  let has_id := λ m, String.eqb (Meal.meal_id m) (PortionAdjustment.meal_id adjustment) in
  find_one has_id (meals_collection s) = Some meal →
  (Meal.portion_size meal =? 0)%float = false →
  let new := PortionAdjustment.new_portion_size adjustment in
  let ratio := (new / Meal.portion_size meal)%float in
  let values :=
    UpdatedValues.mk new
      (py_round (Meal.calories meal * ratio) 1) (py_round (Meal.protein meal * ratio) 1)
      (py_round (Meal.carbs meal * ratio) 1) (py_round (Meal.fats meal * ratio) 1) in
  ∃ s', adjust_portion adjustment s = (Ok values, s') ∧
    users_collection s' = users_collection s ∧
    meals_collection s' = update_one has_id (set_values values) (meals_collection s) ∧
    find_one has_id (meals_collection s') =
      Some (Meal.mk (Meal.meal_id meal) (Meal.user_id meal) (Meal.date meal) (Meal.time meal)
              (Meal.food_name meal) new
              (py_round (Meal.calories meal * ratio) 1) (py_round (Meal.protein meal * ratio) 1)
              (py_round (Meal.carbs meal * ratio) 1) (py_round (Meal.fats meal * ratio) 1)
              (Meal.image_base64 meal) (Meal.created_at meal)) ∧
    (∀ other, other ∈ meals_collection s → has_id other = false →
              other ∈ meals_collection s').
Proof.
  intros has_id Hfind Hnz new ratio values.
  eexists. split.
  - unfold adjust_portion, handler_try_reraise_http. fold has_id. rewrite Hfind.
    unfold hbind, lift, float_truediv. rewrite Hnz. simpl. reflexivity.
  - simpl. split; [reflexivity|]. split; [reflexivity|]. split.
    + apply (find_one_update_one has_id (set_values values) _ meal Hfind).
      apply find_some in Hfind as [_ Hid]. exact Hid.
    + intros other Hin Hother. apply update_one_others; assumption.
Qed.

(** The instance of the specification: calories 200 at portion 100,
    adjusted to 150, become 300.0. *)
Lemma adjust_portion_scales_witness :
  ∃ s', adjust_portion (PortionAdjustment.mk "m1" 150) (mk_db [] [example_meal])
        = (Ok (UpdatedValues.mk 150 300 15 60 7.5), s') ∧
    users_collection s' = [] ∧
    meals_collection s' =
      [Meal.mk "m1" "u1" "2024-01-01" "12:30" "arroz" 150 300 15 60 7.5 None 1700000000%Z] ∧
    find_one (λ m, String.eqb (Meal.meal_id m) "m1") (meals_collection s') =
      Some (Meal.mk "m1" "u1" "2024-01-01" "12:30" "arroz" 150 300 15 60 7.5 None 1700000000%Z) ∧
    (∀ other, other ∈ [example_meal] → String.eqb (Meal.meal_id other) "m1" = false →
              other ∈ meals_collection s').
Proof.
  exact (adjust_portion_scales (mk_db [] [example_meal]) (PortionAdjustment.mk "m1" 150)
           example_meal eq_refl eq_refl).
Defined.

(** C5, as amended: when the stored [portion_size] is zero the division
    raises, the catch-all clause turns that into the generic
    [HTTPException] with status 500 (an UpstreamFailure, not a
    ValidationFailure), nothing escapes the handler, and the store is left
    unchanged. *)
Theorem adjust_portion_zero_portion (s : db) (adjustment : PortionAdjustment.t) (meal : Meal.t) :
  find_one (λ m, String.eqb (Meal.meal_id m) (PortionAdjustment.meal_id adjustment))
    (meals_collection s) = Some meal →
  (Meal.portion_size meal =? 0)%float = true →
  adjust_portion adjustment s = (Raise (HTTPException 500 (StrOf "" ZeroDivisionError)), s) ∧
  error_kind_of (HTTPException 500 (StrOf "" ZeroDivisionError)) = UpstreamFailure.
Proof.
  intros Hfind Hz. split; [|reflexivity].
  unfold adjust_portion, handler_try_reraise_http. rewrite Hfind.
  unfold hbind, lift, float_truediv. rewrite Hz. reflexivity.
Qed.

Lemma adjust_portion_zero_portion_witness :
  let stored := Meal.mk "m1" "u1" "2024-01-01" "12:30" "arroz" 0 200 10 40 5 None 0%Z in
  adjust_portion (PortionAdjustment.mk "m1" 150) (mk_db [] [stored])
    = (Raise (HTTPException 500 (StrOf "" ZeroDivisionError)), mk_db [] [stored]) ∧
  error_kind_of (HTTPException 500 (StrOf "" ZeroDivisionError)) = UpstreamFailure.
Proof.
  exact (adjust_portion_zero_portion
           (mk_db [] [Meal.mk "m1" "u1" "2024-01-01" "12:30" "arroz" 0 200 10 40 5 None 0%Z])
           (PortionAdjustment.mk "m1" 150)
           (Meal.mk "m1" "u1" "2024-01-01" "12:30" "arroz" 0 200 10 40 5 None 0%Z)
           eq_refl eq_refl).
Defined.

(** C5 as stated fails: for a stored meal of portion 0 the handler raises
    an error of status 500, which is not a ValidationFailure. *)
Lemma adjust_portion_zero_not_validation :
  ∃ e, fst (adjust_portion (PortionAdjustment.mk "m1" 150)
              (mk_db [] [Meal.mk "m1" "u1" "2024-01-01" "12:30" "arroz" 0 200 10 40 5 None 0%Z]))
       = Raise e ∧
       e = HTTPException 500 (StrOf "" ZeroDivisionError) ∧
       error_kind_of e ≠ ValidationFailure.
Proof. eexists. split; [vm_compute; reflexivity|]. split; [reflexivity|]. discriminate. Qed.

(** ** Profile writes *)

Lemma float_of_int_outcomes (z : Z) :
  (∃ f, float_of_int z = Ok f) ∨ float_of_int z = Raise OverflowError.
Proof.
  unfold float_of_int. destruct (binary_normalize prec emax z 0 false); eauto.
Qed.

Lemma calculate_bmr_outcomes (weight height : float) (age : Z) (gender : string) :
  (∃ bmr, calculate_bmr weight height age gender = Ok bmr) ∨
  (calculate_bmr weight height age gender = Raise OverflowError ∧
   float_of_int age = Raise OverflowError).
Proof.
  unfold calculate_bmr. cbn [of_int binary64].
  destruct (float_of_int_outcomes age) as [[f Hf]|Hf]; rewrite Hf;
    destruct (String.eqb _ _); cbn; eauto.
Qed.

Lemma bson_int_outcomes (z : Z) :
  (bson_int z = Ok () ∧ (- 2 ^ 63 ≤ z < 2 ^ 63)%Z) ∨
  (bson_int z = Raise OverflowError ∧ ¬ (- 2 ^ 63 ≤ z < 2 ^ 63)%Z).
Proof.
  unfold bson_int.
  destruct (Z.leb_spec (- 2 ^ 63) z); destruct (Z.ltb_spec z (2 ^ 63)); cbn;
    [left|right|right|right]; split; try reflexivity; lia.
Qed.

Lemma create_or_update_profile_raises (profile : UserProfile.t) (now : datetime) (s : db)
  (e : exn) :
  calculate_bmr (UserProfile.weight profile) (UserProfile.height profile)
    (UserProfile.age profile) (UserProfile.gender profile) = Raise e →
  create_or_update_profile profile now s = (Raise (HTTPException 500 (StrOf "" e)), s).
Proof.
  intros Hbmr. unfold create_or_update_profile, handler_try, hbind, lift.
  rewrite Hbmr. reflexivity.
Qed.

Lemma create_or_update_profile_unencodable (profile : UserProfile.t) (now : datetime)
  (s : db) (bmr : float) (e : exn) :
  calculate_bmr (UserProfile.weight profile) (UserProfile.height profile)
    (UserProfile.age profile) (UserProfile.gender profile) = Ok bmr →
  bson_int (UserProfile.age profile) = Raise e →
  create_or_update_profile profile now s = (Raise (HTTPException 500 (StrOf "" e)), s).
Proof.
  intros Hbmr Hage. unfold create_or_update_profile, handler_try, hbind, lift.
  rewrite Hbmr, Hage. reflexivity.
Qed.

Lemma create_or_update_profile_ok (profile : UserProfile.t) (now : datetime) (s : db)
  (bmr : float) :
  calculate_bmr (UserProfile.weight profile) (UserProfile.height profile)
    (UserProfile.age profile) (UserProfile.gender profile) = Ok bmr →
  bson_int (UserProfile.age profile) = Ok () →
  let tdee := calculate_tdee bmr (UserProfile.activity_level profile) in
  let goal :=
    py_round (calculate_daily_calorie_goal tdee (UserProfile.weight profile)
                (UserProfile.goal_weight profile)) 0 in
  create_or_update_profile profile now s =
    (Ok (ProfileSaved.mk "Perfil salvo com sucesso" goal (py_round bmr 0) (py_round tdee 0)),
     mk_db
       (upsert_one (λ d, String.eqb (UserProfile.user_id d) (UserProfile.user_id profile))
          (with_supplied profile (Some goal) (Some now)) (users_collection s))
       (meals_collection s)).
Proof.
  intros Hbmr Hage tdee goal.
  unfold create_or_update_profile, handler_try, hbind, lift. rewrite Hbmr, Hage. reflexivity.
Qed.

(** A write that succeeded computed a rate and encoded the age. *)
Lemma create_or_update_profile_succeeded (profile : UserProfile.t) (now : datetime) (s : db)
  (saved : ProfileSaved.t) (s' : db) :
  create_or_update_profile profile now s = (Ok saved, s') →
  ∃ bmr,
    calculate_bmr (UserProfile.weight profile) (UserProfile.height profile)
      (UserProfile.age profile) (UserProfile.gender profile) = Ok bmr ∧
    bson_int (UserProfile.age profile) = Ok ().
Proof.
  intros Hrun.
  destruct (calculate_bmr_outcomes (UserProfile.weight profile) (UserProfile.height profile)
              (UserProfile.age profile) (UserProfile.gender profile)) as [[bmr Hbmr]|[Hbmr _]].
  - exists bmr. split; [exact Hbmr|].
    destruct (bson_int_outcomes (UserProfile.age profile)) as [[Hage _]|[Hage _]];
      [exact Hage|].
    rewrite (create_or_update_profile_unencodable _ _ _ _ _ Hbmr Hage) in Hrun. discriminate.
  - rewrite (create_or_update_profile_raises _ _ _ _ Hbmr) in Hrun. discriminate.
Qed.

(** C6, as amended: on every profile write that succeeds, the stored (and
    returned) [daily_calorie_goal] is the goal recomputed from the submitted
    weight, height, age, gender, activity level and goal weight, rounded to
    zero decimal places; the [daily_calorie_goal] of the request body has
    no influence on the outcome. *)
Theorem profile_goal_recomputed (profile : UserProfile.t) (now : datetime) (s : db)
  (saved : ProfileSaved.t) (s' : db) :
  create_or_update_profile profile now s = (Ok saved, s') →
  let has_id := λ d, String.eqb (UserProfile.user_id d) (UserProfile.user_id profile) in
  ∃ bmr,
    calculate_bmr (UserProfile.weight profile) (UserProfile.height profile)
      (UserProfile.age profile) (UserProfile.gender profile) = Ok bmr ∧
    let goal :=
      py_round
        (calculate_daily_calorie_goal
           (calculate_tdee bmr (UserProfile.activity_level profile))
           (UserProfile.weight profile) (UserProfile.goal_weight profile)) 0 in
    ProfileSaved.daily_calorie_goal saved = goal ∧
    find_one has_id (users_collection s') = Some (with_supplied profile (Some goal) (Some now)) ∧
    meals_collection s' = meals_collection s ∧
    (∀ supplied created,
       create_or_update_profile (with_supplied profile supplied created) now s
       = (Ok saved, s')).
Proof.
  intros Hrun has_id.
  destruct (create_or_update_profile_succeeded _ _ _ _ _ Hrun) as (bmr & Hbmr & Hage).
  exists bmr. split; [exact Hbmr|]. cbn zeta.
  rewrite (create_or_update_profile_ok _ _ _ _ Hbmr Hage) in Hrun.
  injection Hrun as <- <-. cbn [ProfileSaved.daily_calorie_goal users_collection
                                  meals_collection].
  split; [reflexivity|]. split.
  - apply find_one_upsert_one. cbn. apply String.eqb_refl.
  - split; [reflexivity|]. intros supplied created.
    exact (create_or_update_profile_ok (with_supplied profile supplied created) now s bmr
             Hbmr Hage).
Qed.

Lemma profile_goal_recomputed_witness :
  ∃ saved s',
    create_or_update_profile example_profile 1700000000%Z (mk_db [] []) = (Ok saved, s') ∧
    ProfileSaved.daily_calorie_goal saved = 1535%float ∧
    find_one (λ d, String.eqb (UserProfile.user_id d) "u1") (users_collection s')
      = Some (UserProfile.mk "u1" "Ana" 30 "masculino" 175 70 "sedentario" 65
                (Some 1535%float) (Some 1700000000%Z)) ∧
    meals_collection s' = [] ∧
    (∀ supplied created,
       create_or_update_profile (with_supplied example_profile supplied created)
         1700000000%Z (mk_db [] [])
       = (Ok saved, s')).
Proof.
  eexists. eexists. split; [vm_compute; reflexivity|].
  destruct (profile_goal_recomputed example_profile 1700000000%Z (mk_db [] []) _ _ eq_refl)
    as (bmr & Hbmr & Hgoal & Hfind & Hmeals & Hany).
  injection Hbmr as <-.
  split; [exact Hgoal|]. split; [exact Hfind|]. split; [exact Hmeals|exact Hany].
Defined.

(** C6 as stated fails: for 70 kg, 175 cm, 30 years, "masculino",
    "sedentario" and a goal of 65 kg the pipeline yields 1534.8004000000001,
    and what is stored is 1535.0. *)
Lemma profile_goal_not_the_raw_pipeline_value :
  ∃ saved s',
    calculate_bmr 70%float 175%float 30 "masculino" = Ok 1695.6670000000001%float ∧
    calculate_daily_calorie_goal (calculate_tdee 1695.6670000000001%float "sedentario")
      70%float 65%float = 1534.8004000000001%float ∧
    create_or_update_profile example_profile 1700000000%Z (mk_db [] []) = (Ok saved, s') ∧
    (UserProfile.daily_calorie_goal <$> users_collection s') = [Some 1535%float] ∧
    (1535 =? 1534.8004000000001)%float = false.
Proof. eexists. eexists. vm_compute. repeat split. Qed.

(** ** Meal history: grouping *)

Lemma group_by_date_snoc (meals : list Meal.t) (meal : Meal.t) :
  group_by_date (meals ++ [meal]) = group_meal meal (group_by_date meals).
Proof. unfold group_by_date. rewrite fold_left_app. reflexivity. Qed.

Lemma group_meal_keys (meal : Meal.t) (h : list (string * DayHistory.t)) :
  (group_meal meal h).*1 =
    if decide (Meal.date meal ∈ h.*1) then h.*1 else h.*1 ++ [Meal.date meal].
Proof.
  induction h as [|[d day] h IH].
  - destruct (decide (Meal.date meal ∈ [].*1)) as [Hin|_]; [inversion Hin|reflexivity].
  - cbn [group_meal]. destruct (String.eqb_spec (Meal.date meal) d) as [Heq|Hne].
    + destruct (decide (Meal.date meal ∈ ((d, day) :: h).*1)) as [_|Hnin]; [reflexivity|].
      exfalso. apply Hnin. rewrite fmap_cons. apply elem_of_cons. auto.
    + rewrite !fmap_cons, IH. cbn [fst].
      destruct (decide (Meal.date meal ∈ h.*1)) as [Hin|Hnin];
        destruct (decide (Meal.date meal ∈ d :: h.*1)) as [Hin'|Hnin']; try reflexivity.
      * exfalso. apply Hnin'. apply elem_of_cons. auto.
      * exfalso. apply elem_of_cons in Hin' as [?|?]; congruence.
Qed.

Lemma group_by_date_NoDup (meals : list Meal.t) : NoDup (group_by_date meals).*1.
Proof.
  induction meals as [|meal meals IH] using rev_ind.
  - constructor.
  - rewrite group_by_date_snoc, group_meal_keys.
    destruct (decide (Meal.date meal ∈ (group_by_date meals).*1)) as [Hin|Hnin];
      [assumption|].
    apply NoDup_app. split; [assumption|]. split.
    + intros x Hx Hx'. apply list_elem_of_singleton in Hx'. subst. contradiction.
    + apply NoDup_singleton.
Qed.

Lemma lookup_day_group_meal (meal : Meal.t) (h : list (string * DayHistory.t)) (d : string) :
  lookup_day d (group_meal meal h) =
    if String.eqb d (Meal.date meal)
    then Some (add_meal (default (new_day (Meal.date meal)) (lookup_day (Meal.date meal) h)) meal)
    else lookup_day d h.
Proof.
  induction h as [|[d' day] h IH]; cbn [group_meal lookup_day].
  - destruct (String.eqb d (Meal.date meal)); reflexivity.
  - destruct (String.eqb_spec (Meal.date meal) d') as [Hm|Hm]; cbn [lookup_day].
    + destruct (String.eqb_spec d d') as [Hd|Hd].
      * rewrite <- Hm in Hd. subst d. rewrite String.eqb_refl. reflexivity.
      * destruct (String.eqb_spec d (Meal.date meal)); [congruence|reflexivity].
    + destruct (String.eqb_spec d d') as [Hd|Hd].
      * destruct (String.eqb_spec d (Meal.date meal)); [congruence|reflexivity].
      * exact IH.
Qed.

Lemma elem_of_lookup_day (h : list (string * DayHistory.t)) (d : string) (day : DayHistory.t) :
  NoDup h.*1 → (d, day) ∈ h ↔ lookup_day d h = Some day.
Proof.
  induction h as [|[d' day'] h IH]; cbn [lookup_day].
  - intros _. split; [intros Hin; inversion Hin|discriminate].
  - rewrite fmap_cons. intros [Hd' Hnd]%NoDup_cons. rewrite elem_of_cons.
    destruct (String.eqb_spec d d') as [->|Hne].
    + split.
      * intros [Heq|Hin]; [congruence|].
        exfalso. apply Hd'. apply list_elem_of_fmap. exists (d', day). auto.
      * intros [= ->]. auto.
    + rewrite <- (IH Hnd). split; [intros [?|?]; [congruence|assumption]|auto].
Qed.

Lemma float_sum_snoc (l : list float) (x : float) :
  float_sum (l ++ [x]) = (float_sum l + x)%float.
Proof. unfold float_sum. rewrite fold_left_app. reflexivity. Qed.

Lemma day_group_snoc_same (retrieved : list Meal.t) (meal : Meal.t) :
  day_group (Meal.date meal) (retrieved ++ [meal])
  = add_meal (day_group (Meal.date meal) retrieved) meal.
Proof.
  unfold day_group, add_meal. cbn [DayHistory.date DayHistory.meals
    DayHistory.total_calories DayHistory.total_protein DayHistory.total_carbs
    DayHistory.total_fats].
  rewrite filter_app, filter_cons_True, filter_nil by reflexivity.
  rewrite !fmap_app. cbn [fmap list_fmap]. rewrite !float_sum_snoc. reflexivity.
Qed.

Lemma day_group_snoc_other (retrieved : list Meal.t) (meal : Meal.t) (d : string) :
  d ≠ Meal.date meal → day_group d (retrieved ++ [meal]) = day_group d retrieved.
Proof.
  intros Hne. unfold day_group.
  rewrite filter_app, filter_cons_False, filter_nil, app_nil_r by congruence.
  reflexivity.
Qed.

Lemma lookup_day_group_by_date (retrieved : list Meal.t) (d : string) :
  lookup_day d (group_by_date retrieved) =
    match filter (λ m, Meal.date m = d) retrieved with
    | [] => None
    | _ :: _ => Some (day_group d retrieved)
    end.
Proof.
  induction retrieved as [|meal retrieved IH] using rev_ind; [reflexivity|].
  rewrite group_by_date_snoc, lookup_day_group_meal.
  destruct (String.eqb_spec d (Meal.date meal)) as [->|Hne].
  - rewrite day_group_snoc_same, IH.
    rewrite filter_app, filter_cons_True, filter_nil by reflexivity.
    destruct (filter (λ m, Meal.date m = Meal.date meal) retrieved) eqn:Hf.
    + cbn [default app]. unfold day_group. rewrite Hf. reflexivity.
    + reflexivity.
  - rewrite IH, day_group_snoc_other by assumption.
    rewrite filter_app, filter_cons_False, filter_nil, app_nil_r by congruence.
    reflexivity.
Qed.

Lemma elem_of_group_by_date (retrieved : list Meal.t) (day : DayHistory.t) :
  day ∈ (group_by_date retrieved).*2 ↔
  day = day_group (DayHistory.date day) retrieved ∧ DayHistory.meals day ≠ [].
Proof.
  rewrite list_elem_of_fmap. split.
  - intros [[d day'] [-> Hin]]. cbn [snd].
    apply elem_of_lookup_day in Hin; [|apply group_by_date_NoDup].
    rewrite lookup_day_group_by_date in Hin.
    destruct (filter (λ m, Meal.date m = d) retrieved) eqn:Hf; [discriminate|].
    injection Hin as <-. split; [reflexivity|].
    unfold day_group. cbn [DayHistory.meals]. rewrite Hf. discriminate.
  - intros [Hday Hne]. exists (DayHistory.date day, day). split; [reflexivity|].
    apply elem_of_lookup_day; [apply group_by_date_NoDup|].
    rewrite lookup_day_group_by_date.
    rewrite Hday in Hne. unfold day_group in Hne. cbn [DayHistory.meals] in Hne.
    destruct (filter (λ m, Meal.date m = DayHistory.date day) retrieved); [contradiction|].
    congruence.
Qed.

(** C9: the history groups the retrieved meals by the literal date string.
    The groups have pairwise different date strings; a group is exactly
    [day_group d retrieved] for a date string [d] that occurs, that is, its
    members are the retrieved meals carrying that very string and its totals
    are the sums over these members; and two meals whose date strings
    differ (such as "2024-01-01" and "2024-01-1") sit in two distinct
    groups, neither in the group of the other. *)
Theorem history_groups_by_literal_date (sort : list Meal.t → list Meal.t)
  (user_id : string) (days : Z) (s : db) (retrieved : list Meal.t) :
  recent_meals sort user_id days s = Ok retrieved →
  ∃ history,
    get_meal_history sort user_id days s = (Ok history, s) ∧
    NoDup (DayHistory.date <$> history) ∧
    (∀ day, day ∈ history ↔
       day = day_group (DayHistory.date day) retrieved ∧ DayHistory.meals day ≠ []) ∧
    (∀ m1 m2, m1 ∈ retrieved → m2 ∈ retrieved → Meal.date m1 ≠ Meal.date m2 →
       ∃ day1 day2, day1 ∈ history ∧ day2 ∈ history ∧ day1 ≠ day2 ∧
         DayHistory.date day1 = Meal.date m1 ∧ DayHistory.date day2 = Meal.date m2 ∧
         m1 ∈ DayHistory.meals day1 ∧ m2 ∈ DayHistory.meals day2 ∧
         (m1 ∉ DayHistory.meals day2) ∧ (m2 ∉ DayHistory.meals day1)).
Proof.
  intros Hq. exists (group_by_date retrieved).*2. split.
  { unfold get_meal_history, handler_try. rewrite Hq. reflexivity. }
  split.
  { replace (DayHistory.date <$> (group_by_date retrieved).*2)
      with (group_by_date retrieved).*1; [apply group_by_date_NoDup|].
    rewrite <- list_fmap_compose. apply list_fmap_ext.
    intros i [d day] Hin%list_elem_of_lookup_2. cbn.
    apply elem_of_lookup_day in Hin; [|apply group_by_date_NoDup].
    rewrite lookup_day_group_by_date in Hin.
    destruct (filter (λ m, Meal.date m = d) retrieved); [discriminate|].
    injection Hin as <-. reflexivity. }
  split; [apply elem_of_group_by_date|].
  intros m1 m2 H1 H2 Hne.
  assert (Hmem : ∀ m, m ∈ retrieved →
            day_group (Meal.date m) retrieved ∈ (group_by_date retrieved).*2 ∧
            m ∈ DayHistory.meals (day_group (Meal.date m) retrieved)).
  { intros m Hm.
    assert (m ∈ DayHistory.meals (day_group (Meal.date m) retrieved)) as Hin.
    { unfold day_group. cbn [DayHistory.meals]. apply list_elem_of_filter. auto. }
    split; [|exact Hin]. apply elem_of_group_by_date. split; [reflexivity|].
    intros Hnil. rewrite Hnil in Hin. inversion Hin. }
  destruct (Hmem m1 H1) as [Hd1 Hm1]. destruct (Hmem m2 H2) as [Hd2 Hm2].
  exists (day_group (Meal.date m1) retrieved), (day_group (Meal.date m2) retrieved).
  repeat split; try assumption.
  - intros Heq. apply Hne. apply (f_equal DayHistory.date) in Heq. exact Heq.
  - unfold day_group. cbn [DayHistory.meals]. rewrite list_elem_of_filter. tauto.
  - unfold day_group. cbn [DayHistory.meals]. rewrite list_elem_of_filter.
    intros [Heq _]. congruence.
Qed.

Lemma history_groups_by_literal_date_witness :
  ∃ history,
    get_meal_history merge_sort_date_desc "u1" 7 (mk_db [] [meal_padded; meal_unpadded])
      = (Ok history, mk_db [] [meal_padded; meal_unpadded]) ∧
    NoDup (DayHistory.date <$> history) ∧
    (∀ day, day ∈ history ↔
       day = day_group (DayHistory.date day) [meal_unpadded; meal_padded] ∧
       DayHistory.meals day ≠ []) ∧
    (∀ m1 m2, m1 ∈ [meal_unpadded; meal_padded] → m2 ∈ [meal_unpadded; meal_padded] →
       Meal.date m1 ≠ Meal.date m2 →
       ∃ day1 day2, day1 ∈ history ∧ day2 ∈ history ∧ day1 ≠ day2 ∧
         DayHistory.date day1 = Meal.date m1 ∧ DayHistory.date day2 = Meal.date m2 ∧
         m1 ∈ DayHistory.meals day1 ∧ m2 ∈ DayHistory.meals day2 ∧
         (m1 ∉ DayHistory.meals day2) ∧ (m2 ∉ DayHistory.meals day1)).
Proof.
  exact (history_groups_by_literal_date merge_sort_date_desc "u1" 7
           (mk_db [] [meal_padded; meal_unpadded]) [meal_unpadded; meal_padded] eq_refl).
Defined.

(** The instance of the specification: "2024-01-01" and "2024-01-1" give two
    groups, each with the sums of its own meal. *)
Example history_two_spellings_two_groups :
  get_meal_history merge_sort_date_desc "u1" 7 (mk_db [] [meal_padded; meal_unpadded])
  = (Ok [DayHistory.mk "2024-01-1" [meal_unpadded] 130 2.5 28 0.5;
         DayHistory.mk "2024-01-01" [meal_padded] 140 4.5 26 1.5],
     mk_db [] [meal_padded; meal_unpadded]).
Proof. vm_compute. reflexivity. Qed.

(** ** Meal history: the query *)

Lemma string_leb_refl (a : string) : String.leb a a = true.
Proof. destruct (String.leb_total a a); assumption. Qed.

Lemma string_leb_trans (a b c : string) :
  String.leb a b = true → String.leb b c = true → String.leb a c = true.
Proof.
  unfold String.leb. revert b c.
  induction a as [|x a IH]; intros [|y b] [|z c]; simpl; try congruence.
  unfold Ascii.compare.
  destruct (N.compare_spec (N_of_ascii x) (N_of_ascii y)) as [Hxy|Hxy|Hxy];
    destruct (N.compare_spec (N_of_ascii y) (N_of_ascii z)) as [Hyz|Hyz|Hyz];
    destruct (N.compare_spec (N_of_ascii x) (N_of_ascii z)) as [Hxz|Hxz|Hxz];
    try congruence; try lia.
  apply IH.
Qed.

Lemma string_ltb_not_leb (a b : string) :
  String.ltb a b = true → String.leb b a = false.
Proof.
  unfold String.ltb, String.leb. rewrite (String.compare_antisym b a).
  destruct (String.compare a b); simpl; congruence.
Qed.

Lemma date_ge_trans : Transitive date_ge.
Proof.
  intros m1 m2 m3 H12 H23. unfold date_ge in *. eapply string_leb_trans; eassumption.
Qed.

Lemma date_ge_total : Total date_ge.
Proof.
  intros m1 m2. unfold date_ge.
  destruct (String.leb_total (Meal.date m2) (Meal.date m1)); auto.
Qed.

(** The merge sort is one of the orders the store may return. *)
Lemma merge_sort_date_desc_Permutation (c : list Meal.t) : merge_sort_date_desc c ≡ₚ c.
Proof. apply merge_sort_Permutation. Qed.

Lemma merge_sort_date_desc_StronglySorted (c : list Meal.t) :
  StronglySorted date_ge (merge_sort_date_desc c).
Proof.
  exact (@StronglySorted_merge_sort _ date_ge _ date_ge_trans date_ge_total c).
Qed.

Lemma length_filter_all {A} (P : A → Prop) `{∀ x, Decision (P x)} (l : list A) :
  (∀ x, x ∈ l → P x) → length (filter P l) = length l.
Proof.
  induction l as [|x l IH]; intros Hall; [reflexivity|].
  rewrite filter_cons_True by (apply Hall, elem_of_cons; auto). simpl.
  rewrite IH; [reflexivity|]. intros y Hy. apply Hall, elem_of_cons. auto.
Qed.

Lemma filter_none {A} (P : A → Prop) `{∀ x, Decision (P x)} (l : list A) :
  (∀ x, x ∈ l → ¬ P x) → filter P l = [].
Proof.
  induction l as [|x l IH]; intros Hall; [reflexivity|].
  rewrite filter_cons_False by (apply Hall, elem_of_cons; auto).
  apply IH. intros y Hy. apply Hall, elem_of_cons. auto.
Qed.

Section Retrieval.
Variable sort : list Meal.t → list Meal.t.
Hypothesis sort_Permutation : ∀ c, sort c ≡ₚ c.
Hypothesis sort_StronglySorted : ∀ c, StronglySorted date_ge (sort c).

(** A meal ranked within the first [k] by date is among the first [k] of
    the sorted meals. *)
Lemma ranked_within_taken (c : list Meal.t) (k : nat) (m : Meal.t) :
  m ∈ c → length (filter (λ m', date_ge m' m) c) ≤ k → m ∈ take k (sort c).
Proof using sort_Permutation sort_StronglySorted.
  intros Hin Hrank.
  assert (Hin' : m ∈ sort c) by (rewrite sort_Permutation; exact Hin).
  destruct (list_elem_of_split _ _ Hin') as (l1 & l2 & Hsplit).
  pose proof (sort_StronglySorted c) as Hsorted. rewrite Hsplit in Hsorted.
  assert (Hlen : length l1 < k).
  { rewrite <- (sort_Permutation c), Hsplit in Hrank.
    rewrite filter_app, length_app in Hrank.
    rewrite filter_cons_True in Hrank by apply string_leb_refl.
    rewrite length_filter_all in Hrank; [simpl in Hrank; lia|].
    intros x Hx. apply (StronglySorted_app_1_elem_of _ _ _ _ _ Hsorted Hx).
    apply elem_of_cons. auto. }
  apply elem_of_take. exists (length l1). split; [|exact Hlen].
  rewrite Hsplit. apply list_lookup_middle. reflexivity.
Qed.

(** A meal among the first [k] of the sorted meals has fewer than [k] meals
    of a strictly greater date. *)
Lemma taken_ranked_within (c : list Meal.t) (k : nat) (m : Meal.t) :
  m ∈ take k (sort c) → length (filter (λ m', date_gt m' m) c) < k.
Proof using sort_Permutation sort_StronglySorted.
  intros (i & Hi & Hlt)%elem_of_take.
  pose proof (sort_StronglySorted c) as Hsorted.
  rewrite <- (sort_Permutation c).
  rewrite <- (take_drop_middle _ _ _ Hi) in Hsorted |- *.
  rewrite filter_app, length_app.
  rewrite (filter_none _ (m :: drop (S i) (sort c))).
  - simpl. pose proof (length_filter (λ m', date_gt m' m) (take i (sort c))) as Hle.
    rewrite length_take in Hle. lia.
  - intros x Hx Hgt. unfold date_gt in Hgt. apply string_ltb_not_leb in Hgt.
    apply elem_of_cons in Hx as [->|Hx].
    + rewrite string_leb_refl in Hgt. discriminate.
    + apply StronglySorted_app_1_r in Hsorted.
      apply StronglySorted_cons in Hsorted as [Hall _].
      rewrite Forall_forall in Hall. specialize (Hall x Hx). unfold date_ge in Hall.
      congruence.
Qed.

Lemma recent_meals_positive (user_id : string) (days : Z) (s : db) :
  (1 ≤ days)%Z → (days * 10 < 2 ^ 63)%Z →
  recent_meals sort user_id days s =
    Ok (take (Z.to_nat (days * 10))
          (sort (filter (λ m, Meal.user_id m = user_id) (meals_collection s)))).
Proof using Type.
  intros Hpos Hfit. unfold recent_meals, cursor_limit.
  destruct (Z.eqb_spec (days * 10) 0) as [Hz|_]; [lia|].
  destruct (Z.leb_spec (2 ^ 63) (Z.abs (days * 10))) as [Hbig|_]; [lia|].
  rewrite Zabs2Nat.abs_nat_nonneg by lia. reflexivity.
Qed.

(** X25: for a day count [N >= 1] (with [N * 10] below 2^63, beyond which
    the query fails) the history query retrieves the first
    [N * 10] of the user's meals in descending order of the date string,
    hence at most [N * 10] records, all of that user; whether a meal is
    retrieved depends on its rank in that string order alone, never on a
    calendar: a meal of the user with at most [N * 10] of the user's meals
    at or above its date string is retrieved however old it is, and a meal
    with [N * 10] or more of the user's meals strictly above its date
    string is not retrieved however recent it is. *)
Theorem recent_meals_by_rank_only (user_id : string) (days : Z) (s : db) :
  (1 ≤ days)%Z → (days * 10 < 2 ^ 63)%Z →
  let mine := filter (λ m, Meal.user_id m = user_id) (meals_collection s) in
  let k := Z.to_nat (days * 10) in
  ∃ retrieved,
    recent_meals sort user_id days s = Ok retrieved ∧
    retrieved = take k (sort mine) ∧
    (Z.of_nat (length retrieved) ≤ days * 10)%Z ∧
    length retrieved = min k (length mine) ∧
    StronglySorted date_ge retrieved ∧
    (∀ m, m ∈ retrieved → m ∈ meals_collection s ∧ Meal.user_id m = user_id) ∧
    (∀ m, m ∈ mine → length (filter (λ m', date_ge m' m) mine) ≤ k → m ∈ retrieved) ∧
    (∀ m, k ≤ length (filter (λ m', date_gt m' m) mine) → m ∉ retrieved).
Proof using sort_Permutation sort_StronglySorted.
  intros Hpos Hfit mine k. eexists. split; [apply recent_meals_positive; assumption|].
  fold mine. fold k.
  assert (Hlen : length (take k (sort mine)) = min k (length mine)).
  { rewrite length_take, (Permutation_length (sort_Permutation mine)). reflexivity. }
  split; [reflexivity|]. split; [rewrite Hlen; lia|]. split; [exact Hlen|]. split.
  { pose proof (sort_StronglySorted mine) as Hs.
    rewrite <- (take_drop k (sort mine)) in Hs.
    exact (StronglySorted_app_1_l _ _ _ Hs). }
  split.
  { intros m Hm. apply elem_of_take in Hm as (i & Hi & _).
    apply list_elem_of_lookup_2 in Hi. rewrite sort_Permutation in Hi.
    apply list_elem_of_filter in Hi. tauto. }
  split.
  - intros m Hm Hrank. apply ranked_within_taken; assumption.
  - intros m Hrank Hin. apply taken_ranked_within in Hin. lia.
Qed.

End Retrieval.

(** With a day count of 0 the driver reads the limit 0 as no limit: all the
    meals of the user are retrieved. *)
Lemma recent_meals_zero_days (sort : list Meal.t → list Meal.t) (user_id : string) (s : db) :
  recent_meals sort user_id 0 s =
    Ok (sort (filter (λ m, Meal.user_id m = user_id) (meals_collection s))).
Proof. reflexivity. Qed.

(** C10: at the day count 0 the query asks for the limit 0, which the
    driver reads as no limit: for a user with 21 stored meals all 21 are
    retrieved, which is more than the 0 * 10 the claim allows. *)
Lemma recent_meals_zero_days_unbounded :
  ∃ retrieved,
    recent_meals merge_sort_date_desc "u1" 0 (mk_db [] crowded_meals) = Ok retrieved ∧
    length retrieved = 21 ∧
    ¬ (Z.of_nat (length retrieved) ≤ 0 * 10)%Z.
Proof.
  eexists. split; [apply recent_meals_zero_days|].
  assert (Hlen : length (merge_sort_date_desc
                          (filter (λ m, Meal.user_id m = "u1")
                             (meals_collection (mk_db [] crowded_meals)))) = 21).
  { rewrite (Permutation_length (merge_sort_date_desc_Permutation _)). reflexivity. }
  split; [exact Hlen|]. rewrite Hlen. lia.
Qed.

Lemma recent_meals_by_rank_only_witness :
  let mine := filter (λ m, Meal.user_id m = "u1") crowded_meals in
  ∃ retrieved,
    recent_meals merge_sort_date_desc "u1" 2 (mk_db [] crowded_meals) = Ok retrieved ∧
    retrieved = take 20 (merge_sort_date_desc mine) ∧
    (Z.of_nat (length retrieved) ≤ 2 * 10)%Z ∧
    length retrieved = min 20 (length mine) ∧
    StronglySorted date_ge retrieved ∧
    (∀ m, m ∈ retrieved → m ∈ crowded_meals ∧ Meal.user_id m = "u1") ∧
    (∀ m, m ∈ mine → length (filter (λ m', date_ge m' m) mine) ≤ 20 → m ∈ retrieved) ∧
    (∀ m, 20 ≤ length (filter (λ m', date_gt m' m) mine) → m ∉ retrieved).
Proof.
  exact (recent_meals_by_rank_only merge_sort_date_desc
           merge_sort_date_desc_Permutation merge_sort_date_desc_StronglySorted
           "u1" 2 (mk_db [] crowded_meals) ltac:(lia) ltac:(lia)).
Defined.

(** No calendar is consulted: with a day count of 2, the meal of the day
    before is cut off by twenty meals of the day, and with a day count of 1
    a meal of 1999 is retrieved. *)
Example recent_meal_absent_old_meal_present :
  recent_meals merge_sort_date_desc "u1" 2 (mk_db [] crowded_meals)
    = Ok (replicate 20 meal_today) ∧
  (meal_yesterday ∉ replicate 20 meal_today) ∧
  recent_meals merge_sort_date_desc "u1" 1 (mk_db [] [meal_long_ago]) = Ok [meal_long_ago].
Proof.
  split; [vm_compute; reflexivity|]. split; [|vm_compute; reflexivity].
  intros [Heq _]%elem_of_replicate. discriminate.
Qed.

(** ** Fence removal *)

Lemma append_cons (c : ascii) (p r : string) : String c p +:+ r = String c (p +:+ r).
Proof. reflexivity. Qed.

Lemma startswith_iff (s p : string) :
  startswith s p = true ↔ ∃ r, s = p +:+ r.
Proof.
  unfold startswith. revert s. induction p as [|a p IH]; intros s; simpl.
  - destruct s; simpl; split; eauto.
  - destruct s as [|b s]; simpl.
    + split; [discriminate|]. intros [r Hr]. discriminate.
    + destruct (ascii_dec a b) as [->|Hne].
      * rewrite IH. split; intros [r Hr]; exists r.
        -- rewrite append_cons. congruence.
        -- rewrite append_cons in Hr. congruence.
      * split; [discriminate|]. intros [r Hr]. rewrite append_cons in Hr. congruence.
Qed.

Lemma startswith_empty (s : string) : startswith s "" = true.
Proof. destruct s; reflexivity. Qed.

Lemma startswith_cons (c a : ascii) (s p : string) :
  startswith (String c s) (String a p) = true ↔ a = c ∧ startswith s p = true.
Proof.
  unfold startswith. simpl. destruct (ascii_dec a c); split; try tauto; try discriminate.
Qed.

Lemma length_skip_spaces (s : string) : String.length (skip_spaces s) ≤ String.length s.
Proof.
  assert (H : ∀ n s, String.length s ≤ n → String.length (skip_spaces s) ≤ String.length s).
  { clear s. induction n as [|n IH]; intros [|c1 s1] Hn; simpl in *; try lia.
    destruct (is_space1 c1); [specialize (IH s1); lia|].
    destruct s1 as [|c2 s2]; simpl in *; [lia|].
    destruct (is_space2 c1 c2); [destruct n; [lia|]|].
    - assert (String.length (skip_spaces s2) ≤ String.length s2); [|lia].
      apply IH. lia.
    - destruct s2 as [|c3 s3]; simpl in *; [lia|].
      destruct (is_space3 c1 c2 c3); simpl; [|lia].
      assert (String.length (skip_spaces s3) ≤ String.length s3); [|lia].
      apply IH. lia. }
  apply (H (String.length s)). lia.
Qed.

Lemma length_drop_bytes (n : nat) (s : string) :
  String.length (drop_bytes n s) = String.length s - n.
Proof. revert s. induction n as [|n IH]; intros [|c s]; simpl; auto. Qed.

Lemma length_startswith (s p : string) :
  startswith s p = true → String.length p ≤ String.length s.
Proof.
  intros [r ->]%startswith_iff. induction p as [|a p IH]; [simpl; lia|].
  rewrite append_cons. simpl. lia.
Qed.

Lemma sub_fences_invariant (fuel : nat) (s : string) :
  String.length s ≤ fuel →
  has_fence (sub_fences fuel s) = false ∧
  (startswith (sub_fences fuel s) "`" = true → startswith s "`" = true) ∧
  (startswith (sub_fences fuel s) "``" = true → startswith s "``" = true).
Proof.
  revert s. induction fuel as [|fuel IH]; intros s Hlen.
  { destruct s; simpl in Hlen; [|lia]. simpl. repeat split; discriminate. }
  cbn [sub_fences].
  destruct (startswith s "```json") eqn:Hjson.
  { pose proof (length_startswith _ _ Hjson) as Hl. simpl in Hl.
    apply startswith_iff in Hjson as [r ->].
    destruct (IH (skip_spaces (drop_bytes 7 ("```json" +:+ r)))) as (Hf & _ & _).
    { pose proof (length_skip_spaces (drop_bytes 7 ("```json" +:+ r))).
      rewrite length_drop_bytes in *. lia. }
    split; [exact Hf|]. split; reflexivity. }
  destruct (startswith s "```") eqn:Hbare.
  { pose proof (length_startswith _ _ Hbare) as Hl. simpl in Hl.
    apply startswith_iff in Hbare as [r ->].
    destruct (IH (skip_spaces (drop_bytes 3 ("```" +:+ r)))) as (Hf & _ & _).
    { pose proof (length_skip_spaces (drop_bytes 3 ("```" +:+ r))).
      rewrite length_drop_bytes in *. lia. }
    split; [exact Hf|]. split; reflexivity. }
  destruct s as [|c s]; [simpl; repeat split; discriminate|].
  simpl in Hlen. destruct (IH s ltac:(lia)) as (Hf & H1 & H2).
  split; [|split].
  - cbn [has_fence]. rewrite Hf, orb_false_r.
    destruct (startswith (String c (sub_fences fuel s)) "```") eqn:Hout; [|reflexivity].
    apply startswith_cons in Hout as [<- Hout]. apply H2 in Hout.
    assert (startswith (String "`" s) "```" = true) as Hs by (apply startswith_cons; auto).
    congruence.
  - intros [<- _]%startswith_cons. apply startswith_cons. split; [reflexivity|].
    apply startswith_empty.
  - intros [<- Hout]%startswith_cons. apply H1 in Hout.
    apply startswith_cons. auto.
Qed.

Lemma re_sub_fences_no_fence (s : string) : has_fence (re_sub_fences s) = false.
Proof. apply sub_fences_invariant. reflexivity. Qed.

Lemma sub_fences_fuel (n m : nat) (s : string) :
  String.length s ≤ n → String.length s ≤ m → sub_fences n s = sub_fences m s.
Proof.
  revert m s. induction n as [|n IH]; intros [|m] s Hn Hm.
  - reflexivity.
  - destruct s; [reflexivity|simpl in Hn; lia].
  - destruct s; [reflexivity|simpl in Hm; lia].
  - cbn [sub_fences].
    destruct (startswith s "```json") eqn:Hjson.
    { pose proof (length_startswith _ _ Hjson) as Hl. simpl in Hl.
      pose proof (length_skip_spaces (drop_bytes 7 s)) as Hs.
      rewrite length_drop_bytes in Hs. apply IH; lia. }
    destruct (startswith s "```") eqn:Hbare.
    { pose proof (length_startswith _ _ Hbare) as Hl. simpl in Hl.
      pose proof (length_skip_spaces (drop_bytes 3 s)) as Hs.
      rewrite length_drop_bytes in Hs. apply IH; lia. }
    destruct s as [|c s]; [reflexivity|]. simpl in Hn, Hm. f_equal. apply IH; lia.
Qed.

Lemma re_sub_fences_json (s : string) :
  startswith s "```json" = true →
  re_sub_fences s = re_sub_fences (skip_spaces (drop_bytes 7 s)).
Proof.
  intros Hjson. unfold re_sub_fences.
  pose proof (length_startswith _ _ Hjson) as Hl. simpl in Hl.
  pose proof (length_skip_spaces (drop_bytes 7 s)) as Hs. rewrite length_drop_bytes in Hs.
  destruct (String.length s) as [|n] eqn:Hlen; [lia|].
  cbn [sub_fences]. rewrite Hjson. apply sub_fences_fuel; lia.
Qed.

Lemma re_sub_fences_bare (s : string) :
  startswith s "```json" = false → startswith s "```" = true →
  re_sub_fences s = re_sub_fences (skip_spaces (drop_bytes 3 s)).
Proof.
  intros Hjson Hbare. unfold re_sub_fences.
  pose proof (length_startswith _ _ Hbare) as Hl. simpl in Hl.
  pose proof (length_skip_spaces (drop_bytes 3 s)) as Hs. rewrite length_drop_bytes in Hs.
  destruct (String.length s) as [|n] eqn:Hlen; [lia|].
  cbn [sub_fences]. rewrite Hjson, Hbare. apply sub_fences_fuel; lia.
Qed.

Lemma re_sub_fences_keep (c : ascii) (s : string) :
  startswith (String c s) "```" = false →
  re_sub_fences (String c s) = String c (re_sub_fences s).
Proof.
  intros Hbare. unfold re_sub_fences. cbn [String.length sub_fences].
  destruct (startswith (String c s) "```json") eqn:Hjson.
  { apply startswith_iff in Hjson as [r Hr].
    assert (startswith (String c s) "```" = true) as Habs; [|congruence].
    apply startswith_iff. exists ("json" +:+ r). rewrite Hr. reflexivity. }
  rewrite Hbare. reflexivity.
Qed.

(** C4, as amended: when the stripped text begins with a triple backtick,
    what is parsed is the text with every triple-backtick marker removed,
    wherever it stands, together with a [json] tag directly after a marker
    and the whitespace after the marker or tag; every other character,
    another language tag included, is kept.  So the fenced example tagged
    [json] parses to the record with [food_name] "rice" and [calories] 200,
    and the same example tagged [python] does not parse. *)
Theorem strip_markdown_removes_fences (response_text : string) :
  startswith (strip response_text) "```" = true →
  strip_markdown response_text = re_sub_fences (strip response_text) ∧
  has_fence (strip_markdown response_text) = false ∧
  (∀ s, startswith s "```json" = true →
        re_sub_fences s = re_sub_fences (skip_spaces (drop_bytes 7 s))) ∧
  (∀ s, startswith s "```json" = false → startswith s "```" = true →
        re_sub_fences s = re_sub_fences (skip_spaces (drop_bytes 3 s))) ∧
  (∀ c s, startswith (String c s) "```" = false →
          re_sub_fences (String c s) = String c (re_sub_fences s)) ∧
  normalize_response (AsText rice_fenced)
    = Ok (VDict (<["calories" := VInt 200]> (<["food_name" := VStr "rice"]> ∅))) ∧
  strip_markdown rice_fenced_python = "python" +:+ nl +:+ rice_json +:+ nl ∧
  normalize_response (AsText rice_fenced_python) = Raise JSONDecodeError.
Proof.
  intros Hfence. unfold strip_markdown. rewrite Hfence.
  split; [reflexivity|]. split; [apply re_sub_fences_no_fence|].
  split; [exact re_sub_fences_json|]. split; [exact re_sub_fences_bare|].
  split; [exact re_sub_fences_keep|].
  split; [vm_compute; reflexivity|]. split; vm_compute; reflexivity.
Qed.

Lemma strip_markdown_removes_fences_witness :
  strip_markdown rice_fenced = re_sub_fences (strip rice_fenced) ∧
  has_fence (strip_markdown rice_fenced) = false ∧
  (∀ s, startswith s "```json" = true →
        re_sub_fences s = re_sub_fences (skip_spaces (drop_bytes 7 s))) ∧
  (∀ s, startswith s "```json" = false → startswith s "```" = true →
        re_sub_fences s = re_sub_fences (skip_spaces (drop_bytes 3 s))) ∧
  (∀ c s, startswith (String c s) "```" = false →
          re_sub_fences (String c s) = String c (re_sub_fences s)) ∧
  normalize_response (AsText rice_fenced)
    = Ok (VDict (<["calories" := VInt 200]> (<["food_name" := VStr "rice"]> ∅))) ∧
  strip_markdown rice_fenced_python = "python" +:+ nl +:+ rice_json +:+ nl ∧
  normalize_response (AsText rice_fenced_python) = Raise JSONDecodeError.
Proof. exact (strip_markdown_removes_fences rice_fenced eq_refl). Defined.

(** C4 as stated fails: of a fence tagged [python] only the backticks go,
    the tag stays, the text does not parse (though the JSON inside would),
    and the analysis ends in the error of status 500. *)
Lemma other_language_tag_is_kept :
  startswith (strip rice_fenced_python) "```" = true ∧
  strip_markdown rice_fenced_python = "python" +:+ nl +:+ rice_json +:+ nl ∧
  json_loads (strip_markdown rice_fenced_python) = Raise JSONDecodeError ∧
  json_loads rice_json
    = Ok (VDict (<["calories" := VInt 200]> (<["food_name" := VStr "rice"]> ∅))) ∧
  analyze_food_with_ai (Some "key") (Ok (AsText rice_fenced_python))
    = Raise (HTTPException 500 (StrOf "Erro ao analisar alimento: " JSONDecodeError)).
Proof. vm_compute. repeat split. Qed.

(** ** The response normalizer *)

Lemma sum_field_set_other (key k : string) (v : value) (d : gmap string value)
  (rest : list value) (acc : value) :
  key ≠ k →
  sum_field key (VDict (<[k := v]> d) :: rest) acc = sum_field key (VDict d :: rest) acc.
Proof.
  intros Hne. cbn [sum_field dict_get]. rewrite lookup_insert_ne by congruence. reflexivity.
Qed.

(** On elements whose field is an [int] or missing, [sum] is the sum of the
    integers, a missing field counting as 0. *)
Lemma sum_field_ints (key : string) (items : list value) (acc : Z) :
  Forall (int_or_missing key) items →
  sum_field key items (VInt acc)
  = Ok (VInt (acc + foldr Z.add 0%Z (int_field key <$> items))).
Proof.
  intros Hall. revert acc. induction Hall as [|item items (d & -> & Hd) _ IH]; intros acc.
  - cbn. f_equal. f_equal. lia.
  - cbn [sum_field dict_get fmap list_fmap foldr int_field].
    destruct Hd as [Hd|[z Hd]]; rewrite Hd; cbn; rewrite IH; f_equal; f_equal; lia.
Qed.

Lemma get_all_first_dict (key : string) (dflt first : value) (rest names : list value) :
  get_all key dflt (first :: rest) = Ok names → ∃ d, first = VDict d.
Proof.
  cbn [get_all]. destruct first; cbn; try discriminate. eauto.
Qed.

Lemma analyze_food_with_ai_raises (key : string) (r : response) (e : exn) :
  key ≠ "" → normalize_response r = Raise e →
  analyze_food_with_ai (Some key) (Ok r)
  = Raise (HTTPException 500 (StrOf "Erro ao analisar alimento: " e)).
Proof.
  intros Hkey Hr. unfold analyze_food_with_ai. destruct key; [congruence|].
  cbn. rewrite Hr. reflexivity.
Qed.

(** C3: for a parsed response that is an array, with the empty-array
    branch read as the [raise] that line 176 spells out (as shipped the
    line has a backslash before each quote mark and Python rejects it, so
    the file itself never gives this error).  An empty array makes the
    normalizer raise "no food identified", which [analyze_food_with_ai]
    hands on as its error of status 500 instead of crashing.  An array of
    one element yields that element.  For an array of more elements, when
    the names can be joined and the five sums exist (the elements are
    objects, each [food_name] present is a text and each nutrient present a
    number), the result is the first element with [food_name] set to the
    names joined by " + " and each of [portion_size], [calories],
    [protein], [carbs], [fats] set to the sum of that field over all the
    elements as they were parsed, an absent name counting as "" and an
    absent number as 0; its other fields are untouched. *)
Theorem combine_foods_array (items : list value) :
  (items = [] →
     combine_foods (VList items)
       = Raise (ValueError "Nenhum alimento identificado na resposta") ∧
     ∀ key r text, key ≠ "" → response_text r = Ok text →
       json_loads (strip_markdown text) = Ok (VList items) →
       analyze_food_with_ai (Some key) (Ok r)
       = Raise (HTTPException 500
                  (StrOf "Erro ao analisar alimento: "
                     (ValueError "Nenhum alimento identificado na resposta")))) ∧
  (∀ only, items = [only] → combine_foods (VList items) = Ok only) ∧
  (∀ first second rest names joined portion_size calories protein carbs fats,
     items = first :: second :: rest →
     get_all "food_name" (VStr "") items = Ok names →
     str_join " + " names = Ok joined →
     sum_field "portion_size" items (VInt 0) = Ok portion_size →
     sum_field "calories" items (VInt 0) = Ok calories →
     sum_field "protein" items (VInt 0) = Ok protein →
     sum_field "carbs" items (VInt 0) = Ok carbs →
     sum_field "fats" items (VInt 0) = Ok fats →
     ∃ d, first = VDict d ∧
       combine_foods (VList items)
       = Ok (VDict (<["fats" := fats]> (<["carbs" := carbs]> (<["protein" := protein]>
               (<["calories" := calories]> (<["portion_size" := portion_size]>
               (<["food_name" := VStr joined]> d)))))))).
Proof.
  split; [|split].
  - intros ->. split; [reflexivity|].
    intros key r text Hkey Htext Hparsed. apply analyze_food_with_ai_raises; [exact Hkey|].
    unfold normalize_response. rewrite Htext. cbn [mbind result_bind]. rewrite Hparsed.
    reflexivity.
  - intros only ->. reflexivity.
  - intros first second rest names joined s1 s2 s3 s4 s5 -> Hnames Hjoin H1 H2 H3 H4 H5.
    destruct (get_all_first_dict _ _ _ _ _ Hnames) as [d ->]. exists d. split; [reflexivity|].
    unfold combine_foods. cbn [length Nat.ltb Nat.leb].
    rewrite Hnames. cbn [mbind result_bind]. rewrite Hjoin. cbn [mbind result_bind set_first].
    rewrite sum_field_set_other, H1 by discriminate. cbn [mbind result_bind set_first].
    rewrite !sum_field_set_other, H2 by discriminate. cbn [mbind result_bind set_first].
    rewrite !sum_field_set_other, H3 by discriminate. cbn [mbind result_bind set_first].
    rewrite !sum_field_set_other, H4 by discriminate. cbn [mbind result_bind set_first].
    rewrite !sum_field_set_other, H5 by discriminate. reflexivity.
Qed.

(** The instance of the specification: items "A" with 100 calories and "B"
    with 150 merge into "A + B" with 250 calories; the nutrients neither
    item has sum to 0. *)
Lemma combine_foods_array_witness :
  ∃ d, VDict food_a = VDict d ∧
    combine_foods (VList [VDict food_a; VDict food_b])
    = Ok (VDict (<["fats" := VInt 0]> (<["carbs" := VInt 0]> (<["protein" := VInt 0]>
            (<["calories" := VInt 250]> (<["portion_size" := VInt 0]>
            (<["food_name" := VStr "A + B"]> d))))))).
Proof.
  exact (proj2 (proj2 (combine_foods_array [VDict food_a; VDict food_b]))
           (VDict food_a) (VDict food_b) [] [VStr "A"; VStr "B"] "A + B"
           (VInt 0) (VInt 250) (VInt 0) (VInt 0) (VInt 0)
           eq_refl eq_refl eq_refl eq_refl eq_refl eq_refl eq_refl eq_refl).
Defined.

Example combine_foods_examples :
  combine_foods (VList []) = Raise (ValueError "Nenhum alimento identificado na resposta") ∧
  analyze_food_with_ai (Some "key") (Ok (AsText "[]"))
    = Raise (HTTPException 500
               (StrOf "Erro ao analisar alimento: "
                  (ValueError "Nenhum alimento identificado na resposta"))) ∧
  combine_foods (VList [VDict food_a]) = Ok (VDict food_a) ∧
  (∃ merged, combine_foods (VList [VDict food_a; VDict food_b]) = Ok (VDict merged) ∧
     merged !! "food_name" = Some (VStr "A + B") ∧
     merged !! "calories" = Some (VInt 250) ∧
     merged !! "protein" = Some (VInt 0)) ∧
  combine_foods (VList [VDict food_a; VInt 7]) = Raise AttributeError ∧
  combine_foods (VList [VDict food_a; VDict (<["calories" := VStr "150 kcal"]> ∅)])
    = Raise TypeError.
Proof.
  split; [reflexivity|]. split; [vm_compute; reflexivity|]. split; [reflexivity|].
  split; [|split; vm_compute; reflexivity].
  eexists. split; [vm_compute; reflexivity|]. vm_compute. repeat split.
Qed.

(** Conversely, an array of two or more elements that does not raise was
    merged in that way: the normalizer has no other successful outcome. *)
Lemma combine_foods_returns_merged (first second : value) (rest : list value) (r : value) :
  let items := first :: second :: rest in
  combine_foods (VList items) = Ok r →
  ∃ d names joined portion_size calories protein carbs fats,
    first = VDict d ∧
    get_all "food_name" (VStr "") items = Ok names ∧
    str_join " + " names = Ok joined ∧
    sum_field "portion_size" items (VInt 0) = Ok portion_size ∧
    sum_field "calories" items (VInt 0) = Ok calories ∧
    sum_field "protein" items (VInt 0) = Ok protein ∧
    sum_field "carbs" items (VInt 0) = Ok carbs ∧
    sum_field "fats" items (VInt 0) = Ok fats ∧
    r = VDict (<["fats" := fats]> (<["carbs" := carbs]> (<["protein" := protein]>
          (<["calories" := calories]> (<["portion_size" := portion_size]>
          (<["food_name" := VStr joined]> d)))))).
Proof.
  intros items. subst items. unfold combine_foods. cbn [length Nat.ltb Nat.leb].
  destruct (get_all "food_name" (VStr "") (first :: second :: rest))
    as [names|] eqn:Hnames; [|discriminate].
  destruct (get_all_first_dict _ _ _ _ _ Hnames) as [d ->].
  cbn [mbind result_bind].
  destruct (str_join " + " names) as [joined|] eqn:Hjoin; [|discriminate].
  cbn [mbind result_bind set_first]. rewrite sum_field_set_other by discriminate.
  destruct (sum_field "portion_size" _ _) as [s1|] eqn:H1; [|discriminate].
  cbn [mbind result_bind set_first]. rewrite !sum_field_set_other by discriminate.
  destruct (sum_field "calories" _ _) as [s2|] eqn:H2; [|discriminate].
  cbn [mbind result_bind set_first]. rewrite !sum_field_set_other by discriminate.
  destruct (sum_field "protein" _ _) as [s3|] eqn:H3; [|discriminate].
  cbn [mbind result_bind set_first]. rewrite !sum_field_set_other by discriminate.
  destruct (sum_field "carbs" _ _) as [s4|] eqn:H4; [|discriminate].
  cbn [mbind result_bind set_first]. rewrite !sum_field_set_other by discriminate.
  destruct (sum_field "fats" _ _) as [s5|] eqn:H5; [|discriminate].
  cbn [mbind result_bind set_first]. intros [= <-].
  exists d, names, joined, s1, s2, s3, s4, s5. repeat split; assumption.
Qed.

(* ================================================================== *)
(** * Part III: the other handlers, and how the handlers compose       *)
(* ================================================================== *)

(** ** Collections *)

Lemma find_one_None_iff {D} (p : D → bool) (c : list D) :
  find_one p c = None ↔ ∀ d, d ∈ c → p d = false.
Proof.
  unfold find_one. induction c as [|x c IH]; simpl.
  - split; [intros _ d Hd; inversion Hd|reflexivity].
  - destruct (p x) eqn:Hx.
    + split; [discriminate|]. intros Hall. rewrite Hall in Hx; [discriminate|].
      apply elem_of_cons. auto.
    + rewrite IH. split.
      * intros Hall d [->|Hd]%elem_of_cons; auto.
      * intros Hall d Hd. apply Hall, elem_of_cons. auto.
Qed.

Lemma find_one_Some_elem {D} (p : D → bool) (c : list D) (d : D) :
  find_one p c = Some d → d ∈ c ∧ p d = true.
Proof.
  unfold find_one. intros [Hin Hp]%find_some. split; [|exact Hp].
  apply list_elem_of_In. exact Hin.
Qed.

Lemma upsert_one_twice {D} (p : D → bool) (doc1 doc2 : D) (c : list D) :
  p doc1 = true → upsert_one p doc2 (upsert_one p doc1 c) = upsert_one p doc2 c.
Proof.
  intros H1. induction c as [|x c IH]; simpl.
  - rewrite H1. reflexivity.
  - destruct (p x) eqn:Hx; simpl; [rewrite H1; reflexivity|].
    rewrite Hx, IH. reflexivity.
Qed.

Lemma upsert_one_elem_other {D} (p : D → bool) (doc : D) (c : list D) (d : D) :
  p doc = true → p d = false → d ∈ upsert_one p doc c ↔ d ∈ c.
Proof.
  intros Hdoc Hd. induction c as [|x c IH]; simpl.
  - rewrite list_elem_of_singleton. split; [intros ->; congruence|intros H; inversion H].
  - destruct (p x) eqn:Hx; rewrite !elem_of_cons.
    + split; intros [->|H]; auto; congruence.
    + rewrite IH. reflexivity.
Qed.

Lemma length_upsert_one {D} (p : D → bool) (doc : D) (c : list D) :
  length (upsert_one p doc c) =
    match find_one p c with Some _ => length c | None => S (length c) end.
Proof.
  unfold find_one. induction c as [|x c IH]; simpl; [reflexivity|].
  destruct (p x); simpl; [reflexivity|]. rewrite IH.
  destruct (find p c); reflexivity.
Qed.

Lemma upsert_one_user_ids (key : string) (doc : UserProfile.t) (c : list UserProfile.t) :
  UserProfile.user_id doc = key →
  UserProfile.user_id <$> upsert_one (λ d, String.eqb (UserProfile.user_id d) key) doc c =
    match find_one (λ d, String.eqb (UserProfile.user_id d) key) c with
    | Some _ => UserProfile.user_id <$> c
    | None => (UserProfile.user_id <$> c) ++ [key]
    end.
Proof.
  intros Hdoc. unfold find_one. induction c as [|x c IH].
  - cbn. rewrite Hdoc. reflexivity.
  - cbn [upsert_one find].
    destruct (String.eqb_spec (UserProfile.user_id x) key) as [Heq|Hne].
    + rewrite !fmap_cons. congruence.
    + rewrite !fmap_cons, IH.
      destruct (find (λ d, String.eqb (UserProfile.user_id d) key) c); reflexivity.
Qed.

(** ** Reading and writing profiles *)

(** X1: A request for a [user_id] is answered with status 404 exactly when no
    stored profile has that [user_id]; otherwise with a stored profile of
    that [user_id]; the store is never changed. *)
Theorem get_profile_not_found_iff (user_id : string) (s : db) :
  (get_profile user_id s = (Raise (HTTPException 404 (Text "Perfil não encontrado")), s)
   ↔ ∀ d, d ∈ users_collection s → UserProfile.user_id d ≠ user_id) ∧
  (∀ profile, fst (get_profile user_id s) = Ok profile →
     profile ∈ users_collection s ∧ UserProfile.user_id profile = user_id) ∧
  snd (get_profile user_id s) = s.
Proof.
  unfold get_profile.
  destruct (find_one _ (users_collection s)) as [found|] eqn:Hfind.
  - apply find_one_Some_elem in Hfind as [Hin Hid]. apply String.eqb_eq in Hid.
    split; [|split; [|reflexivity]].
    + split; [discriminate|]. intros Hall. exfalso. exact (Hall found Hin Hid).
    + cbn. intros profile [= <-]. auto.
  - split; [|split; [discriminate|reflexivity]].
    split; [|reflexivity]. intros _ d Hd Heq.
    rewrite find_one_None_iff in Hfind. specialize (Hfind d Hd). cbn in Hfind.
    apply String.eqb_neq in Hfind. contradiction.
Qed.

(** X2: A profile write that succeeds can be read back: [get_profile] then
    returns the submitted fields with the goal the write answered and the
    time of the write. *)
Theorem profile_write_then_read (profile : UserProfile.t) (now : datetime) (s : db)
  (saved : ProfileSaved.t) (s' : db) :
  create_or_update_profile profile now s = (Ok saved, s') →
  get_profile (UserProfile.user_id profile) s'
  = (Ok (with_supplied profile (Some (ProfileSaved.daily_calorie_goal saved)) (Some now)), s').
Proof.
  intros Hrun.
  destruct (create_or_update_profile_succeeded _ _ _ _ _ Hrun) as (bmr & Hbmr & Hage).
  rewrite (create_or_update_profile_ok _ _ _ _ Hbmr Hage) in Hrun. injection Hrun as <- <-.
  unfold get_profile. cbn [users_collection ProfileSaved.daily_calorie_goal].
  rewrite find_one_upsert_one; [reflexivity|]. cbn. apply String.eqb_refl.
Qed.

Lemma profile_write_then_read_witness :
  ∃ saved s',
    create_or_update_profile example_profile 1700000000%Z (mk_db [] []) = (Ok saved, s') ∧
    get_profile "u1" s'
    = (Ok (UserProfile.mk "u1" "Ana" 30 "masculino" 175 70 "sedentario" 65
             (Some 1535%float) (Some 1700000000%Z)), s').
Proof.
  eexists. eexists. split; [vm_compute; reflexivity|].
  exact (profile_write_then_read example_profile 1700000000%Z (mk_db [] []) _ _ eq_refl).
Defined.

(** X3: A profile write has two outcomes only.  It succeeds, and then the age
    fits 8 bytes; or it answers with status 500 for an [OverflowError] and
    writes nothing, and then the age does not fit the 8 bytes the store
    gives an integer, or is too large to be converted to a float. *)
Theorem profile_write_outcomes (profile : UserProfile.t) (now : datetime) (s : db) :
  ((- 2 ^ 63 ≤ UserProfile.age profile < 2 ^ 63)%Z ∧
   ∃ saved s', create_or_update_profile profile now s = (Ok saved, s') ∧
     meals_collection s' = meals_collection s ∧
     ∃ doc, find_one (λ d, String.eqb (UserProfile.user_id d) (UserProfile.user_id profile))
              (users_collection s') = Some doc ∧
            UserProfile.daily_calorie_goal doc = Some (ProfileSaved.daily_calorie_goal saved)) ∨
  ((¬ (- 2 ^ 63 ≤ UserProfile.age profile < 2 ^ 63)%Z ∨
    float_of_int (UserProfile.age profile) = Raise OverflowError) ∧
   create_or_update_profile profile now s
   = (Raise (HTTPException 500 (StrOf "" OverflowError)), s)).
Proof.
  destruct (calculate_bmr_outcomes (UserProfile.weight profile) (UserProfile.height profile)
              (UserProfile.age profile) (UserProfile.gender profile)) as [[bmr Hbmr]|[Hbmr Hage]].
  - destruct (bson_int_outcomes (UserProfile.age profile)) as [[Hfit Hrange]|[Hfit Hrange]].
    + left. split; [exact Hrange|]. eexists. eexists.
      split; [apply (create_or_update_profile_ok _ _ _ _ Hbmr Hfit)|].
      cbn. split; [reflexivity|]. eexists. split.
      * apply find_one_upsert_one. cbn. apply String.eqb_refl.
      * reflexivity.
    + right. split; [left; exact Hrange|].
      exact (create_or_update_profile_unencodable _ _ _ _ _ Hbmr Hfit).
  - right. split; [right; exact Hage|]. apply create_or_update_profile_raises. exact Hbmr.
Qed.

(** The age 2^63 converts to a float, yet it does not fit the 8 bytes of the
    store: the answer is status 500, nothing is written, and the profile
    cannot be read afterwards. *)
Example profile_age_beyond_8_bytes :
  ∃ bmr,
    calculate_bmr 70%float 175%float (2 ^ 63) "masculino" = Ok bmr ∧
    create_or_update_profile
      (UserProfile.mk "u9" "Zed" (2 ^ 63) "masculino" 175 70 "leve" 70 None None) 0%Z
      (mk_db [] [])
    = (Raise (HTTPException 500 (StrOf "" OverflowError)), mk_db [] []) ∧
    get_profile "u9" (mk_db [] [])
    = (Raise (HTTPException 404 (Text "Perfil não encontrado")), mk_db [] []).
Proof. eexists. vm_compute. repeat split. Qed.

(** X4: A profile write touches one document only: the profiles of the other
    users and all meals stay, the collection grows by one document when the
    user is new and keeps its size otherwise, and user ids that were
    pairwise different stay so. *)
Theorem profile_write_keeps_others (profile : UserProfile.t) (now : datetime) (s : db)
  (saved : ProfileSaved.t) (s' : db) :
  create_or_update_profile profile now s = (Ok saved, s') →
  let has_id := λ d, String.eqb (UserProfile.user_id d) (UserProfile.user_id profile) in
  meals_collection s' = meals_collection s ∧
  (∀ d, UserProfile.user_id d ≠ UserProfile.user_id profile →
        d ∈ users_collection s' ↔ d ∈ users_collection s) ∧
  length (users_collection s') =
    match find_one has_id (users_collection s) with
    | Some _ => length (users_collection s)
    | None => S (length (users_collection s))
    end ∧
  (NoDup (UserProfile.user_id <$> users_collection s) →
   NoDup (UserProfile.user_id <$> users_collection s')).
Proof.
  intros Hrun has_id.
  destruct (create_or_update_profile_succeeded _ _ _ _ _ Hrun) as (bmr & Hbmr & Hage).
  rewrite (create_or_update_profile_ok _ _ _ _ Hbmr Hage) in Hrun.
  injection Hrun as _ <-. cbn [meals_collection users_collection].
  set (doc := with_supplied profile _ _).
  split; [reflexivity|]. split; [|split].
  - intros d Hd. apply upsert_one_elem_other; [cbn; apply String.eqb_refl|].
    apply String.eqb_neq. exact Hd.
  - apply length_upsert_one.
  - intros Hnd.
    pose proof (upsert_one_user_ids (UserProfile.user_id profile) doc (users_collection s)
                  eq_refl) as Hids.
    rewrite Hids. fold has_id.
    destruct (find_one has_id (users_collection s)) eqn:Hfind; [exact Hnd|].
    apply NoDup_app. split; [exact Hnd|]. split; [|apply NoDup_singleton].
    intros x Hx ->%list_elem_of_singleton.
    apply list_elem_of_fmap in Hx as (d & Hd & Hin).
    rewrite find_one_None_iff in Hfind. specialize (Hfind d Hin). unfold has_id in Hfind.
    apply String.eqb_neq in Hfind. congruence.
Qed.

Lemma profile_write_keeps_others_witness :
  ∃ saved s',
    create_or_update_profile example_profile 1700000000%Z (mk_db [] [example_meal])
      = (Ok saved, s') ∧
    meals_collection s' = [example_meal] ∧
    length (users_collection s') = 1 ∧
    NoDup (UserProfile.user_id <$> users_collection s').
Proof.
  eexists. eexists. split; [vm_compute; reflexivity|].
  destruct (profile_write_keeps_others example_profile 1700000000%Z
              (mk_db [] [example_meal]) _ _ eq_refl) as (Hm & _ & Hl & Hn).
  split; [exact Hm|]. split; [exact Hl|]. apply Hn. constructor.
Defined.

(** X5: Writes of one user replace each other in full: a write that succeeds
    on a store gives the same answer and leaves the same store when it
    comes after an earlier write for the same [user_id], whether that one
    succeeded or not; the earlier write leaves no trace. *)
Theorem profile_last_write_wins (first second : UserProfile.t) (now1 now2 : datetime)
  (s : db) (saved : ProfileSaved.t) (s2 : db) :
  UserProfile.user_id first = UserProfile.user_id second →
  create_or_update_profile second now2 s = (Ok saved, s2) →
  create_or_update_profile second now2 (snd (create_or_update_profile first now1 s))
  = (Ok saved, s2).
Proof.
  intros Hid Hrun.
  destruct (create_or_update_profile_succeeded _ _ _ _ _ Hrun) as (bmr & Hbmr & Hage).
  rewrite (create_or_update_profile_ok _ _ _ _ Hbmr Hage) in Hrun.
  rewrite (create_or_update_profile_ok second now2 (snd _) _ Hbmr Hage).
  injection Hrun as <- <-. f_equal.
  destruct (calculate_bmr_outcomes (UserProfile.weight first) (UserProfile.height first)
              (UserProfile.age first) (UserProfile.gender first)) as [[bmr1 Hbmr1]|[Hbmr1 _]].
  - destruct (bson_int_outcomes (UserProfile.age first)) as [[Hage1 _]|[Hage1 _]].
    + rewrite (create_or_update_profile_ok first _ _ _ Hbmr1 Hage1).
      cbn [snd users_collection meals_collection]. f_equal.
      rewrite <- Hid. apply upsert_one_twice. cbn. apply String.eqb_refl.
    + rewrite (create_or_update_profile_unencodable _ _ _ _ _ Hbmr1 Hage1). reflexivity.
  - rewrite (create_or_update_profile_raises _ _ _ _ Hbmr1). reflexivity.
Qed.

Lemma profile_last_write_wins_witness :
  ∃ saved s2,
    create_or_update_profile example_profile 2%Z (mk_db [] []) = (Ok saved, s2) ∧
    create_or_update_profile example_profile 2%Z
      (snd (create_or_update_profile
              (UserProfile.mk "u1" "Ana" (2 ^ 63) "feminino" 160 50 "leve" 50 None None) 1%Z
              (mk_db [] [])))
    = (Ok saved, s2) ∧
    create_or_update_profile example_profile 2%Z
      (snd (create_or_update_profile (with_supplied example_profile None None) 1%Z
              (mk_db [] [])))
    = (Ok saved, s2).
Proof.
  eexists. eexists. split; [vm_compute; reflexivity|]. split.
  - exact (profile_last_write_wins
             (UserProfile.mk "u1" "Ana" (2 ^ 63) "feminino" 160 50 "leve" 50 None None)
             example_profile 1%Z 2%Z (mk_db [] []) _ _ eq_refl eq_refl).
  - exact (profile_last_write_wins (with_supplied example_profile None None)
             example_profile 1%Z 2%Z (mk_db [] []) _ _ eq_refl eq_refl).
Defined.

(** ** Saving, listing and deleting meals *)

Lemma sum_values_floats_from (l : list float) (a : float) :
  sum_values (VFloat <$> l) (VFloat a) = Ok (VFloat (fold_left PrimFloat.add l a)).
Proof.
  revert a. induction l as [|x l IH]; intros a; [reflexivity|].
  cbn [fmap list_fmap sum_values py_add as_number mbind result_bind fold_left].
  apply IH.
Qed.

Lemma sum_values_floats (l : list float) :
  sum_values (VFloat <$> l) (VInt 0) = Ok (sum_of_floats l).
Proof.
  destruct l as [|x l]; [reflexivity|].
  cbn [fmap list_fmap sum_values py_add as_number sum_of_floats].
  change (float_of_int 0) with (Ok 0%float). cbn [mbind result_bind].
  apply sum_values_floats_from.
Qed.

Lemma sum_values_field (f : Meal.t → float) (meals : list Meal.t) :
  sum_values ((λ m, VFloat (f m)) <$> meals) (VInt 0) = Ok (sum_of_floats (f <$> meals)).
Proof.
  rewrite <- sum_values_floats, <- list_fmap_compose. reflexivity.
Qed.

Lemma get_meals_by_date_value (user_id date : string) (s : db) :
  let meals :=
    filter (λ m, Meal.user_id m = user_id ∧ Meal.date m = date) (meals_collection s) in
  get_meals_by_date user_id date s =
    (Ok (DayMeals.mk meals
           (DayTotals.mk (sum_of_floats (Meal.calories <$> meals))
              (sum_of_floats (Meal.protein <$> meals))
              (sum_of_floats (Meal.carbs <$> meals))
              (sum_of_floats (Meal.fats <$> meals)) (length meals))), s).
Proof.
  intros meals. unfold get_meals_by_date, handler_try. fold meals.
  rewrite !sum_values_field. reflexivity.
Qed.

(** X6: The meals of a day never fail and never change the store: the answer
    holds exactly the stored meals with that [user_id] and that literal
    date string, in stored order, their number, and per nutrient the int 0
    when there is no such meal and else the float sum from 0.0 in that
    order. *)
Theorem meals_by_date_exact (user_id date : string) (s : db) :
  ∃ day,
    get_meals_by_date user_id date s = (Ok day, s) ∧
    (∀ m, m ∈ DayMeals.meals day ↔
          m ∈ meals_collection s ∧ Meal.user_id m = user_id ∧ Meal.date m = date) ∧
    DayMeals.meals day `sublist_of` meals_collection s ∧
    DayTotals.meals_count (DayMeals.totals day) = length (DayMeals.meals day) ∧
    DayTotals.total_calories (DayMeals.totals day)
      = sum_of_floats (Meal.calories <$> DayMeals.meals day) ∧
    DayTotals.total_protein (DayMeals.totals day)
      = sum_of_floats (Meal.protein <$> DayMeals.meals day) ∧
    DayTotals.total_carbs (DayMeals.totals day)
      = sum_of_floats (Meal.carbs <$> DayMeals.meals day) ∧
    DayTotals.total_fats (DayMeals.totals day)
      = sum_of_floats (Meal.fats <$> DayMeals.meals day) ∧
    (DayMeals.meals day = [] →
       DayTotals.total_calories (DayMeals.totals day) = VInt 0 ∧
       DayTotals.meals_count (DayMeals.totals day) = 0).
Proof.
  eexists. split; [apply get_meals_by_date_value|].
  cbn [DayMeals.meals DayMeals.totals DayTotals.meals_count DayTotals.total_calories
       DayTotals.total_protein DayTotals.total_carbs DayTotals.total_fats].
  split; [intros m; rewrite list_elem_of_filter; tauto|].
  split; [apply sublist_filter|].
  repeat (split; [reflexivity|]).
  intros ->. split; reflexivity.
Qed.

(** X7: A saved meal is listed: when [save_meal] succeeds, the meals of its
    user and date are those listed before followed by the new document, the
    count is one more and the calories total is the former float sum plus
    its calories; no stored document is touched.  No profile of that user
    is asked for. *)
Theorem saved_meal_is_listed (meal : MealEntry.t) (now : datetime) (s : db)
  (saved : MealSaved.t) (s1 : db) :
  save_meal meal now s = (Ok saved, s1) →
  saved = MealSaved.mk "Refeição salva com sucesso" (MealEntry.meal_id meal) ∧
  users_collection s1 = users_collection s ∧
  meals_collection s1 = meals_collection s ++ [meal_document meal now] ∧
  ∃ before after,
    get_meals_by_date (MealEntry.user_id meal) (MealEntry.date meal) s = (Ok before, s) ∧
    get_meals_by_date (MealEntry.user_id meal) (MealEntry.date meal) s1 = (Ok after, s1) ∧
    DayMeals.meals after = DayMeals.meals before ++ [meal_document meal now] ∧
    DayTotals.meals_count (DayMeals.totals after)
      = S (DayTotals.meals_count (DayMeals.totals before)) ∧
    DayTotals.total_calories (DayMeals.totals after)
      = VFloat (float_sum (Meal.calories <$> DayMeals.meals before) + MealEntry.calories meal).
Proof.
  intros Hrun. unfold save_meal, handler_try in Hrun. cbn in Hrun. injection Hrun as <- <-.
  split; [reflexivity|]. split; [reflexivity|]. split; [reflexivity|].
  eexists. eexists.
  split; [apply get_meals_by_date_value|]. split; [apply get_meals_by_date_value|].
  cbn [DayMeals.meals DayMeals.totals DayTotals.meals_count DayTotals.total_calories
       meals_collection].
  unfold insert_one. rewrite filter_app, filter_cons_True, filter_nil by (split; reflexivity).
  split; [reflexivity|]. split; [rewrite length_app; cbn; lia|].
  rewrite fmap_app. cbn [fmap list_fmap].
  set (old := Meal.calories <$> filter _ (meals_collection s)).
  replace (sum_of_floats (old ++ [Meal.calories (meal_document meal now)]))
    with (VFloat (float_sum (old ++ [Meal.calories (meal_document meal now)])))
    by (destruct old; reflexivity).
  rewrite float_sum_snoc. reflexivity.
Qed.

Lemma saved_meal_is_listed_witness :
  ∃ saved s1 before after,
    save_meal (MealEntry.mk "new" "u1" "2024-06-11" "09:00" "cafe" 200 4 0.2 0 0.1 None) 5%Z
      (mk_db [] [meal_today]) = (Ok saved, s1) ∧
    saved = MealSaved.mk "Refeição salva com sucesso" "new" ∧
    get_meals_by_date "u1" "2024-06-11" (mk_db [] [meal_today])
      = (Ok before, mk_db [] [meal_today]) ∧
    get_meals_by_date "u1" "2024-06-11" s1 = (Ok after, s1) ∧
    DayTotals.meals_count (DayMeals.totals after) = 2 ∧
    DayTotals.total_calories (DayMeals.totals after) = VFloat 134.
Proof.
  destruct (saved_meal_is_listed
              (MealEntry.mk "new" "u1" "2024-06-11" "09:00" "cafe" 200 4 0.2 0 0.1 None) 5%Z
              (mk_db [] [meal_today]) _ _ eq_refl)
    as (Hsaved & _ & _ & before & after & Hbefore & Hafter & _ & Hcount & Htotal).
  eexists. eexists. exists before, after. split; [reflexivity|].
  split; [exact Hsaved|]. split; [exact Hbefore|]. split; [exact Hafter|].
  injection Hbefore as <-. split; [exact Hcount|exact Htotal].
Defined.

Lemma delete_one_not_found {D} (p : D → bool) (c : list D) :
  find_one p c = None → delete_one p c = (c, 0).
Proof.
  unfold find_one. induction c as [|x c IH]; simpl; [reflexivity|].
  destruct (p x); [discriminate|]. intros H. rewrite (IH H). reflexivity.
Qed.

Lemma delete_one_found {D} (p : D → bool) (c : list D) (d : D) :
  find_one p c = Some d →
  ∃ before after, c = before ++ d :: after ∧ (∀ x, x ∈ before → p x = false) ∧
    delete_one p c = (before ++ after, 1).
Proof.
  unfold find_one. induction c as [|x c IH]; simpl; [discriminate|].
  destruct (p x) eqn:Hx.
  - intros [= ->]. exists [], c. split; [reflexivity|]. split; [|reflexivity].
    intros y Hy. inversion Hy.
  - intros H. destruct (IH H) as (before & after & -> & Hall & Hdel).
    exists (x :: before), after. split; [reflexivity|]. split.
    + intros y [->|Hy]%elem_of_cons; auto.
    + rewrite Hdel. reflexivity.
Qed.

Lemma delete_one_snoc_fresh {D} (p : D → bool) (c : list D) (d : D) :
  find_one p c = None → p d = true → delete_one p (c ++ [d]) = (c, 1).
Proof.
  unfold find_one. intros Hnone Hd. induction c as [|x c IH]; simpl in *.
  - rewrite Hd. reflexivity.
  - destruct (p x); [discriminate|]. rewrite (IH Hnone). reflexivity.
Qed.

(** X8: Deleting answers with status 404 exactly when no stored meal has the
    [meal_id], and then leaves the store as it was. *)
Theorem delete_meal_not_found_iff (meal_id : string) (s : db) :
  delete_meal meal_id s = (Raise (HTTPException 404 (Text "Refeição não encontrada")), s)
  ↔ ∀ m, m ∈ meals_collection s → Meal.meal_id m ≠ meal_id.
Proof.
  unfold delete_meal, handler_try_reraise_http.
  destruct (find_one (λ m, String.eqb (Meal.meal_id m) meal_id) (meals_collection s))
    as [found|] eqn:Hfind.
  - destruct (delete_one_found _ _ _ Hfind) as (before & after & _ & _ & ->).
    apply find_one_Some_elem in Hfind as [Hin Hid]. apply String.eqb_eq in Hid.
    cbn. split; [discriminate|]. intros Hall. exfalso. exact (Hall found Hin Hid).
  - rewrite (delete_one_not_found _ _ Hfind). cbn. destruct s as [users meals].
    split; [|reflexivity]. intros _ m Hm Heq.
    rewrite find_one_None_iff in Hfind. specialize (Hfind m Hm). cbn in Hfind.
    apply String.eqb_neq in Hfind. contradiction.
Qed.

(** X9: Deleting removes one document: the first stored meal with the
    [meal_id]; the meals before and after it, later meals of the same id
    included, and the profiles stay. *)
Theorem delete_meal_removes_first (meal_id : string) (s : db) (meal : Meal.t) :
  find_one (λ m, String.eqb (Meal.meal_id m) meal_id) (meals_collection s) = Some meal →
  ∃ before after,
    meals_collection s = before ++ meal :: after ∧
    (∀ m, m ∈ before → Meal.meal_id m ≠ meal_id) ∧
    delete_meal meal_id s
    = (Ok "Refeição deletada com sucesso", mk_db (users_collection s) (before ++ after)).
Proof.
  intros Hfind. destruct (delete_one_found _ _ _ Hfind) as (before & after & Hc & Hall & Hdel).
  exists before, after. split; [exact Hc|]. split.
  - intros m Hm. apply String.eqb_neq. exact (Hall m Hm).
  - unfold delete_meal, handler_try_reraise_http. rewrite Hdel. reflexivity.
Qed.

Lemma delete_meal_removes_first_witness :
  ∃ before after,
    [meal_padded; meal_today; meal_today] = before ++ meal_today :: after ∧
    (∀ m, m ∈ before → Meal.meal_id m ≠ "today") ∧
    delete_meal "today" (mk_db [] [meal_padded; meal_today; meal_today])
    = (Ok "Refeição deletada com sucesso", mk_db [] (before ++ after)).
Proof.
  exact (delete_meal_removes_first "today" (mk_db [] [meal_padded; meal_today; meal_today])
           meal_today eq_refl).
Defined.

(** X10: Saving a meal under a [meal_id] no stored meal has and deleting it again
    restores the store. *)
Theorem save_then_delete_restores (meal : MealEntry.t) (now : datetime) (s : db) :
  (∀ m, m ∈ meals_collection s → Meal.meal_id m ≠ MealEntry.meal_id meal) →
  delete_meal (MealEntry.meal_id meal) (snd (save_meal meal now s))
  = (Ok "Refeição deletada com sucesso", s).
Proof.
  intros Hfresh. unfold save_meal, handler_try, delete_meal, handler_try_reraise_http.
  cbn [snd meals_collection users_collection]. unfold insert_one.
  rewrite delete_one_snoc_fresh.
  - cbn. destruct s; reflexivity.
  - apply find_one_None_iff. intros m Hm. apply String.eqb_neq. exact (Hfresh m Hm).
  - cbn. apply String.eqb_refl.
Qed.

Lemma save_then_delete_restores_witness :
  delete_meal "new"
    (snd (save_meal
            (MealEntry.mk "new" "u1" "2024-06-11" "09:00" "cafe" 200 4 0.2 0 0.1 None)
            5%Z (mk_db [] [meal_today])))
  = (Ok "Refeição deletada com sucesso", mk_db [] [meal_today]).
Proof.
  refine (save_then_delete_restores
            (MealEntry.mk "new" "u1" "2024-06-11" "09:00" "cafe" 200 4 0.2 0 0.1 None)
            5%Z (mk_db [] [meal_today]) _).
  intros m ->%list_elem_of_singleton. discriminate.
Defined.

(** ** More on portion adjustment *)

Lemma adjust_portion_found (s : db) (adjustment : PortionAdjustment.t) (meal : Meal.t) :
  let has_id := λ m, String.eqb (Meal.meal_id m) (PortionAdjustment.meal_id adjustment) in
  find_one has_id (meals_collection s) = Some meal →
  (Meal.portion_size meal =? 0)%float = false →
  let ratio := (PortionAdjustment.new_portion_size adjustment / Meal.portion_size meal)%float in
  let values :=
    UpdatedValues.mk (PortionAdjustment.new_portion_size adjustment)
      (py_round (Meal.calories meal * ratio) 1) (py_round (Meal.protein meal * ratio) 1)
      (py_round (Meal.carbs meal * ratio) 1) (py_round (Meal.fats meal * ratio) 1) in
  adjust_portion adjustment s
  = (Ok values,
     mk_db (users_collection s) (update_one has_id (set_values values) (meals_collection s))).
Proof.
  intros has_id Hfind Hnz ratio values.
  unfold adjust_portion, handler_try_reraise_http. fold has_id. rewrite Hfind.
  unfold hbind, lift, float_truediv. rewrite Hnz. reflexivity.
Qed.

Lemma adjust_portion_found_zero (s : db) (adjustment : PortionAdjustment.t) (meal : Meal.t) :
  find_one (λ m, String.eqb (Meal.meal_id m) (PortionAdjustment.meal_id adjustment))
    (meals_collection s) = Some meal →
  (Meal.portion_size meal =? 0)%float = true →
  adjust_portion adjustment s = (Raise (HTTPException 500 (StrOf "" ZeroDivisionError)), s).
Proof.
  intros Hfind Hz. unfold adjust_portion, handler_try_reraise_http. rewrite Hfind.
  unfold hbind, lift, float_truediv. rewrite Hz. reflexivity.
Qed.

(** X11: An adjustment answers with status 404 (passed on as it is, not turned
    into 500) exactly when no stored meal has the [meal_id]; the store is
    then unchanged. *)
Theorem adjust_portion_not_found_iff (adjustment : PortionAdjustment.t) (s : db) :
  adjust_portion adjustment s
    = (Raise (HTTPException 404 (Text "Refeição não encontrada")), s)
  ↔ ∀ m, m ∈ meals_collection s → Meal.meal_id m ≠ PortionAdjustment.meal_id adjustment.
Proof.
  destruct (find_one (λ m, String.eqb (Meal.meal_id m) (PortionAdjustment.meal_id adjustment))
              (meals_collection s)) as [found|] eqn:Hfind.
  - pose proof (find_one_Some_elem _ _ _ Hfind) as [Hin Hid]. apply String.eqb_eq in Hid.
    split; [|intros Hall; exfalso; exact (Hall found Hin Hid)].
    destruct (Meal.portion_size found =? 0)%float eqn:Hz.
    + rewrite (adjust_portion_found_zero _ _ _ Hfind Hz). discriminate.
    + rewrite (adjust_portion_found _ _ _ Hfind Hz). discriminate.
  - split.
    + intros _ m Hm Heq. rewrite find_one_None_iff in Hfind. specialize (Hfind m Hm).
      cbn in Hfind. apply String.eqb_neq in Hfind. contradiction.
    + intros _. unfold adjust_portion, handler_try_reraise_http. rewrite Hfind. reflexivity.
Qed.

(** X12: Adjustments compound on the stored state: a second adjustment of the
    same meal scales the nutrients already rounded by the first, by the
    ratio of the second portion to the first one. *)
Theorem adjust_portion_compounds (s : db) (first second : PortionAdjustment.t)
  (meal : Meal.t) :
  PortionAdjustment.meal_id second = PortionAdjustment.meal_id first →
  find_one (λ m, String.eqb (Meal.meal_id m) (PortionAdjustment.meal_id first))
    (meals_collection s) = Some meal →
  (Meal.portion_size meal =? 0)%float = false →
  (PortionAdjustment.new_portion_size first =? 0)%float = false →
  let p0 := Meal.portion_size meal in
  let p1 := PortionAdjustment.new_portion_size first in
  let p2 := PortionAdjustment.new_portion_size second in
  let twice := λ x, py_round (py_round (x * (p1 / p0)) 1 * (p2 / p1)) 1 in
  ∃ v1 s1 s2,
    adjust_portion first s = (Ok v1, s1) ∧
    adjust_portion second s1
    = (Ok (UpdatedValues.mk p2 (twice (Meal.calories meal)) (twice (Meal.protein meal))
             (twice (Meal.carbs meal)) (twice (Meal.fats meal))), s2) ∧
    find_one (λ m, String.eqb (Meal.meal_id m) (PortionAdjustment.meal_id first))
      (meals_collection s2)
    = Some (Meal.mk (Meal.meal_id meal) (Meal.user_id meal) (Meal.date meal) (Meal.time meal)
              (Meal.food_name meal) p2 (twice (Meal.calories meal))
              (twice (Meal.protein meal)) (twice (Meal.carbs meal)) (twice (Meal.fats meal))
              (Meal.image_base64 meal) (Meal.created_at meal)).
Proof.
  intros Hid Hfind Hp0 Hp1 p0 p1 p2 twice.
  pose proof (find_one_Some_elem _ _ _ Hfind) as [_ Hmid].
  eexists. eexists. eexists. split; [apply (adjust_portion_found _ _ _ Hfind Hp0)|].
  match goal with |- context [update_one ?p (set_values ?v) _] =>
    assert (Hfind1 : find_one p (update_one p (set_values v) (meals_collection s))
                     = Some (set_values v meal))
      by (apply find_one_update_one; [exact Hfind|exact Hmid])
  end.
  split.
  - eapply eq_trans.
    + eapply adjust_portion_found; [rewrite Hid; cbn [meals_collection]; exact Hfind1|exact Hp1].
    + reflexivity.
  - cbn [meals_collection]. rewrite Hid.
    eapply eq_trans; [apply find_one_update_one; [exact Hfind1|exact Hmid]|reflexivity].
Qed.

Lemma adjust_portion_compounds_witness :
  ∃ v1 s1 s2,
    adjust_portion (PortionAdjustment.mk "m1" 150) (mk_db [] [example_meal]) = (Ok v1, s1) ∧
    adjust_portion (PortionAdjustment.mk "m1" 75) s1
    = (Ok (UpdatedValues.mk 75 150 7.5 30 3.8), s2) ∧
    find_one (λ m, String.eqb (Meal.meal_id m) "m1") (meals_collection s2)
    = Some (Meal.mk "m1" "u1" "2024-01-01" "12:30" "arroz" 75 150 7.5 30 3.8 None
              1700000000%Z).
Proof.
  exact (adjust_portion_compounds (mk_db [] [example_meal]) (PortionAdjustment.mk "m1" 150)
           (PortionAdjustment.mk "m1" 75) example_meal eq_refl eq_refl eq_refl eq_refl).
Defined.

(** X13: An adjustment to the portion 0 succeeds, and after it every adjustment
    of that meal fails with status 500: the stored portion 0 stays. *)
Theorem adjust_to_zero_blocks_later (s : db) (first later : PortionAdjustment.t)
  (meal : Meal.t) :
  PortionAdjustment.meal_id later = PortionAdjustment.meal_id first →
  find_one (λ m, String.eqb (Meal.meal_id m) (PortionAdjustment.meal_id first))
    (meals_collection s) = Some meal →
  (Meal.portion_size meal =? 0)%float = false →
  (PortionAdjustment.new_portion_size first =? 0)%float = true →
  ∃ v1 s1,
    adjust_portion first s = (Ok v1, s1) ∧
    adjust_portion later s1 = (Raise (HTTPException 500 (StrOf "" ZeroDivisionError)), s1).
Proof.
  intros Hid Hfind Hp0 Hp1.
  pose proof (find_one_Some_elem _ _ _ Hfind) as [_ Hmid].
  eexists. eexists. split; [apply (adjust_portion_found _ _ _ Hfind Hp0)|].
  eapply adjust_portion_found_zero.
  - rewrite Hid. cbn [meals_collection]. apply find_one_update_one; [exact Hfind|exact Hmid].
  - exact Hp1.
Qed.

Lemma adjust_to_zero_blocks_later_witness :
  ∃ v1 s1,
    adjust_portion (PortionAdjustment.mk "m1" 0) (mk_db [] [example_meal]) = (Ok v1, s1) ∧
    adjust_portion (PortionAdjustment.mk "m1" 100) s1
    = (Raise (HTTPException 500 (StrOf "" ZeroDivisionError)), s1).
Proof.
  exact (adjust_to_zero_blocks_later (mk_db [] [example_meal]) (PortionAdjustment.mk "m1" 0)
           (PortionAdjustment.mk "m1" 100) example_meal eq_refl eq_refl eq_refl eq_refl).
Defined.

(** ** Food analysis *)

Lemma strip_markdown_blank (text : string) :
  all_spaces text = true → strip_markdown text = "".
Proof.
  unfold all_spaces, strip_markdown, strip. intros Hblank%String.eqb_eq.
  rewrite Hblank. reflexivity.
Qed.

Lemma analyze_food_with_ai_returns (key : string) (r : response) (v : value) :
  key ≠ "" → normalize_response r = Ok v → analyze_food_with_ai (Some key) (Ok r) = Ok v.
Proof.
  intros Hkey Hr. unfold analyze_food_with_ai. destruct key; [congruence|].
  cbn. rewrite Hr. reflexivity.
Qed.

Lemma analyze_food_with_ai_outcomes (api_key : option string) (sent : result response) :
  (∃ v, analyze_food_with_ai api_key sent = Ok v) ∨
  (∃ cause, analyze_food_with_ai api_key sent
            = Raise (HTTPException 500 (StrOf "Erro ao analisar alimento: " cause))).
Proof.
  unfold analyze_food_with_ai, try_except.
  destruct (match api_key with
            | None | Some EmptyString => Raise (ValueError "EMERGENT_LLM_KEY não configurada")
            | Some _ => r ← sent; normalize_response r
            end); eauto.
Qed.

Lemma analyze_food_found (api_key : option string) (sent : result response) (new_id : string)
  (request : FoodAnalysisRequest.t) (s : db) (user : UserProfile.t) :
  find_one (λ d, String.eqb (UserProfile.user_id d) (FoodAnalysisRequest.user_id request))
    (users_collection s) = Some user →
  analyze_food api_key sent new_id request s =
    (try_except_reraise_http
       (food_data ← analyze_food_with_ai api_key sent;
        food_name ← dict_get food_data "food_name" (VStr "Alimento não identificado");
        portion_size ← dict_get food_data "portion_size" (VInt 100);
        calories ← dict_get food_data "calories" (VInt 0);
        protein ← dict_get food_data "protein" (VInt 0);
        carbs ← dict_get food_data "carbs" (VInt 0);
        fats ← dict_get food_data "fats" (VInt 0);
        confidence ← dict_get food_data "confidence" (VStr "média");
        Ok (FoodAnalysis.mk new_id food_name portion_size calories protein carbs fats
              confidence))
       (λ e, HTTPException 500 (StrOf "Erro ao processar imagem: " e)), s).
Proof.
  intros Hfind. unfold analyze_food, handler_try_reraise_http. rewrite Hfind. reflexivity.
Qed.

(** X14: A response that is empty or holds white space only, an empty list of
    answers included, is no analysis: the error of status 500 whose cause is
    the JSON decoding error. *)
Theorem blank_response_is_an_error (key : string) (r : response) (text : string) :
  key ≠ "" → response_text r = Ok text → all_spaces text = true →
  analyze_food_with_ai (Some key) (Ok r)
  = Raise (HTTPException 500 (StrOf "Erro ao analisar alimento: " JSONDecodeError)).
Proof.
  intros Hkey Htext Hblank. apply analyze_food_with_ai_raises; [exact Hkey|].
  unfold normalize_response. rewrite Htext. cbn [mbind result_bind].
  rewrite (strip_markdown_blank _ Hblank). reflexivity.
Qed.

Lemma blank_response_is_an_error_witness :
  analyze_food_with_ai (Some "key") (Ok (AsList []))
  = Raise (HTTPException 500 (StrOf "Erro ao analisar alimento: " JSONDecodeError)).
Proof.
  refine (blank_response_is_an_error "key" (AsList []) "" _ eq_refl eq_refl). discriminate.
Defined.

(** X15: The analysis endpoint never changes the store.  It answers with status
    404 exactly when no stored profile has the request's [user_id], whatever
    the key and the model's answer are; every other failure has status 500,
    either the error of [analyze_food_with_ai] handed on as it is, or the
    error of reading a field from an analysis that is not an object.  A
    successful answer carries the fresh [meal_id]. *)
Theorem analyze_food_outcomes (api_key : option string) (sent : result response)
  (new_id : string) (request : FoodAnalysisRequest.t) (s : db) :
  let answer := analyze_food api_key sent new_id request s in
  snd answer = s ∧
  (fst answer = Raise (HTTPException 404 (Text "Usuário não encontrado"))
   ↔ ∀ d, d ∈ users_collection s → UserProfile.user_id d ≠ FoodAnalysisRequest.user_id request) ∧
  (∀ e, fst answer = Raise e →
     e = HTTPException 404 (Text "Usuário não encontrado") ∨
     (∃ cause, analyze_food_with_ai api_key sent = Raise e ∧
        e = HTTPException 500 (StrOf "Erro ao analisar alimento: " cause)) ∨
     (∃ v, analyze_food_with_ai api_key sent = Ok v ∧ (∀ d, v ≠ VDict d) ∧
        e = HTTPException 500 (StrOf "Erro ao processar imagem: " AttributeError))) ∧
  (∀ found, fst answer = Ok found → FoodAnalysis.meal_id found = new_id).
Proof.
  intros answer. subst answer.
  destruct (find_one (λ d, String.eqb (UserProfile.user_id d)
                             (FoodAnalysisRequest.user_id request))
              (users_collection s)) as [user|] eqn:Hfind.
  - rewrite (analyze_food_found _ _ _ _ _ _ Hfind). cbn [fst snd].
    pose proof (find_one_Some_elem _ _ _ Hfind) as [Hin Hid]. apply String.eqb_eq in Hid.
    split; [reflexivity|].
    destruct (analyze_food_with_ai_outcomes api_key sent) as [[v Hv]|[cause Hc]].
    + rewrite Hv. cbn [mbind result_bind].
      destruct v as [| | | | | |d];
        try (cbn; split; [split; [discriminate|intros Hall; exfalso; exact (Hall user Hin Hid)]|];
             split; [|discriminate];
             intros e [= <-]; right; right; eexists; split; [reflexivity|];
             split; [discriminate|reflexivity]).
      cbn. split; [split; [discriminate|intros Hall; exfalso; exact (Hall user Hin Hid)]|].
      split; [discriminate|]. intros found [= <-]. reflexivity.
    + rewrite Hc. cbn. split; [split; [discriminate|intros Hall; exfalso; exact (Hall user Hin Hid)]|].
      split; [|discriminate]. intros e [= <-]. right. left. eauto.
  - unfold analyze_food, handler_try_reraise_http. rewrite Hfind. cbn.
    split; [reflexivity|]. split; [|split; [|discriminate]].
    + split; [|reflexivity]. intros _ d Hd Heq.
      rewrite find_one_None_iff in Hfind. specialize (Hfind d Hd). cbn in Hfind.
      apply String.eqb_neq in Hfind. contradiction.
    + intros e [= <-]. auto.
Qed.

(** X16: For a known user and a missing or empty key the answer is the error of
    status 500 that names the missing key, and the model's answer is never
    looked at. *)
Theorem analyze_food_without_key (api_key : option string) (sent : result response)
  (new_id : string) (request : FoodAnalysisRequest.t) (s : db) (user : UserProfile.t) :
  find_one (λ d, String.eqb (UserProfile.user_id d) (FoodAnalysisRequest.user_id request))
    (users_collection s) = Some user →
  api_key = None ∨ api_key = Some "" →
  analyze_food api_key sent new_id request s
  = (Raise (HTTPException 500
              (StrOf "Erro ao analisar alimento: "
                 (ValueError "EMERGENT_LLM_KEY não configurada"))), s).
Proof.
  intros Hfind Hkey. rewrite (analyze_food_found _ _ _ _ _ _ Hfind).
  destruct Hkey as [-> | ->]; reflexivity.
Qed.

Lemma analyze_food_without_key_witness :
  analyze_food None (Ok (AsText rice_json)) "id" (FoodAnalysisRequest.mk "" "u1")
    (mk_db [example_profile] [])
  = (Raise (HTTPException 500
              (StrOf "Erro ao analisar alimento: "
                 (ValueError "EMERGENT_LLM_KEY não configurada"))),
     mk_db [example_profile] []).
Proof.
  exact (analyze_food_without_key None (Ok (AsText rice_json)) "id"
           (FoodAnalysisRequest.mk "" "u1") (mk_db [example_profile] []) example_profile
           eq_refl (or_introl eq_refl)).
Defined.

(** X17: When the model's answer parses to an object, each field of the answer
    is the object's field when the object has it, whatever its value (a
    [null] stays), and the default otherwise: "Alimento não identificado",
    100 g, 0 for each nutrient, confidence "média". *)
Theorem analyze_food_object_defaults (key : string) (r : response) (text : string)
  (d : gmap string value) (new_id : string) (request : FoodAnalysisRequest.t) (s : db)
  (user : UserProfile.t) :
  find_one (λ d, String.eqb (UserProfile.user_id d) (FoodAnalysisRequest.user_id request))
    (users_collection s) = Some user →
  key ≠ "" → response_text r = Ok text →
  json_loads (strip_markdown text) = Ok (VDict d) →
  analyze_food (Some key) (Ok r) new_id request s
  = (Ok (FoodAnalysis.mk new_id
           (default (VStr "Alimento não identificado") (d !! "food_name"))
           (default (VInt 100) (d !! "portion_size"))
           (default (VInt 0) (d !! "calories"))
           (default (VInt 0) (d !! "protein"))
           (default (VInt 0) (d !! "carbs"))
           (default (VInt 0) (d !! "fats"))
           (default (VStr "média") (d !! "confidence"))), s).
Proof.
  intros Hfind Hkey Htext Hparsed. rewrite (analyze_food_found _ _ _ _ _ _ Hfind).
  rewrite (analyze_food_with_ai_returns key r (VDict d) Hkey); [reflexivity|].
  unfold normalize_response. rewrite Htext. cbn [mbind result_bind]. rewrite Hparsed.
  reflexivity.
Qed.

Lemma analyze_food_object_defaults_witness :
  analyze_food (Some "key") (Ok (AsList [VStr rice_fenced])) "id"
    (FoodAnalysisRequest.mk "" "u1") (mk_db [example_profile] [])
  = (Ok (FoodAnalysis.mk "id" (VStr "rice") (VInt 100) (VInt 200) (VInt 0) (VInt 0) (VInt 0)
           (VStr "média")), mk_db [example_profile] []).
Proof.
  refine (analyze_food_object_defaults "key" (AsList [VStr rice_fenced]) rice_fenced
            (<["calories" := VInt 200]> (<["food_name" := VStr "rice"]> ∅)) "id"
            (FoodAnalysisRequest.mk "" "u1") (mk_db [example_profile] []) example_profile
            eq_refl _ eq_refl _).
  - discriminate.
  - vm_compute. reflexivity.
Defined.

(** X18: When the model's answer parses to a JSON value that is neither an array
    nor an object (a number, a text, [true], [null]), [analyze_food_with_ai]
    returns it as it is, and the endpoint fails with status 500 on reading
    its first field. *)
Theorem analyze_food_scalar_is_an_error (key : string) (r : response) (text : string)
  (v : value) (new_id : string) (request : FoodAnalysisRequest.t) (s : db)
  (user : UserProfile.t) :
  find_one (λ d, String.eqb (UserProfile.user_id d) (FoodAnalysisRequest.user_id request))
    (users_collection s) = Some user →
  key ≠ "" → response_text r = Ok text →
  json_loads (strip_markdown text) = Ok v →
  (∀ l, v ≠ VList l) → (∀ d, v ≠ VDict d) →
  analyze_food_with_ai (Some key) (Ok r) = Ok v ∧
  analyze_food (Some key) (Ok r) new_id request s
  = (Raise (HTTPException 500 (StrOf "Erro ao processar imagem: " AttributeError)), s).
Proof.
  intros Hfind Hkey Htext Hparsed Hlist Hdict.
  assert (Hv : analyze_food_with_ai (Some key) (Ok r) = Ok v).
  { apply analyze_food_with_ai_returns; [exact Hkey|].
    unfold normalize_response. rewrite Htext. cbn [mbind result_bind]. rewrite Hparsed.
    cbn [mbind result_bind]. destruct v; try reflexivity. exfalso. eapply Hlist. reflexivity. }
  split; [exact Hv|]. rewrite (analyze_food_found _ _ _ _ _ _ Hfind), Hv.
  destruct v; try reflexivity. exfalso. eapply Hdict. reflexivity.
Qed.

Lemma analyze_food_scalar_is_an_error_witness :
  analyze_food_with_ai (Some "key") (Ok (AsText "42")) = Ok (VInt 42) ∧
  analyze_food (Some "key") (Ok (AsText "42")) "id" (FoodAnalysisRequest.mk "" "u1")
    (mk_db [example_profile] [])
  = (Raise (HTTPException 500 (StrOf "Erro ao processar imagem: " AttributeError)),
     mk_db [example_profile] []).
Proof.
  refine (analyze_food_scalar_is_an_error "key" (AsText "42") "42" (VInt 42) "id"
            (FoodAnalysisRequest.mk "" "u1") (mk_db [example_profile] []) example_profile
            eq_refl _ eq_refl _ _ _).
  - discriminate.
  - vm_compute. reflexivity.
  - discriminate.
  - discriminate.
Defined.

(** ** Meal history: order and coverage *)

Lemma string_leb_ne_ltb (a b : string) :
  String.leb a b = true → a ≠ b → String.ltb a b = true.
Proof.
  unfold String.leb, String.ltb. intros Hle Hne.
  destruct (String.compare a b) eqn:Hc; [|reflexivity|discriminate].
  apply String.compare_eq_iff in Hc. contradiction.
Qed.

Lemma group_by_date_dates (retrieved : list Meal.t) :
  DayHistory.date <$> (group_by_date retrieved).*2 = (group_by_date retrieved).*1.
Proof.
  rewrite <- list_fmap_compose. apply list_fmap_ext.
  intros i [d day] Hin%list_elem_of_lookup_2. cbn.
  apply elem_of_lookup_day in Hin; [|apply group_by_date_NoDup].
  rewrite lookup_day_group_by_date in Hin.
  destruct (filter (λ m, Meal.date m = d) retrieved); [discriminate|].
  injection Hin as <-. reflexivity.
Qed.

Lemma group_by_date_keys_dates (meals : list Meal.t) (d : string) :
  d ∈ (group_by_date meals).*1 ↔ ∃ m, m ∈ meals ∧ Meal.date m = d.
Proof.
  induction meals as [|meal meals IH] using rev_ind.
  - split; [intros Hin; inversion Hin|intros (m & Hm & _); inversion Hm].
  - rewrite group_by_date_snoc, group_meal_keys.
    destruct (decide (Meal.date meal ∈ (group_by_date meals).*1)) as [Hin|Hnin].
    + rewrite IH. split.
      * intros (m & Hm & Hd). exists m. split; [apply elem_of_app; auto|exact Hd].
      * intros (m & [Hm|Hm]%elem_of_app & Hd); [eauto|].
        apply list_elem_of_singleton in Hm. subst m d. apply IH. exact Hin.
    + rewrite elem_of_app, list_elem_of_singleton, IH. split.
      * intros [(m & Hm & Hd)| ->].
        -- exists m. split; [apply elem_of_app; auto|exact Hd].
        -- exists meal. split; [apply elem_of_app; right; apply list_elem_of_singleton|];
             reflexivity.
      * intros (m & [Hm|Hm]%elem_of_app & Hd); [eauto|].
        apply list_elem_of_singleton in Hm. subst m. auto.
Qed.

Lemma group_by_date_keys_sorted (meals : list Meal.t) :
  StronglySorted date_ge meals →
  StronglySorted (λ d later, String.ltb later d = true) (group_by_date meals).*1.
Proof.
  induction meals as [|meal meals IH] using rev_ind; intros Hsorted.
  - constructor.
  - rewrite group_by_date_snoc, group_meal_keys.
    pose proof (IH (StronglySorted_app_1_l _ _ _ Hsorted)) as Hkeys.
    destruct (decide (Meal.date meal ∈ (group_by_date meals).*1)) as [Hin|Hnin];
      [exact Hkeys|].
    apply StronglySorted_app_2; [|exact Hkeys|repeat constructor].
    intros d later Hd ->%list_elem_of_singleton.
    pose proof Hd as (m & Hm & <-)%group_by_date_keys_dates.
    apply string_leb_ne_ltb.
    + apply (StronglySorted_app_1_elem_of _ _ _ _ _ Hsorted Hm).
      apply list_elem_of_singleton. reflexivity.
    + intros Heq. apply Hnin. rewrite Heq. exact Hd.
Qed.

Lemma group_meal_members (meal : Meal.t) (h : list (string * DayHistory.t)) :
  concat (DayHistory.meals <$> (group_meal meal h).*2)
  ≡ₚ concat (DayHistory.meals <$> h.*2) ++ [meal].
Proof.
  induction h as [|[d day] h IH]; [reflexivity|].
  cbn [group_meal]. destruct (String.eqb (Meal.date meal) d).
  - rewrite !fmap_cons. cbn [snd concat add_meal DayHistory.meals].
    rewrite <- !(assoc_L (++)). apply Permutation_app_head. apply Permutation_app_comm.
  - rewrite !fmap_cons. cbn [snd concat]. rewrite IH, (assoc_L (++)). reflexivity.
Qed.

Lemma group_by_date_members (retrieved : list Meal.t) :
  concat (DayHistory.meals <$> (group_by_date retrieved).*2) ≡ₚ retrieved.
Proof.
  induction retrieved as [|meal retrieved IH] using rev_ind; [reflexivity|].
  rewrite group_by_date_snoc, group_meal_members, IH. reflexivity.
Qed.

Lemma get_meal_history_value (sort : list Meal.t → list Meal.t) (user_id : string)
  (days : Z) (s : db) (retrieved : list Meal.t) :
  recent_meals sort user_id days s = Ok retrieved →
  get_meal_history sort user_id days s = (Ok (group_by_date retrieved).*2, s).
Proof. intros Hq. unfold get_meal_history, handler_try. rewrite Hq. reflexivity. Qed.

Section History.
Variable sort : list Meal.t → list Meal.t.
Hypothesis sort_Permutation : ∀ c, sort c ≡ₚ c.
Hypothesis sort_StronglySorted : ∀ c, StronglySorted date_ge (sort c).

Lemma recent_meals_outcomes (user_id : string) (days : Z) (s : db) :
  let mine := filter (λ m, Meal.user_id m = user_id) (meals_collection s) in
  if (2 ^ 63 <=? Z.abs (days * 10))%Z
  then recent_meals sort user_id days s = Raise OverflowError
  else ∃ k, recent_meals sort user_id days s = Ok (take k (sort mine)) ∧
            (days = 0%Z ∨ (0 ≤ days ∧ Z.of_nat (length mine) ≤ days * 10)%Z →
             length mine ≤ k).
Proof using sort_Permutation.
  intros mine. unfold recent_meals, cursor_limit. fold mine.
  destruct (Z.leb_spec (2 ^ 63) (Z.abs (days * 10))) as [Hbig|Hfit].
  - destruct (Z.eqb_spec (days * 10) 0) as [Hz|_]; [|reflexivity].
    rewrite Hz in Hbig. cbn in Hbig. lia.
  - destruct (Z.eqb_spec (days * 10) 0) as [Hz|Hnz].
    + exists (length mine). rewrite take_ge; [auto|].
      rewrite (Permutation_length (sort_Permutation mine)). lia.
    + exists (Z.abs_nat (days * 10)). split; [reflexivity|]. lia.
Qed.

(** X19: The history lists the days from the greatest date string to the
    smallest, each strictly below the one before: with dates written as
    year-month-day in full, the most recent day comes first. *)
Theorem history_most_recent_first (user_id : string) (days : Z) (s : db) :
  (0 ≤ days)%Z → (days * 10 < 2 ^ 63)%Z →
  ∃ history,
    get_meal_history sort user_id days s = (Ok history, s) ∧
    StronglySorted
      (λ day later, String.ltb (DayHistory.date later) (DayHistory.date day) = true) history.
Proof using sort_Permutation sort_StronglySorted.
  intros Hpos Hfit. pose proof (recent_meals_outcomes user_id days s) as Hq. cbn zeta in Hq.
  destruct (Z.leb_spec (2 ^ 63) (Z.abs (days * 10))) as [Hbig|_]; [lia|].
  destruct Hq as (k & Hq & _). eexists. split; [apply get_meal_history_value; exact Hq|].
  set (taken := take k _).
  assert (Hsorted : StronglySorted date_ge taken).
  { pose proof (sort_StronglySorted
                  (filter (λ m, Meal.user_id m = user_id) (meals_collection s))) as Hs.
    rewrite <- (take_drop k) in Hs. exact (StronglySorted_app_1_l _ _ _ Hs). }
  apply group_by_date_keys_sorted in Hsorted. rewrite <- group_by_date_dates in Hsorted.
  clear -Hsorted. induction (group_by_date taken).*2 as [|day l IH]; [constructor|].
  rewrite fmap_cons in Hsorted. apply StronglySorted_cons in Hsorted as [Hall Hl].
  constructor; [exact (IH Hl)|]. rewrite Forall_fmap in Hall. exact Hall.
Qed.

(** X20: For a user with at most ten meals per requested day (or with the day
    count 0, which lifts the limit), the history loses and repeats nothing:
    the meals of its days, taken together, are the stored meals of the user,
    each as often as it is stored. *)
Theorem history_holds_each_meal_once (user_id : string) (days : Z) (s : db) :
  let mine := filter (λ m, Meal.user_id m = user_id) (meals_collection s) in
  (0 ≤ days)%Z → (days * 10 < 2 ^ 63)%Z →
  days = 0%Z ∨ (Z.of_nat (length mine) ≤ days * 10)%Z →
  ∃ history,
    get_meal_history sort user_id days s = (Ok history, s) ∧
    concat (DayHistory.meals <$> history) ≡ₚ mine ∧
    (∀ day, day ∈ history → DayHistory.meals day ≠ []).
Proof using sort_Permutation.
  intros mine Hpos Hfit Hall. pose proof (recent_meals_outcomes user_id days s) as Hq.
  cbn zeta in Hq. fold mine in Hq.
  destruct (Z.leb_spec (2 ^ 63) (Z.abs (days * 10))) as [Hbig|_]; [lia|].
  destruct Hq as (k & Hq & Hk). eexists. split; [apply get_meal_history_value; exact Hq|].
  rewrite take_ge.
  - split; [rewrite group_by_date_members; apply sort_Permutation|].
    intros day Hday%elem_of_group_by_date. tauto.
  - rewrite (Permutation_length (sort_Permutation mine)). apply Hk. lia.
Qed.

(** X21: For such a user the two listings agree: a day of the history holds the
    meals that the listing of that user and date returns, up to their
    order, and every date on which the user has a stored meal is a day of
    the history. *)
Theorem history_day_agrees_with_listing (user_id : string) (days : Z) (s : db) :
  let mine := filter (λ m, Meal.user_id m = user_id) (meals_collection s) in
  (0 ≤ days)%Z → (days * 10 < 2 ^ 63)%Z →
  days = 0%Z ∨ (Z.of_nat (length mine) ≤ days * 10)%Z →
  ∃ history,
    get_meal_history sort user_id days s = (Ok history, s) ∧
    (∀ day, day ∈ history →
       ∃ listing,
         get_meals_by_date user_id (DayHistory.date day) s = (Ok listing, s) ∧
         DayHistory.meals day ≡ₚ DayMeals.meals listing ∧
         DayTotals.meals_count (DayMeals.totals listing) = length (DayHistory.meals day)) ∧
    (∀ m, m ∈ meals_collection s → Meal.user_id m = user_id →
       ∃ day, day ∈ history ∧ DayHistory.date day = Meal.date m ∧ m ∈ DayHistory.meals day).
Proof using sort_Permutation.
  intros mine Hpos Hfit Hall. pose proof (recent_meals_outcomes user_id days s) as Hq.
  cbn zeta in Hq. fold mine in Hq.
  destruct (Z.leb_spec (2 ^ 63) (Z.abs (days * 10))) as [Hbig|_]; [lia|].
  destruct Hq as (k & Hq & Hk). eexists. split; [apply get_meal_history_value; exact Hq|].
  rewrite take_ge
    by (rewrite (Permutation_length (sort_Permutation mine)); apply Hk; lia).
  assert (Hgroup : ∀ d, filter (λ m, Meal.date m = d) (sort mine)
                        ≡ₚ filter (λ m, Meal.user_id m = user_id ∧ Meal.date m = d)
                             (meals_collection s)).
  { intros d. rewrite (sort_Permutation mine). unfold mine. rewrite list_filter_filter.
    erewrite list_filter_iff; [reflexivity|]. intros m. cbn. tauto. }
  split.
  - intros day [Hday _]%elem_of_group_by_date.
    eexists. split; [apply get_meals_by_date_value|].
    cbn [DayMeals.meals DayMeals.totals DayTotals.meals_count].
    rewrite Hday. unfold day_group at 1 3. cbn [DayHistory.meals DayHistory.date].
    split; [apply Hgroup|]. symmetry. apply Permutation_length, Hgroup.
  - intros m Hm Hu.
    assert (Hin : m ∈ filter (λ m', Meal.date m' = Meal.date m) (sort mine)).
    { apply list_elem_of_filter. split; [reflexivity|]. rewrite (sort_Permutation mine).
      apply list_elem_of_filter. auto. }
    exists (day_group (Meal.date m) (sort mine)). split; [|split; [reflexivity|exact Hin]].
    apply elem_of_group_by_date. split; [reflexivity|].
    unfold day_group. cbn [DayHistory.meals]. intros Hnil. rewrite Hnil in Hin. inversion Hin.
Qed.

(** X22: The history never changes the store, and it fails in one case only:
    when ten times the day count does not fit 8 bytes, with status 500.
    A user without stored meals gets the empty history, not an error. *)
Theorem history_fails_only_on_overflow (user_id : string) (days : Z) (s : db) :
  let answer := get_meal_history sort user_id days s in
  snd answer = s ∧
  (fst answer = Raise (HTTPException 500 (StrOf "" OverflowError))
   ↔ (2 ^ 63 ≤ Z.abs (days * 10))%Z) ∧
  ((Z.abs (days * 10) < 2 ^ 63)%Z → ∃ history, fst answer = Ok history) ∧
  ((Z.abs (days * 10) < 2 ^ 63)%Z →
   (∀ m, m ∈ meals_collection s → Meal.user_id m ≠ user_id) → fst answer = Ok []).
Proof using sort_Permutation.
  intros answer. subst answer. pose proof (recent_meals_outcomes user_id days s) as Hq.
  cbn zeta in Hq.
  destruct (Z.leb_spec (2 ^ 63) (Z.abs (days * 10))) as [Hbig|Hfit].
  - unfold get_meal_history, handler_try. rewrite Hq. cbn.
    split; [reflexivity|]. split; [tauto|]. split; intros; lia.
  - destruct Hq as (k & Hq & _). rewrite (get_meal_history_value _ _ _ _ _ Hq). cbn [fst snd].
    split; [reflexivity|]. split; [split; [discriminate|lia]|]. split; [eauto|].
    intros _ Hnone. rewrite filter_none by exact Hnone.
    assert (Hnil : sort [] = []) by (apply Permutation_nil_r, sort_Permutation).
    rewrite Hnil. destruct k; reflexivity.
Qed.

End History.

Lemma history_most_recent_first_witness :
  ∃ history,
    get_meal_history merge_sort_date_desc "u1" 7
      (mk_db [] [meal_long_ago; meal_today; meal_yesterday; meal_today])
    = (Ok history, mk_db [] [meal_long_ago; meal_today; meal_yesterday; meal_today]) ∧
    StronglySorted
      (λ day later, String.ltb (DayHistory.date later) (DayHistory.date day) = true) history.
Proof.
  exact (history_most_recent_first merge_sort_date_desc merge_sort_date_desc_Permutation
           merge_sort_date_desc_StronglySorted "u1" 7
           (mk_db [] [meal_long_ago; meal_today; meal_yesterday; meal_today])
           ltac:(lia) ltac:(lia)).
Defined.

Lemma history_holds_each_meal_once_witness :
  ∃ history,
    get_meal_history merge_sort_date_desc "u1" 7
      (mk_db [] [meal_long_ago; meal_today; meal_yesterday; meal_today])
    = (Ok history, mk_db [] [meal_long_ago; meal_today; meal_yesterday; meal_today]) ∧
    concat (DayHistory.meals <$> history)
    ≡ₚ filter (λ m, Meal.user_id m = "u1")
         [meal_long_ago; meal_today; meal_yesterday; meal_today] ∧
    (∀ day, day ∈ history → DayHistory.meals day ≠ []).
Proof.
  apply (history_holds_each_meal_once merge_sort_date_desc merge_sort_date_desc_Permutation
           "u1" 7 (mk_db [] [meal_long_ago; meal_today; meal_yesterday; meal_today])).
  - lia.
  - lia.
  - right. vm_compute. discriminate.
Defined.

Lemma history_day_agrees_with_listing_witness :
  ∃ history,
    get_meal_history merge_sort_date_desc "u1" 0
      (mk_db [] [meal_long_ago; meal_today; meal_yesterday; meal_today])
    = (Ok history, mk_db [] [meal_long_ago; meal_today; meal_yesterday; meal_today]) ∧
    (∀ day, day ∈ history →
       ∃ listing,
         get_meals_by_date "u1" (DayHistory.date day)
           (mk_db [] [meal_long_ago; meal_today; meal_yesterday; meal_today])
         = (Ok listing, mk_db [] [meal_long_ago; meal_today; meal_yesterday; meal_today]) ∧
         DayHistory.meals day ≡ₚ DayMeals.meals listing ∧
         DayTotals.meals_count (DayMeals.totals listing) = length (DayHistory.meals day)) ∧
    (∀ m, m ∈ [meal_long_ago; meal_today; meal_yesterday; meal_today] →
       Meal.user_id m = "u1" →
       ∃ day, day ∈ history ∧ DayHistory.date day = Meal.date m ∧ m ∈ DayHistory.meals day).
Proof.
  apply (history_day_agrees_with_listing merge_sort_date_desc merge_sort_date_desc_Permutation
           "u1" 0 (mk_db [] [meal_long_ago; meal_today; meal_yesterday; meal_today])).
  - lia.
  - lia.
  - left. reflexivity.
Defined.

Lemma history_fails_only_on_overflow_witness :
  let answer := get_meal_history merge_sort_date_desc "nobody" 7 (mk_db [] [meal_today]) in
  snd answer = mk_db [] [meal_today] ∧
  (fst answer = Raise (HTTPException 500 (StrOf "" OverflowError))
   ↔ (2 ^ 63 ≤ Z.abs (7 * 10))%Z) ∧
  ((Z.abs (7 * 10) < 2 ^ 63)%Z → ∃ history, fst answer = Ok history) ∧
  ((Z.abs (7 * 10) < 2 ^ 63)%Z →
   (∀ m, m ∈ [meal_today] → Meal.user_id m ≠ "nobody") → fst answer = Ok []).
Proof.
  exact (history_fails_only_on_overflow merge_sort_date_desc merge_sort_date_desc_Permutation
           "nobody" 7 (mk_db [] [meal_today])).
Defined.

(** ** Texts that are not checked, and meals that are gone *)

Lemma calculate_bmr_other_gender (weight height : float) (age : Z) (gender : string) :
  String.eqb (lower gender) "masculino" = false →
  calculate_bmr weight height age gender = calculate_bmr weight height age "feminino".
Proof. intros Hg. unfold calculate_bmr. rewrite Hg. reflexivity. Qed.

Lemma calculate_tdee_other_level (bmr : float) (activity_level : string) :
  activity_multipliers !! lower activity_level = None →
  calculate_tdee bmr activity_level = calculate_tdee bmr "sedentario".
Proof. intros Ha. unfold calculate_tdee. rewrite Ha. reflexivity. Qed.

(** X23: Gender and activity level are not validated: a profile whose gender is
    not "masculino" up to the case of its letters and whose activity level
    is none of the five known ones is accepted, and gets the figures of a
    "feminino" and "sedentario" profile with the same measures. *)
Theorem unknown_gender_and_activity_fall_back (profile : UserProfile.t) (now : datetime)
  (s : db) :
  String.eqb (lower (UserProfile.gender profile)) "masculino" = false →
  activity_multipliers !! lower (UserProfile.activity_level profile) = None →
  fst (create_or_update_profile profile now s)
  = fst (create_or_update_profile
           (UserProfile.mk (UserProfile.user_id profile) (UserProfile.name profile)
              (UserProfile.age profile) "feminino" (UserProfile.height profile)
              (UserProfile.weight profile) "sedentario" (UserProfile.goal_weight profile)
              (UserProfile.daily_calorie_goal profile) (UserProfile.created_at profile))
           now s).
Proof.
  intros Hg Ha. unfold create_or_update_profile, handler_try, hbind, lift.
  cbn [UserProfile.user_id UserProfile.name UserProfile.age UserProfile.gender
       UserProfile.height UserProfile.weight UserProfile.activity_level
       UserProfile.goal_weight UserProfile.daily_calorie_goal UserProfile.created_at].
  rewrite (calculate_bmr_other_gender _ _ _ _ Hg).
  destruct (calculate_bmr _ _ _ "feminino") as [bmr|e]; [|reflexivity].
  destruct (bson_int (UserProfile.age profile)); [|reflexivity].
  cbn [fst try_except]. rewrite (calculate_tdee_other_level _ _ Ha). reflexivity.
Qed.

Lemma unknown_gender_and_activity_fall_back_witness :
  fst (create_or_update_profile
         (UserProfile.mk "u2" "Bia" 30 "Masculina" 165 60 "atleta" 60 None None) 0%Z
         (mk_db [] []))
  = fst (create_or_update_profile
           (UserProfile.mk "u2" "Bia" 30 "feminino" 165 60 "sedentario" 60 None None) 0%Z
           (mk_db [] [])).
Proof.
  exact (unknown_gender_and_activity_fall_back
           (UserProfile.mk "u2" "Bia" 30 "Masculina" 165 60 "atleta" 60 None None) 0%Z
           (mk_db [] []) eq_refl eq_refl).
Defined.

Lemma delete_meal_absent (meal_id : string) (s : db) :
  find_one (λ m, String.eqb (Meal.meal_id m) meal_id) (meals_collection s) = None →
  delete_meal meal_id s = (Raise (HTTPException 404 (Text "Refeição não encontrada")), s).
Proof.
  intros Hfind. unfold delete_meal, handler_try_reraise_http.
  rewrite (delete_one_not_found _ _ Hfind). destruct s. reflexivity.
Qed.

Lemma adjust_portion_absent (adjustment : PortionAdjustment.t) (s : db) :
  find_one (λ m, String.eqb (Meal.meal_id m) (PortionAdjustment.meal_id adjustment))
    (meals_collection s) = None →
  adjust_portion adjustment s
  = (Raise (HTTPException 404 (Text "Refeição não encontrada")), s).
Proof.
  intros Hfind. unfold adjust_portion, handler_try_reraise_http. rewrite Hfind. reflexivity.
Qed.

(** X24: When the stored meals have pairwise different [meal_id]s, a deleted
    meal is gone: the meals left are the stored ones of another [meal_id],
    the profiles are untouched, and deleting or adjusting that [meal_id]
    again answers with status 404. *)
Theorem deleted_meal_is_gone (meal_id : string) (s : db) (meal : Meal.t) :
  NoDup (Meal.meal_id <$> meals_collection s) →
  find_one (λ m, String.eqb (Meal.meal_id m) meal_id) (meals_collection s) = Some meal →
  ∃ s',
    delete_meal meal_id s = (Ok "Refeição deletada com sucesso", s') ∧
    users_collection s' = users_collection s ∧
    (∀ m, m ∈ meals_collection s' ↔ m ∈ meals_collection s ∧ Meal.meal_id m ≠ meal_id) ∧
    length (meals_collection s) = S (length (meals_collection s')) ∧
    delete_meal meal_id s' = (Raise (HTTPException 404 (Text "Refeição não encontrada")), s') ∧
    (∀ portion, adjust_portion (PortionAdjustment.mk meal_id portion) s'
                = (Raise (HTTPException 404 (Text "Refeição não encontrada")), s')).
Proof.
  intros Hnodup Hfind.
  destruct (delete_one_found _ _ _ Hfind) as (before & after & Hc & _ & Hdel).
  apply find_one_Some_elem in Hfind as [_ Hid]. apply String.eqb_eq in Hid.
  rewrite Hc, fmap_app, fmap_cons, Hid in Hnodup.
  apply NoDup_app in Hnodup as (_ & Hbefore & [Hafter _]%NoDup_cons).
  assert (Hleft : ∀ m, m ∈ before ++ after → Meal.meal_id m ≠ meal_id).
  { intros m [Hm|Hm]%elem_of_app Heq.
    - apply (Hbefore meal_id); [|apply elem_of_cons; auto].
      apply list_elem_of_fmap. eauto.
    - apply Hafter. apply list_elem_of_fmap. eauto. }
  assert (Hnone : find_one (λ m, String.eqb (Meal.meal_id m) meal_id) (before ++ after) = None).
  { apply find_one_None_iff. intros m Hm. apply String.eqb_neq. exact (Hleft m Hm). }
  exists (mk_db (users_collection s) (before ++ after)).
  split; [unfold delete_meal, handler_try_reraise_http; rewrite Hdel; reflexivity|].
  split; [reflexivity|]. cbn [meals_collection]. split.
  { intros m. rewrite Hc. split.
    - intros Hm. split; [|exact (Hleft m Hm)].
      apply elem_of_app in Hm as [Hm|Hm]; apply elem_of_app; [auto|].
      right. apply elem_of_cons. auto.
    - intros [[Hm|[->|Hm]%elem_of_cons]%elem_of_app Hne]; [|contradiction|];
        apply elem_of_app; auto. }
  split; [rewrite Hc, !length_app; cbn; lia|].
  split; [apply delete_meal_absent; exact Hnone|].
  intros portion. apply adjust_portion_absent. exact Hnone.
Qed.

Lemma deleted_meal_is_gone_witness :
  ∃ s',
    delete_meal "today" (mk_db [] [meal_yesterday; meal_today])
      = (Ok "Refeição deletada com sucesso", s') ∧
    users_collection s' = [] ∧
    (∀ m, m ∈ meals_collection s' ↔ m ∈ [meal_yesterday; meal_today] ∧ Meal.meal_id m ≠ "today") ∧
    2 = S (length (meals_collection s')) ∧
    delete_meal "today" s' = (Raise (HTTPException 404 (Text "Refeição não encontrada")), s') ∧
    (∀ portion, adjust_portion (PortionAdjustment.mk "today" portion) s'
                = (Raise (HTTPException 404 (Text "Refeição não encontrada")), s')).
Proof.
  apply (deleted_meal_is_gone "today" (mk_db [] [meal_yesterday; meal_today]) meal_today).
  - apply (bool_decide_unpack _). vm_compute. reflexivity.
  - reflexivity.
Defined.
